(** * Startup Company Data Manager: the service of main.py, embedded

    The development follows the three source files of the service:
    - models.py: the two tables, [Company.row] and [Product.row], and the
      cascade declared on [Company.products];
    - schemas.py: the field contracts of [CompanyBase] and [ProductBase];
    - main.py: the request handlers, written in a small session monad
      that keeps the committed store apart from the rows the running
      request has written but not yet committed. *)

From Stdlib Require Import ZArith List String Ascii Bool Lia DecimalString.
Import ListNotations.
Local Open Scope string_scope.
Local Open Scope list_scope.
Local Open Scope Z_scope.
Set Warnings "-register-all".

(** ** Values read by json.load

    Objects are association lists in document order; a key is looked up at
    its first binding.  Numbers are the integers (the seed format and the
    schemas have no fractional field). *)
Inductive JSON : Type :=
| JNull
| JBool (b : bool)
| JInt (n : Z)
| JStr (s : string)
| JArr (items : list JSON)
| JObj (members : list (string * JSON)).

Definition dict := list (string * JSON).

(** d.get(k) *)
Fixpoint dict_get (k : string) (d : dict) : option JSON :=
  match d with
  | [] => None
  | (k', v) :: d' => if String.eqb k k' then Some v else dict_get k d'
  end.

(** the dict left by d.pop(k, default) *)
Fixpoint dict_remove (k : string) (d : dict) : dict :=
  match d with
  | [] => []
  | (k', v) :: d' =>
      if String.eqb k k' then dict_remove k d' else (k', v) :: dict_remove k d'
  end.

Definition dict_keys (d : dict) : list string := map fst d.

Definition mem_string (k : string) (ks : list string) : bool :=
  existsb (String.eqb k) ks.

(** ** Strings *)

(** SQL lower(): the ASCII capitals are folded, every other byte is kept. *)
Definition ascii_lower (c : ascii) : ascii :=
  let n := nat_of_ascii c in
  if (65 <=? n)%nat && (n <=? 90)%nat then ascii_of_nat (n + 32) else c.

Fixpoint lower (s : string) : string :=
  match s with
  | EmptyString => EmptyString
  | String c s' => String (ascii_lower c) (lower s')
  end.

(** str(n) of a Python int, as the f-strings of the handlers print it *)
Definition str_of_int (n : Z) : string := NilZero.string_of_int (Z.to_int n).

(** ** Exceptions and results *)

Inductive ErrorType : Type :=
| missing
| string_type
| string_too_short
| string_too_long
| literal_error
| int_type
| greater_than_equal
| less_than_equal
| greater_than
| model_attributes_type.

Inductive Exn : Type :=
| HTTPException (status_code : Z) (detail : string)
| RequestValidationError (errors : list (string * ErrorType))
| FileNotFoundError
| JSONDecodeError
| AttributeError
| KeyError (key : string)
| TypeError
| IntegrityError.

(** The status line the framework answers with when a handler raises. *)
Definition status_of (e : Exn) : Z :=
  match e with
  | HTTPException code _ => code
  | RequestValidationError _ => 422
  | _ => 500
  end.

(** What a call gives back.  [Unmodelled] marks the inputs on which the
    development says nothing.  Their treatment is decided by the storage
    backend (database.py and the engine behind it are not part of the
    sources): a value of another JSON type than the column it is bound to,
    and an explicit value for a store-assigned column; or by pydantic's lax
    conversions (see [Lax] below). *)
Inductive Result (A : Type) : Type :=
| Ok (a : A)
| Raise (e : Exn)
| Unmodelled.
Arguments Ok {A} a.
Arguments Raise {A} e.
Arguments Unmodelled {A}.

(** ** models.py *)

Module Company.
Record row : Type := mk {
  id : Z;
  name : string;
  tagline : string;
  description : string;
  industry : string;
  founded_year : Z;
  employee_count : Z;
  headquarters : string;
  website_url : option string;
  created_at : Z
}.
(** A transient instance, before the flush: every attribute may still be
    unset (None). *)
Record obj : Type := new {
  o_name : option string;
  o_tagline : option string;
  o_description : option string;
  o_industry : option string;
  o_founded_year : option Z;
  o_employee_count : option Z;
  o_headquarters : option string;
  o_website_url : option string
}.
(** hasattr(Company, k) for the mapped attributes *)
Definition attributes : list string :=
  ["id"; "name"; "tagline"; "description"; "industry"; "founded_year";
   "employee_count"; "headquarters"; "website_url"; "created_at"; "products"].
End Company.

Module Product.
Record row : Type := mk {
  id : Z;
  company_id : Z;
  name : string;
  description : string;
  target_audience : string;
  key_features : string;
  pricing_model : string;
  created_at : Z
}.
Record obj : Type := new {
  o_company_id : Z;
  o_name : option string;
  o_description : option string;
  o_target_audience : option string;
  o_key_features : option string;
  o_pricing_model : option string
}.
Definition attributes : list string :=
  ["id"; "company_id"; "name"; "description"; "target_audience";
   "key_features"; "pricing_model"; "created_at"; "company"].
End Product.

(** The two tables, each in insertion order. *)
Record DB : Type := mkDB {
  companies : list Company.row;
  products : list Product.row
}.

Definition empty_db : DB := {| companies := []; products := [] |}.

(** ** schemas.py *)

Module CompanyBase.
Record t : Type := mk {
  name : string;
  tagline : string;
  description : string;
  industry : string;
  founded_year : Z;
  employee_count : Z;
  headquarters : string;
  website_url : option string
}.
Definition required : list string :=
  ["name"; "tagline"; "description"; "industry"; "founded_year";
   "employee_count"; "headquarters"].
End CompanyBase.

Definition CompanyCreate : Type := CompanyBase.t.
Definition CompanyUpdate : Type := CompanyBase.t.

Module ProductBase.
Record t : Type := mk {
  name : string;
  description : string;
  target_audience : string;
  key_features : string;
  pricing_model : string
}.
Definition required : list string :=
  ["name"; "description"; "target_audience"; "key_features"; "pricing_model"].
End ProductBase.

Definition ProductUpdate : Type := ProductBase.t.

Module ProductCreate.
Record t : Type := mk {
  base : ProductBase.t;
  company_id : Z
}.
End ProductCreate.

Record PaginatedResponse : Type := mkPage {
  items : list Company.row;
  total : Z;
  page : Z;
  page_size : Z
}.

Record LoadDataResponse : Type := mkLoad {
  loaded : Z;
  skipped : Z;
  load_total : Z
}.

(** Literal[...] of CompanyBase.industry and ProductBase.pricing_model *)
Definition INDUSTRIES : list string :=
  ["FinTech"; "HealthTech"; "EdTech"; "E-commerce"; "SaaS"].
Definition PRICING_MODELS : list string :=
  ["Free"; "Freemium"; "Subscription"; "Enterprise"].

(** The outcome of one field's validator.  [Lax] stands for the inputs that
    pydantic's lax mode converts before checking (a numeric string or a
    boolean given for an int field); the conversion is not modelled. *)
Inductive Checked (A : Type) : Type :=
| Good (a : A)
| Bad (e : ErrorType)
| Lax.
Arguments Good {A} a.
Arguments Bad {A} e.
Arguments Lax {A}.

(** str = Field(..., min_length, max_length) *)
Definition check_str (min_length : nat) (max_length : option nat)
  (v : option JSON) : Checked string :=
  match v with
  | None => Bad missing
  | Some (JStr s) =>
      if (String.length s <? min_length)%nat then Bad string_too_short
      else match max_length with
           | Some m => if (m <? String.length s)%nat then Bad string_too_long else Good s
           | None => Good s
           end
  | Some _ => Bad string_type
  end.

(** Optional[str] = Field(None, max_length) *)
Definition check_opt_str (max_length : nat) (v : option JSON)
  : Checked (option string) :=
  match v with
  | None => Good None
  | Some JNull => Good None
  | Some (JStr s) =>
      if (max_length <? String.length s)%nat then Bad string_too_long
      else Good (Some s)
  | Some _ => Bad string_type
  end.

(** Literal[...] *)
Definition check_literal (allowed : list string) (v : option JSON)
  : Checked string :=
  match v with
  | None => Bad missing
  | Some (JStr s) => if mem_string s allowed then Good s else Bad literal_error
  | Some _ => Bad literal_error
  end.

(** int = Field(..., ge, le, gt) *)
Definition check_int (ge le gt : option Z) (v : option JSON) : Checked Z :=
  match v with
  | None => Bad missing
  | Some (JInt n) =>
      if match gt with Some b => n <=? b | None => false end then Bad greater_than
      else if match ge with Some b => n <? b | None => false end then Bad greater_than_equal
      else if match le with Some b => b <? n | None => false end then Bad less_than_equal
      else Good n
  | Some (JStr _) | Some (JBool _) => Lax
  | Some _ => Bad int_type
  end.

Definition errors_of {A : Type} (loc : string) (c : Checked A)
  : list (string * ErrorType) :=
  match c with
  | Bad e => [(loc, e)]
  | _ => []
  end.

(** The outcome of validating a body against a schema.  [Invalid] carries
    the errors of the fields in declaration order; [LaxInput] is a body
    without such an error in which some field needs a lax conversion. *)
Inductive Validated (A : Type) : Type :=
| Valid (a : A)
| Invalid (errors : list (string * ErrorType))
| LaxInput.
Arguments Valid {A} a.
Arguments Invalid {A} errors.
Arguments LaxInput {A}.

Definition CompanyBase_validate (body : JSON) : Validated CompanyBase.t :=
  match body with
  | JObj d =>
      let name := check_str 1 (Some 255%nat) (dict_get "name" d) in
      let tagline := check_str 1 (Some 100%nat) (dict_get "tagline" d) in
      let description := check_str 1 None (dict_get "description" d) in
      let industry := check_literal INDUSTRIES (dict_get "industry" d) in
      let founded_year :=
        check_int (Some 2015) (Some 2024) None (dict_get "founded_year" d) in
      let employee_count :=
        check_int None None (Some 0) (dict_get "employee_count" d) in
      let headquarters := check_str 1 (Some 255%nat) (dict_get "headquarters" d) in
      let website_url := check_opt_str 255 (dict_get "website_url" d) in
      match errors_of "name" name ++ errors_of "tagline" tagline
            ++ errors_of "description" description
            ++ errors_of "industry" industry
            ++ errors_of "founded_year" founded_year
            ++ errors_of "employee_count" employee_count
            ++ errors_of "headquarters" headquarters
            ++ errors_of "website_url" website_url with
      | [] =>
          match name, tagline, description, industry,
                founded_year, employee_count, headquarters, website_url with
          | Good n, Good t, Good d', Good i, Good fy, Good ec, Good hq, Good w =>
              Valid (CompanyBase.mk n t d' i fy ec hq w)
          | _, _, _, _, _, _, _, _ => LaxInput
          end
      | errs => Invalid errs
      end
  | _ => Invalid [("body", model_attributes_type)]
  end.

Definition ProductBase_checks (d : dict)
  : Checked string * Checked string * Checked string * Checked string
    * Checked string :=
  (check_str 1 (Some 255%nat) (dict_get "name" d),
   check_str 1 None (dict_get "description" d),
   check_str 1 (Some 255%nat) (dict_get "target_audience" d),
   check_str 1 None (dict_get "key_features" d),
   check_literal PRICING_MODELS (dict_get "pricing_model" d)).

Definition ProductBase_errors (d : dict) : list (string * ErrorType) :=
  let '(name, description, target_audience, key_features, pricing_model) :=
    ProductBase_checks d in
  errors_of "name" name ++ errors_of "description" description
  ++ errors_of "target_audience" target_audience
  ++ errors_of "key_features" key_features
  ++ errors_of "pricing_model" pricing_model.

Definition ProductBase_validate (body : JSON) : Validated ProductBase.t :=
  match body with
  | JObj d =>
      match ProductBase_errors d with
      | [] =>
          match ProductBase_checks d with
          | (Good n, Good d', Good ta, Good kf, Good pm) =>
              Valid (ProductBase.mk n d' ta kf pm)
          | _ => LaxInput
          end
      | errs => Invalid errs
      end
  | _ => Invalid [("body", model_attributes_type)]
  end.

Definition ProductCreate_validate (body : JSON) : Validated ProductCreate.t :=
  match body with
  | JObj d =>
      let company_id := check_int None None (Some 0) (dict_get "company_id" d) in
      match ProductBase_errors d ++ errors_of "company_id" company_id with
      | [] =>
          match ProductBase_checks d, company_id with
          | (Good n, Good d', Good ta, Good kf, Good pm), Good cid =>
              Valid (ProductCreate.mk (ProductBase.mk n d' ta kf pm) cid)
          | _, _ => LaxInput
          end
      | errs => Invalid errs
      end
  | _ => Invalid [("body", model_attributes_type)]
  end.

(** CompanyResponse / ProductResponse read a row with from_attributes=True:
    the attributes of the row, as the body the base validators check. *)
Definition opt_str_json (o : option string) : JSON :=
  match o with Some s => JStr s | None => JNull end.

Definition Company_attributes (c : Company.row) : JSON :=
  JObj [("name", JStr (Company.name c)); ("tagline", JStr (Company.tagline c));
        ("description", JStr (Company.description c));
        ("industry", JStr (Company.industry c));
        ("founded_year", JInt (Company.founded_year c));
        ("employee_count", JInt (Company.employee_count c));
        ("headquarters", JStr (Company.headquarters c));
        ("website_url", opt_str_json (Company.website_url c))].

Definition Product_attributes (p : Product.row) : JSON :=
  JObj [("name", JStr (Product.name p));
        ("description", JStr (Product.description p));
        ("target_audience", JStr (Product.target_audience p));
        ("key_features", JStr (Product.key_features p));
        ("pricing_model", JStr (Product.pricing_model p))].

(** ** The session

    A request works on [working], the store as its own transaction sees it;
    db.commit() publishes it as [committed].  [statements] counts the
    statements sent to the store and [now] is the reading of
    datetime.utcnow that the rows inserted by this request receive. *)
Record Session : Type := mkSession {
  committed : DB;
  working : DB;
  now : Z;
  statements : nat
}.

Definition M (A : Type) : Type := Session -> Result A * Session.

Definition ret {A : Type} (a : A) : M A := fun s => (Ok a, s).

Definition raise {A : Type} (e : Exn) : M A := fun s => (Raise e, s).

Definition lift {A : Type} (r : Result A) : M A := fun s => (r, s).

Definition bind {A B : Type} (m : M A) (k : A -> M B) : M B :=
  fun s =>
    match m s with
    | (Ok a, s') => k a s'
    | (Raise e, s') => (Raise e, s')
    | (Unmodelled, s') => (Unmodelled, s')
    end.

Definition bindR {A B : Type} (r : Result A) (k : A -> Result B) : Result B :=
  match r with
  | Ok a => k a
  | Raise e => Raise e
  | Unmodelled => Unmodelled
  end.

Declare Scope session_scope.
Delimit Scope session_scope with session.
Notation "x <- m ;; k" := (bind m (fun x => k))
  (at level 61, m at next level, right associativity) : session_scope.
Notation "m ;; k" := (bind m (fun _ => k))
  (at level 61, right associativity) : session_scope.
Notation "x <~ r ;; k" := (bindR r (fun x => k))
  (at level 61, r at next level, right associativity).
Local Open Scope session_scope.

(** One statement sent to the store, which leaves [s] with the tables [db]. *)
Definition sent (db : DB) (s : Session) : Session :=
  {| committed := committed s; working := db; now := now s;
     statements := S (statements s) |}.

(** db.query(Company) and db.query(Product): the rows in store order *)
Definition query_Company : M (list Company.row) :=
  fun s => (Ok (companies (working s)), sent (working s) s).

Definition query_Product : M (list Product.row) :=
  fun s => (Ok (products (working s)), sent (working s) s).

(** the key the store gives to a new row: one more than the largest in use *)
Definition next_id {A : Type} (key : A -> Z) (rows : list A) : Z :=
  1 + fold_right (fun r m => Z.max (key r) m) 0 rows.

(** INSERT INTO companies: the columns declared nullable=False refuse None,
    and name is unique=True. *)
Definition insert_Company (o : Company.obj) : M Company.row :=
  fun s =>
    let tbl := companies (working s) in
    match Company.o_name o, Company.o_tagline o, Company.o_description o,
          Company.o_industry o, Company.o_founded_year o,
          Company.o_employee_count o, Company.o_headquarters o with
    | Some n, Some t, Some d, Some i, Some fy, Some ec, Some hq =>
        if existsb (fun c => String.eqb (Company.name c) n) tbl
        then (Raise IntegrityError, sent (working s) s)
        else
          let r := Company.mk (next_id Company.id tbl) n t d i fy ec hq
                     (Company.o_website_url o) (now s) in
          (Ok r, sent {| companies := tbl ++ [r];
                         products := products (working s) |} s)
    | _, _, _, _, _, _, _ => (Raise IntegrityError, sent (working s) s)
    end.

(** INSERT INTO products *)
Definition insert_Product (o : Product.obj) : M Product.row :=
  fun s =>
    let tbl := products (working s) in
    match Product.o_name o, Product.o_description o,
          Product.o_target_audience o, Product.o_key_features o,
          Product.o_pricing_model o with
    | Some n, Some d, Some ta, Some kf, Some pm =>
        let r := Product.mk (next_id Product.id tbl) (Product.o_company_id o)
                   n d ta kf pm (now s) in
        (Ok r, sent {| companies := companies (working s);
                       products := tbl ++ [r] |} s)
    | _, _, _, _, _ => (Raise IntegrityError, sent (working s) s)
    end.

(** setattr(db_company, key, value) for every item of model_dump() *)
Definition Company_setattrs (r : Company.row) (c : CompanyBase.t) : Company.row :=
  Company.mk (Company.id r) (CompanyBase.name c) (CompanyBase.tagline c)
    (CompanyBase.description c) (CompanyBase.industry c)
    (CompanyBase.founded_year c) (CompanyBase.employee_count c)
    (CompanyBase.headquarters c) (CompanyBase.website_url c)
    (Company.created_at r).

Definition Product_setattrs (r : Product.row) (p : ProductBase.t) : Product.row :=
  Product.mk (Product.id r) (Product.company_id r) (ProductBase.name p)
    (ProductBase.description p) (ProductBase.target_audience p)
    (ProductBase.key_features p) (ProductBase.pricing_model p)
    (Product.created_at r).

(** UPDATE companies SET ... WHERE id = cid; the unique index on name
    refuses a name another row holds. *)
Definition update_Company (cid : Z) (c : CompanyBase.t) : M unit :=
  fun s =>
    let tbl := companies (working s) in
    if existsb (fun r => negb (Company.id r =? cid)
                         && String.eqb (Company.name r) (CompanyBase.name c)) tbl
    then (Raise IntegrityError, sent (working s) s)
    else
      (Ok tt,
       sent {| companies :=
                 map (fun r => if Company.id r =? cid
                               then Company_setattrs r c else r) tbl;
               products := products (working s) |} s).

(** UPDATE products SET ... WHERE id = pid *)
Definition update_Product (pid : Z) (p : ProductBase.t) : M unit :=
  fun s =>
    (Ok tt,
     sent {| companies := companies (working s);
             products :=
               map (fun r => if Product.id r =? pid
                             then Product_setattrs r p else r)
                   (products (working s)) |} s).

(** db.delete(db_company) under cascade="all, delete-orphan" (models.py,
    Company.products): the unit of work loads the company's products,
    deletes each of them by its key, then deletes the company. *)
Definition delete_Company (cid : Z) : M unit :=
  fun s =>
    let owned :=
      map Product.id
        (filter (fun p => Product.company_id p =? cid) (products (working s))) in
    (Ok tt,
     sent {| companies :=
               filter (fun c => negb (Company.id c =? cid)) (companies (working s));
             products :=
               filter (fun p => negb (existsb (Z.eqb (Product.id p)) owned))
                      (products (working s)) |} s).

(** DELETE FROM products WHERE id = pid *)
Definition delete_Product (pid : Z) : M unit :=
  fun s =>
    (Ok tt,
     sent {| companies := companies (working s);
             products :=
               filter (fun p => negb (Product.id p =? pid))
                      (products (working s)) |} s).

(** db.commit() *)
Definition db_commit : M unit :=
  fun s =>
    (Ok tt,
     {| committed := working s; working := working s; now := now s;
        statements := statements s |}).

(** .filter(Company.id == cid).first() *)
Definition Company_by_id (cid : Z) : M (option Company.row) :=
  rows <- query_Company ;;
  ret (find (fun c => Company.id c =? cid) rows).

(** .filter(func.lower(Company.name) == func.lower(x)).first() *)
Definition Company_by_name_ci (x : string) : M (option Company.row) :=
  rows <- query_Company ;;
  ret (find (fun c => String.eqb (lower (Company.name c)) (lower x)) rows).

(** .filter(Product.id == pid).first() *)
Definition Product_by_id (pid : Z) : M (option Product.row) :=
  rows <- query_Product ;;
  ret (find (fun p => Product.id p =? pid) rows).

(** db.refresh(obj): the row is read again by its key *)
Definition refresh_Company (r : Company.row) : M Company.row :=
  found <- Company_by_id (Company.id r) ;;
  match found with
  | Some r' => ret r'
  | None => lift Unmodelled
  end.

Definition refresh_Product (r : Product.row) : M Product.row :=
  found <- Product_by_id (Product.id r) ;;
  match found with
  | Some r' => ret r'
  | None => lift Unmodelled
  end.

(** Modelled from the spec: get_db of database.py, which is not among the
    sources.  Section 5 gives each request its own transaction: the handler
    runs in a session opened on the committed store, and what it has not
    committed when it returns or raises is discarded. *)
Definition run_request {A : Type} (h : M A) (t : Z) (db : DB) : Result A * DB :=
  let (r, s) := h {| committed := db; working := db; now := t; statements := 0 |} in
  (r, committed s).

(** ** main.py: POST /load-data *)

(** What open("startup_data.json") and json.load meet. *)
Inductive SeedFile : Type :=
| NoFile
| NotJSON
| Content (data : JSON).

Definition json_load (f : SeedFile) : Result JSON :=
  match f with
  | NoFile => Raise FileNotFoundError
  | NotJSON => Raise JSONDecodeError
  | Content data => Ok data
  end.

(** the try block and its two except clauses *)
Definition read_seed (f : SeedFile) : M JSON :=
  match json_load f with
  | Raise FileNotFoundError =>
      raise (HTTPException 404 "startup_data.json file not found")
  | Raise JSONDecodeError =>
      raise (HTTPException 400 "Invalid JSON format in startup_data.json")
  | r => lift r
  end.

(** data.get("companies", []); only a dict has .get *)
Definition get_companies_data (data : JSON) : Result JSON :=
  match data with
  | JObj d =>
      Ok (match dict_get "companies" d with Some v => v | None => JArr [] end)
  | _ => Raise AttributeError
  end.

(** The items that len(x) counts and that [for item in x] visits: the
    elements of a list, the keys of a dict, the characters of a string;
    the other values have neither. *)
Definition py_items (x : JSON) : Result (list JSON) :=
  match x with
  | JArr l => Ok l
  | JObj d => Ok (map JStr (dict_keys d))
  | JStr s => Ok (map (fun c => JStr (String c EmptyString)) (list_ascii_of_string s))
  | _ => Raise TypeError
  end.

(** The value bound to a String or Text column. *)
Definition column_str (v : option JSON) : Result (option string) :=
  match v with
  | None | Some JNull => Ok None
  | Some (JStr s) => Ok (Some s)
  | Some _ => Unmodelled
  end.

(** The value bound to an Integer column. *)
Definition column_int (v : option JSON) : Result (option Z) :=
  match v with
  | None | Some JNull => Ok None
  | Some (JInt n) => Ok (Some n)
  | Some _ => Unmodelled
  end.

(** Company( **kwargs ): the declarative constructor refuses a key that is
    not an attribute of the class and sets the others. *)
Definition Company_init (kwargs : dict) : Result Company.obj :=
  if negb (forallb (fun k => mem_string k Company.attributes) (dict_keys kwargs))
  then Raise TypeError
  else if existsb (fun k => mem_string k ["id"; "created_at"; "products"])
                  (dict_keys kwargs)
  then Unmodelled
  else
    n <~ column_str (dict_get "name" kwargs) ;;
    t <~ column_str (dict_get "tagline" kwargs) ;;
    d <~ column_str (dict_get "description" kwargs) ;;
    i <~ column_str (dict_get "industry" kwargs) ;;
    fy <~ column_int (dict_get "founded_year" kwargs) ;;
    ec <~ column_int (dict_get "employee_count" kwargs) ;;
    hq <~ column_str (dict_get "headquarters" kwargs) ;;
    w <~ column_str (dict_get "website_url" kwargs) ;;
    Ok (Company.new n t d i fy ec hq w).

(** Product(company_id=cid, **product_data ): the argument after ** must be a
    mapping, and must not bind company_id a second time. *)
Definition Product_init (cid : Z) (product_data : JSON) : Result Product.obj :=
  match product_data with
  | JObj kwargs =>
      if mem_string "company_id" (dict_keys kwargs) then Raise TypeError
      else if negb (forallb (fun k => mem_string k Product.attributes)
                            (dict_keys kwargs))
      then Raise TypeError
      else if existsb (fun k => mem_string k ["id"; "created_at"; "company"])
                      (dict_keys kwargs)
      then Unmodelled
      else
        n <~ column_str (dict_get "name" kwargs) ;;
        d <~ column_str (dict_get "description" kwargs) ;;
        ta <~ column_str (dict_get "target_audience" kwargs) ;;
        kf <~ column_str (dict_get "key_features" kwargs) ;;
        pm <~ column_str (dict_get "pricing_model" kwargs) ;;
        Ok (Product.new cid n d ta kf pm)
  | _ => Raise TypeError
  end.

(** [for product_data in products_data]: db.add(product) is taken as the
    INSERT that the next flush sends for it; rows reach [committed] only with
    db.commit(). *)
Fixpoint add_products (cid : Z) (products_data : list JSON) : M unit :=
  match products_data with
  | [] => ret tt
  | product_data :: rest =>
      product <- lift (Product_init cid product_data) ;;
      _ <- insert_Product product ;;
      add_products cid rest
  end.

(** The existence query of the loop, for the value of company_data["name"]:
    lower(NULL) compares equal to nothing. *)
Definition existing_by_name (v : JSON) : M (option Company.row) :=
  match v with
  | JStr x => Company_by_name_ci x
  | JNull => _ <- query_Company ;; ret None
  | _ => lift Unmodelled
  end.

(** [for company_data in companies_data] *)
Fixpoint load_companies (companies_data : list JSON)
  (loaded_count skipped_count : Z) : M (Z * Z) :=
  match companies_data with
  | [] => ret (loaded_count, skipped_count)
  | JObj d :: rest =>
      match dict_get "name" d with
      | None => raise (KeyError "name")
      | Some v =>
          existing_company <- existing_by_name v ;;
          match existing_company with
          | Some _ => load_companies rest loaded_count (skipped_count + 1)
          | None =>
              let products_data :=
                match dict_get "products" d with
                | Some ps => ps
                | None => JArr []
                end in
              o <- lift (Company_init (dict_remove "products" d)) ;;
              company <- insert_Company o ;;
              ps <- lift (py_items products_data) ;;
              add_products (Company.id company) ps ;;
              load_companies rest (loaded_count + 1) skipped_count
          end
      end
  | _ :: _ => raise TypeError
  end.

Definition load_data_from_json (f : SeedFile) : M LoadDataResponse :=
  data <- read_seed f ;;
  companies_data <- lift (get_companies_data data) ;;
  records <- lift (py_items companies_data) ;;
  let total_count := Z.of_nat (List.length records) in
  counts <- load_companies records 0 0 ;;
  db_commit ;;
  ret (mkLoad (fst counts) (snd counts) total_count).

(** ** main.py: the company endpoints *)

Definition get_companies (page page_size : Z) : M PaginatedResponse :=
  if page <? 1 then raise (HTTPException 400 "Page number must be >= 1")
  else if (page_size <? 1) || (page_size >? 100)
  then raise (HTTPException 400 "Page size must be between 1 and 100")
  else
    counted <- query_Company ;;
    let total := Z.of_nat (List.length counted) in
    let skip := (page - 1) * page_size in
    rows <- query_Company ;;
    let companies := firstn (Z.to_nat page_size) (skipn (Z.to_nat skip) rows) in
    ret (mkPage companies total page page_size).

Definition company_not_found (company_id : Z) : Exn :=
  HTTPException 404
    ("Company with id " ++ str_of_int company_id ++ " not found")%string.

Definition company_exists (name : string) : Exn :=
  HTTPException 400
    ("Company with name '" ++ name ++ "' already exists")%string.

Definition company_missing (company_id : Z) : Exn :=
  HTTPException 400
    ("Company with id " ++ str_of_int company_id ++ " does not exist")%string.

Definition product_not_found (product_id : Z) : Exn :=
  HTTPException 404
    ("Product with id " ++ str_of_int product_id ++ " not found")%string.

(** CompanyWithProducts: the row and the rows of its products relationship *)
Definition get_company (company_id : Z)
  : M (Company.row * list Product.row) :=
  company <- Company_by_id company_id ;;
  match company with
  | None => raise (company_not_found company_id)
  | Some company =>
      all <- query_Product ;;
      ret (company,
           filter (fun p => Product.company_id p =? Company.id company) all)
  end.

(** Company( **company.model_dump() ) *)
Definition Company_of_dump (c : CompanyBase.t) : Company.obj :=
  Company.new (Some (CompanyBase.name c)) (Some (CompanyBase.tagline c))
    (Some (CompanyBase.description c)) (Some (CompanyBase.industry c))
    (Some (CompanyBase.founded_year c)) (Some (CompanyBase.employee_count c))
    (Some (CompanyBase.headquarters c)) (CompanyBase.website_url c).

Definition create_company (company : CompanyCreate) : M Company.row :=
  existing <- Company_by_name_ci (CompanyBase.name company) ;;
  match existing with
  | Some _ => raise (company_exists (CompanyBase.name company))
  | None =>
      db_company <- insert_Company (Company_of_dump company) ;;
      db_commit ;;
      refresh_Company db_company
  end.

Definition update_company (company_id : Z) (company : CompanyUpdate)
  : M Company.row :=
  found <- Company_by_id company_id ;;
  match found with
  | None => raise (company_not_found company_id)
  | Some db_company =>
      (if negb (String.eqb (CompanyBase.name company) (Company.name db_company))
       then
         existing <- Company_by_name_ci (CompanyBase.name company) ;;
         match existing with
         | Some _ => raise (company_exists (CompanyBase.name company))
         | None => ret tt
         end
       else ret tt) ;;
      update_Company (Company.id db_company) company ;;
      db_commit ;;
      refresh_Company db_company
  end.

Definition delete_company (company_id : Z) : M unit :=
  found <- Company_by_id company_id ;;
  match found with
  | None => raise (company_not_found company_id)
  | Some db_company =>
      delete_Company (Company.id db_company) ;;
      db_commit
  end.

(** ** main.py: the product endpoints *)

Definition get_products : M (list Product.row) := query_Product.

Definition get_product (product_id : Z) : M Product.row :=
  product <- Product_by_id product_id ;;
  match product with
  | None => raise (product_not_found product_id)
  | Some product => ret product
  end.

(** Product( **product.model_dump() ) *)
Definition Product_of_dump (p : ProductCreate.t) : Product.obj :=
  let b := ProductCreate.base p in
  Product.new (ProductCreate.company_id p) (Some (ProductBase.name b))
    (Some (ProductBase.description b)) (Some (ProductBase.target_audience b))
    (Some (ProductBase.key_features b)) (Some (ProductBase.pricing_model b)).

Definition create_product (product : ProductCreate.t) : M Product.row :=
  company <- Company_by_id (ProductCreate.company_id product) ;;
  match company with
  | None => raise (company_missing (ProductCreate.company_id product))
  | Some _ =>
      db_product <- insert_Product (Product_of_dump product) ;;
      db_commit ;;
      refresh_Product db_product
  end.

Definition update_product (product_id : Z) (product : ProductUpdate)
  : M Product.row :=
  found <- Product_by_id product_id ;;
  match found with
  | None => raise (product_not_found product_id)
  | Some db_product =>
      update_Product (Product.id db_product) product ;;
      db_commit ;;
      refresh_Product db_product
  end.

Definition delete_product (product_id : Z) : M unit :=
  found <- Product_by_id product_id ;;
  match found with
  | None => raise (product_not_found product_id)
  | Some db_product =>
      delete_Product (Product.id db_product) ;;
      db_commit
  end.

(** ** main.py: the routes

    The body of a POST or PUT reaches its handler through the schema the
    handler declares for it; a body the schema refuses is answered by the
    framework (422) and the handler does not run. *)
Definition validated {A : Type} (v : Validated A) : M A :=
  match v with
  | Valid a => ret a
  | Invalid errs => raise (RequestValidationError errs)
  | LaxInput => lift Unmodelled
  end.

Inductive Request : Type :=
| POST_load_data (f : SeedFile)
| GET_companies (page page_size : Z)
| GET_company (company_id : Z)
| POST_companies (body : JSON)
| PUT_company (company_id : Z) (body : JSON)
| DELETE_company (company_id : Z)
| GET_products
| GET_product (product_id : Z)
| POST_products (body : JSON)
| PUT_product (product_id : Z) (body : JSON)
| DELETE_product (product_id : Z)
| GET_root.

Inductive Response : Type :=
| LoadData (r : LoadDataResponse)
| Paginated (r : PaginatedResponse)
| CompanyWithProducts (c : Company.row) (ps : list Product.row)
| CompanyResponse (c : Company.row)
| ProductResponse (p : Product.row)
| ProductList (ps : list Product.row)
| NoContent
| Root.

Definition route (req : Request) : M Response :=
  match req with
  | POST_load_data f => r <- load_data_from_json f ;; ret (LoadData r)
  | GET_companies page page_size =>
      r <- get_companies page page_size ;; ret (Paginated r)
  | GET_company company_id =>
      r <- get_company company_id ;; ret (CompanyWithProducts (fst r) (snd r))
  | POST_companies body =>
      company <- validated (CompanyBase_validate body) ;;
      r <- create_company company ;; ret (CompanyResponse r)
  | PUT_company company_id body =>
      company <- validated (CompanyBase_validate body) ;;
      r <- update_company company_id company ;; ret (CompanyResponse r)
  | DELETE_company company_id => delete_company company_id ;; ret NoContent
  | GET_products => r <- get_products ;; ret (ProductList r)
  | GET_product product_id => r <- get_product product_id ;; ret (ProductResponse r)
  | POST_products body =>
      product <- validated (ProductCreate_validate body) ;;
      r <- create_product product ;; ret (ProductResponse r)
  | PUT_product product_id body =>
      product <- validated (ProductBase_validate body) ;;
      r <- update_product product_id product ;; ret (ProductResponse r)
  | DELETE_product product_id => delete_product product_id ;; ret NoContent
  | GET_root => ret Root
  end.

(** status_code= of the route decorators *)
Definition success_status (req : Request) : Z :=
  match req with
  | POST_companies _ | POST_products _ => 201
  | DELETE_company _ | DELETE_product _ => 204
  | _ => 200
  end.

(** The status of the answer to [req]; none where the model gives none. *)
Definition http_status {A : Type} (req : Request) (r : Result A) : option Z :=
  match r with
  | Ok _ => Some (success_status req)
  | Raise e => Some (status_of e)
  | Unmodelled => None
  end.

(** One request served against the committed store. *)
Definition serve (req : Request) (t : Z) (db : DB) : Result Response * DB :=
  run_request (route req) t db.

(** ** The store's invariants (spec, section 3) *)

(** Every Product.company_id refers to an existing Company. *)
Definition no_orphans (db : DB) : Prop :=
  forall p, In p (products db) ->
    exists c, In c (companies db) /\ Company.id c = Product.company_id p.

(** Primary keys: no two rows of a table share an id. *)
Definition primary_keys (db : DB) : Prop :=
  NoDup (map Company.id (companies db)) /\ NoDup (map Product.id (products db)).

(** Company.name is unique under case-insensitive comparison. *)
Definition unique_names (db : DB) : Prop :=
  NoDup (map (fun c => lower (Company.name c)) (companies db)).

Definition keyed (db : DB) : Prop := primary_keys db /\ unique_names db.

(** A handler keeps the invariant [I]: from a session whose two views of
    the store satisfy it, it leaves a committed store that satisfies it. *)
Definition keeps (I : DB -> Prop) {A : Type} (h : M A) : Prop :=
  forall s, I (working s) -> I (committed s) -> I (committed (snd (h s))).

(** A session as [run_request] opens it. *)
Definition fresh_session (t : Z) (db : DB) : Session :=
  {| committed := db; working := db; now := t; statements := 0 |}.

(** The stores the service can be in: the empty one, and what a request
    leaves of a store it can be in. *)
Inductive reachable : DB -> Prop :=
| reachable_empty : reachable empty_db
| reachable_serve req t db :
    reachable db -> reachable (snd (serve req t db)).

(** ** The seed format (spec, section 6)

    Modelled from the spec: the shape of startup_data.json, which is written
    by the generation script and is not among the sources: one object with
    the key companies, an array of objects holding the Company fields and a
    products array of Product field sets, without id, company_id or
    created_at. *)
Definition has_str (k : string) (d : dict) : bool :=
  match dict_get k d with Some (JStr _) => true | _ => false end.

Definition has_int (k : string) (d : dict) : bool :=
  match dict_get k d with Some (JInt _) => true | _ => false end.

Definition has_opt_str (k : string) (d : dict) : bool :=
  match dict_get k d with
  | None | Some JNull | Some (JStr _) => true
  | _ => false
  end.

Definition seed_product (p : JSON) : bool :=
  match p with
  | JObj d =>
      forallb (fun k => mem_string k ProductBase.required) (dict_keys d)
      && has_str "name" d && has_str "description" d
      && has_str "target_audience" d && has_str "key_features" d
      && has_str "pricing_model" d
  | _ => false
  end.

Definition seed_company (c : JSON) : bool :=
  match c with
  | JObj d =>
      forallb (fun k => mem_string k
                 ("products" :: "website_url" :: CompanyBase.required))
              (dict_keys d)
      && has_str "name" d && has_str "tagline" d && has_str "description" d
      && has_str "industry" d && has_int "founded_year" d
      && has_int "employee_count" d && has_str "headquarters" d
      && has_opt_str "website_url" d
      && match dict_get "products" d with
         | Some (JArr ps) => forallb seed_product ps
         | _ => false
         end
  | _ => false
  end.

Definition seed_records (data : JSON) : option (list JSON) :=
  match data with
  | JObj d =>
      match dict_get "companies" d with
      | Some (JArr cs) => Some cs
      | _ => None
      end
  | _ => None
  end.

Definition seed_document (data : JSON) : bool :=
  match seed_records data with
  | Some cs => forallb seed_company cs
  | None => false
  end.

(** ** The bulk loader as the spec words it (section 4.3) *)

Definition find_by_name_ci (x : string) (db : DB) : option Company.row :=
  find (fun c => String.eqb (lower (Company.name c)) (lower x)) (companies db).

Definition str_at (k : string) (d : dict) : string :=
  match dict_get k d with Some (JStr s) => s | _ => EmptyString end.

Definition int_at (k : string) (d : dict) : Z :=
  match dict_get k d with Some (JInt n) => n | _ => 0 end.

Definition opt_str_at (k : string) (d : dict) : option string :=
  match dict_get k d with Some (JStr s) => Some s | _ => None end.

(** the Company fields a record of the document carries *)
Definition record_company (d : dict) : CompanyBase.t :=
  CompanyBase.mk (str_at "name" d) (str_at "tagline" d) (str_at "description" d)
    (str_at "industry" d) (int_at "founded_year" d) (int_at "employee_count" d)
    (str_at "headquarters" d) (opt_str_at "website_url" d).

(** the Product fields of a nested record *)
Definition record_product (p : JSON) : ProductBase.t :=
  match p with
  | JObj d =>
      ProductBase.mk (str_at "name" d) (str_at "description" d)
        (str_at "target_audience" d) (str_at "key_features" d)
        (str_at "pricing_model" d)
  | _ => ProductBase.mk EmptyString EmptyString EmptyString EmptyString EmptyString
  end.

Definition record_products (d : dict) : list JSON :=
  match dict_get "products" d with Some (JArr ps) => ps | _ => [] end.

Definition Company_base (c : Company.row) : CompanyBase.t :=
  CompanyBase.mk (Company.name c) (Company.tagline c) (Company.description c)
    (Company.industry c) (Company.founded_year c) (Company.employee_count c)
    (Company.headquarters c) (Company.website_url c).

Definition Product_base (p : Product.row) : ProductBase.t :=
  ProductBase.mk (Product.name p) (Product.description p)
    (Product.target_audience p) (Product.key_features p)
    (Product.pricing_model p).

(** [bulk_load db records db' l s]: working through [records] in document
    order from the store [db] ends in [db'] with [l] records loaded and [s]
    skipped.  A record whose name an existing company holds, letter case
    apart, is skipped and the store stays as it is; any other record adds
    one company with the record's fields under a new id, followed by one
    product per nested record, in order, under that company's id. *)
Inductive bulk_load : DB -> list JSON -> DB -> Z -> Z -> Prop :=
| bulk_done db : bulk_load db [] db 0 0
| bulk_skip db d rest db' l s c :
    find_by_name_ci (str_at "name" d) db = Some c ->
    bulk_load db rest db' l s ->
    bulk_load db (JObj d :: rest) db' l (s + 1)
| bulk_insert db d rest db' l s c ps :
    find_by_name_ci (str_at "name" d) db = None ->
    Company_base c = record_company d ->
    ~ In (Company.id c) (map Company.id (companies db)) ->
    map Product_base ps = map record_product (record_products d) ->
    Forall (fun p => Product.company_id p = Company.id c) ps ->
    bulk_load {| companies := companies db ++ [c];
                 products := products db ++ ps |} rest db' l s ->
    bulk_load db (JObj d :: rest) db' (l + 1) s.

(** ** Notions used by the further properties *)

(** company.model_dump() and product.model_dump(), as JSON objects *)
Definition CompanyBase_model_dump (c : CompanyBase.t) : JSON :=
  JObj [("name", JStr (CompanyBase.name c));
        ("tagline", JStr (CompanyBase.tagline c));
        ("description", JStr (CompanyBase.description c));
        ("industry", JStr (CompanyBase.industry c));
        ("founded_year", JInt (CompanyBase.founded_year c));
        ("employee_count", JInt (CompanyBase.employee_count c));
        ("headquarters", JStr (CompanyBase.headquarters c));
        ("website_url", opt_str_json (CompanyBase.website_url c))].

Definition ProductBase_model_dump (p : ProductBase.t) : JSON :=
  JObj [("name", JStr (ProductBase.name p));
        ("description", JStr (ProductBase.description p));
        ("target_audience", JStr (ProductBase.target_audience p));
        ("key_features", JStr (ProductBase.key_features p));
        ("pricing_model", JStr (ProductBase.pricing_model p))].

(** The Field(...) and Literal[...] declarations of schemas.py, read as
    conditions on the values of a record. *)
Definition CompanyBase_ok (c : CompanyBase.t) : Prop :=
  (1 <= String.length (CompanyBase.name c) <= 255)%nat
  /\ (1 <= String.length (CompanyBase.tagline c) <= 100)%nat
  /\ (1 <= String.length (CompanyBase.description c))%nat
  /\ In (CompanyBase.industry c) INDUSTRIES
  /\ 2015 <= CompanyBase.founded_year c <= 2024
  /\ 0 < CompanyBase.employee_count c
  /\ (1 <= String.length (CompanyBase.headquarters c) <= 255)%nat
  /\ (forall w, CompanyBase.website_url c = Some w ->
        (String.length w <= 255)%nat).

Definition ProductBase_ok (p : ProductBase.t) : Prop :=
  (1 <= String.length (ProductBase.name p) <= 255)%nat
  /\ (1 <= String.length (ProductBase.description p))%nat
  /\ (1 <= String.length (ProductBase.target_audience p) <= 255)%nat
  /\ (1 <= String.length (ProductBase.key_features p))%nat
  /\ In (ProductBase.pricing_model p) PRICING_MODELS.

(** Every stored row meets the field contracts of its table. *)
Definition valid_rows (db : DB) : Prop :=
  (forall c, In c (companies db) -> CompanyBase_ok (Company_base c))
  /\ (forall p, In p (products db) -> ProductBase_ok (Product_base p)).

(** A handler commits only when it succeeds: whenever its result is not
    [Ok], the committed store is the one it started from. *)
Definition atomic {A : Type} (h : M A) : Prop :=
  forall s,
    match h s with
    | (Ok _, _) => True
    | (_, s') => committed s' = committed s
    end.

(** A handler that never commits. *)
Definition read_only {A : Type} (h : M A) : Prop :=
  forall s, committed (snd (h s)) = committed s.

(** A record of a document whose name is a string that a stored company
    holds, letter case apart. *)
Definition already_stored (db : DB) (record : JSON) : bool :=
  match record with
  | JObj d =>
      match dict_get "name" d with
      | Some (JStr x) =>
          match find_by_name_ci x db with Some _ => true | None => false end
      | _ => false
      end
  | _ => false
  end.

(** The items GET /companies answers for a page (none when it refuses). *)
Definition page_items (db : DB) (page_size page : Z) : list Company.row :=
  match run_request (get_companies page page_size) 0 db with
  | (Ok r, _) => items r
  | _ => []
  end.

(** ** generate_data.py

    The script talks to the text-generation API; what the API answers is
    given to the model from outside: [func k] is the outcome of the call
    number k (from 0) of the function handed to retry_with_backoff, and
    likewise [generate k] for generate_company_data in main.  time.sleep is
    recorded, print is left out. *)
Module GenerateData.

Definition INDUSTRIES : list string :=
  ["FinTech"; "HealthTech"; "EdTech"; "E-commerce"; "SaaS"].
Definition COMPANIES_PER_INDUSTRY : nat := 2.
Definition TOTAL_COMPANIES : Z := 10.

(** [needle in haystack] *)
Definition contains (needle haystack : string) : bool :=
  match index 0 needle haystack with Some _ => true | None => false end.

(** is_rate_limit; str.lower() folds the ASCII capitals ([lower]) *)
Definition is_rate_limit (error_message : string) : bool :=
  contains "429" error_message
  || contains "quota" (lower error_message)
  || contains "rate limit" (lower error_message)
  || contains "resource exhausted" (lower error_message).

(** What one call of func does. *)
Inductive Attempt (A : Type) : Type :=
| Returns (a : A)
| Raises (error_message : string).
Arguments Returns {A} a.
Arguments Raises {A} error_message.

(** How retry_with_backoff ends: [return func()], [raise e], the end of the
    while loop (the function then returns None), or not within the calls
    the model was given fuel for. *)
Inductive Retried (A : Type) : Type :=
| Returned (a : A)
| Reraised (error_message : string)
| ReturnedNone
| StillTrying.
Arguments Returned {A} a.
Arguments Reraised {A} error_message.
Arguments ReturnedNone {A}.
Arguments StillTrying {A}.

Record Run (A : Type) : Type := mkRun {
  outcome : Retried A;
  calls : nat;
  sleeps : list Z
}.
Arguments mkRun {A} outcome calls sleeps.
Arguments outcome {A} r.
Arguments calls {A} r.
Arguments sleeps {A} r.

(** The while loop, one iteration per unit of fuel; [called] counts the
    calls of func so far and [slept] lists the waits so far, in seconds. *)
Fixpoint retry_loop {A : Type} (fuel : nat) (func : nat -> Attempt A)
  (max_retries attempt : Z) (called : nat) (slept : list Z) : Run A :=
  match fuel with
  | O => mkRun StillTrying called slept
  | S fuel' =>
      if attempt <? max_retries then
        match func called with
        | Returns a => mkRun (Returned a) (S called) slept
        | Raises error_message =>
            if is_rate_limit error_message then
              let wait_time := 30 in
              let attempt1 := attempt + 1 in
              let attempt2 :=
                if attempt1 >=? max_retries then max_retries - 1 else attempt1 in
              retry_loop fuel' func max_retries attempt2 (S called)
                (slept ++ [wait_time])
            else if attempt =? max_retries - 1 then
              mkRun (Reraised error_message) (S called) slept
            else
              let wait_time := 2 ^ attempt in
              retry_loop fuel' func max_retries (attempt + 1) (S called)
                (slept ++ [wait_time])
        end
      else mkRun ReturnedNone called slept
  end.

Definition retry_with_backoff {A : Type} (fuel : nat)
  (func : nat -> Attempt A) (max_retries : Z) : Run A :=
  retry_loop fuel func max_retries 0 0 [].

(** The state of main: the companies gathered, the counter, the calls of
    generate_company_data made so far, each with its two arguments, and the
    number of one-second waits between companies. *)
Record State : Type := mkState {
  all_companies : list JSON;
  company_counter : Z;
  requests : list (string * Z);
  waits : nat
}.

(** [for i in range(n)] with its try/except: an exception of
    generate_company_data leaves this loop by [break]. *)
Fixpoint for_range (generate : nat -> string -> Z -> option JSON)
  (industry : string) (n : nat) (st : State) : State :=
  match n with
  | O => st
  | S n' =>
      let asked := requests st ++ [(industry, company_counter st)] in
      match generate (List.length (requests st)) industry (company_counter st) with
      | Some company_data =>
          let company_counter' := company_counter st + 1 in
          for_range generate industry n'
            (mkState (all_companies st ++ [company_data]) company_counter'
               asked
               (if company_counter' <=? TOTAL_COMPANIES
                then S (waits st) else waits st))
      | None =>
          mkState (all_companies st) (company_counter st) asked (waits st)
      end
  end.

(** [for industry in INDUSTRIES] *)
Definition generate_all (generate : nat -> string -> Z -> option JSON) : State :=
  fold_left
    (fun st industry => for_range generate industry COMPANIES_PER_INDUSTRY st)
    INDUSTRIES (mkState [] 1 [] 0).

(** The summary printed after json.dump, inside the same try block: it
    evaluates len(c['products']) and c['industry'] for every company. *)
Definition summary_prints (companies : list JSON) : bool :=
  forallb
    (fun c =>
       match c with
       | JObj d =>
           match dict_get "products" d with
           | Some v => match py_items v with Ok _ => true | _ => false end
           | None => false
           end
           && match dict_get "industry" d with Some _ => true | None => false end
       | _ => false
       end)
    companies.

(** main: the exit status and, when json.dump went through ([dump_ok]), the
    document written to startup_data.json.  Any exception of the try block,
    of the dump or of the summary after it, gives status 1. *)
Definition main (generate : nat -> string -> Z -> option JSON)
  (dump_ok : bool) : Z * option JSON :=
  let st := generate_all generate in
  let output_data := JObj [("companies", JArr (all_companies st))] in
  if dump_ok
  then (if summary_prints (all_companies st) then 0 else 1, Some output_data)
  else (1, None).

End GenerateData.

(** ** Sample data *)

Definition product_fields (name pricing_model : string) : dict :=
  [("name", JStr name); ("description", JStr "Card reader");
   ("target_audience", JStr "Shops"); ("key_features", JStr "Fast");
   ("pricing_model", JStr pricing_model)].

Definition company_fields (name industry : string) : dict :=
  [("name", JStr name); ("tagline", JStr "Payments made simple");
   ("description", JStr "A payments company");
   ("industry", JStr industry); ("founded_year", JInt 2020);
   ("employee_count", JInt 12); ("headquarters", JStr "Pune, India")].

Definition company_body (name industry : string) : JSON :=
  JObj (company_fields name industry).

(** a record of the seed document: the company fields and a products array *)
Definition seed_record (name industry : string) (ps : list JSON) : JSON :=
  JObj (company_fields name industry ++ [("products", JArr ps)]).

Definition seed_of (records : list JSON) : JSON :=
  JObj [("companies", JArr records)].

(** A seed document whose only record names an industry and a pricing model
    outside the enumerated sets of schemas.py. *)
Definition unvalidated_seed : JSON :=
  seed_of [seed_record "Bolt" "Crypto" [JObj (product_fields "Reader" "Barter")]].

Definition product_body (company_id : Z) (name : string) : JSON :=
  JObj (product_fields name "Freemium" ++ [("company_id", JInt company_id)]).

Definition acme : Company.row :=
  Company.mk 1 "Acme" "Payments made simple" "A payments company" "FinTech"
    2020 12 "Pune, India" None 0.

Definition reader (id : Z) : Product.row :=
  Product.mk id 1 "Reader" "Card reader" "Shops" "Fast" "Freemium" 0.

Definition acme_db : DB :=
  {| companies := [acme]; products := [reader 1; reader 2] |}.

Definition bolt : Company.row :=
  Company.mk 2 "Bolt" "Fasteners online" "A hardware shop" "E-commerce"
    2019 40 "Leeds, UK" (Some "www.bolt.example") 0.

Definition acme_bolt_db : DB :=
  {| companies := [acme; bolt]; products := [reader 1; reader 2] |}.

(** * Properties *)

Arguments company_not_found : simpl never.
Arguments company_exists : simpl never.
Arguments company_missing : simpl never.
Arguments product_not_found : simpl never.
Arguments str_of_int : simpl never.

Ltac run :=
  unfold serve, run_request, route, fresh_session, validated,
    Company_by_id, Company_by_name_ci, Product_by_id,
    query_Company, query_Product, db_commit, bind, ret, raise, lift, sent;
  cbn [fst snd committed working now statements companies products].

(** ** Pagination (GET /companies) *)

Lemma get_companies_guard page page_size :
  1 <= page -> 1 <= page_size <= 100 ->
  (page <? 1) = false /\ ((page_size <? 1) || (page_size >? 100)) = false.
Proof.
  intros Hp Hs. split.
  - apply Z.ltb_ge. lia.
  - apply orb_false_iff. split; [apply Z.ltb_ge | rewrite Z.gtb_ltb; apply Z.ltb_ge]; lia.
Qed.

(** C9.  A request with page < 1, page_size < 1 or page_size > 100 is
    answered 400 and the session comes back as it went in: no statement
    has been sent to the store. *)
Theorem get_companies_rejects_bad_window (page page_size : Z) (s : Session) :
  page < 1 \/ page_size < 1 \/ page_size > 100 ->
  exists detail,
    get_companies page page_size s = (Raise (HTTPException 400 detail), s)
    /\ http_status (GET_companies page page_size)
         (fst (get_companies page page_size s)) = Some 400.
Proof.
  intros H. unfold get_companies.
  destruct (page <? 1) eqn:Hpage.
  - eexists. split; reflexivity.
  - apply Z.ltb_ge in Hpage.
    assert (Hsize : (page_size <? 1) || (page_size >? 100) = true).
    { apply orb_true_iff. rewrite Z.gtb_ltb.
      destruct H as [H | [H | H]]; [lia | left | right]; apply Z.ltb_lt; lia. }
    rewrite Hsize. eexists. split; reflexivity.
Qed.

Lemma get_companies_rejects_bad_window_witness :
  (exists detail,
     get_companies 1 0 (fresh_session 0 empty_db)
       = (Raise (HTTPException 400 detail), fresh_session 0 empty_db)
     /\ http_status (GET_companies 1 0)
          (fst (get_companies 1 0 (fresh_session 0 empty_db))) = Some 400)
  /\ (exists detail,
     get_companies 1 101 (fresh_session 0 empty_db)
       = (Raise (HTTPException 400 detail), fresh_session 0 empty_db)
     /\ http_status (GET_companies 1 101)
          (fst (get_companies 1 101 (fresh_session 0 empty_db))) = Some 400)
  /\ (exists detail,
     get_companies 0 10 (fresh_session 0 empty_db)
       = (Raise (HTTPException 400 detail), fresh_session 0 empty_db)
     /\ http_status (GET_companies 0 10)
          (fst (get_companies 0 10 (fresh_session 0 empty_db))) = Some 400).
Proof.
  split; [| split].
  - apply (get_companies_rejects_bad_window 1 0). right. left. lia.
  - apply (get_companies_rejects_bad_window 1 101). right. right. lia.
  - apply (get_companies_rejects_bad_window 0 10). left. lia.
Defined.



(** ** Lookups *)

Lemma find_hit {A : Type} (f : A -> bool) (l : list A) (a : A) :
  In a l -> f a = true -> exists a', find f l = Some a'.
Proof.
  intros Hin Hf. destruct (find f l) as [a' |] eqn:E.
  - now exists a'.
  - rewrite (find_none f l E a Hin) in Hf. discriminate.
Qed.

Lemma find_miss {A : Type} (f : A -> bool) (l : list A) :
  (forall a, In a l -> f a = false) -> find f l = None.
Proof.
  intros H. destruct (find f l) as [a' |] eqn:E; [| reflexivity].
  apply find_some in E. destruct E as [Hin Hf].
  rewrite (H a' Hin) in Hf. discriminate.
Qed.

Lemma find_app {A : Type} (f : A -> bool) (l l' : list A) :
  find f (l ++ l') = match find f l with Some a => Some a | None => find f l' end.
Proof.
  induction l as [| a l IH]; cbn; [reflexivity |].
  destruct (f a); [reflexivity | exact IH].
Qed.

Lemma next_id_above {A : Type} (key : A -> Z) (rows : list A) (r : A) :
  In r rows -> key r < next_id key rows.
Proof.
  unfold next_id. induction rows as [| a rows IH]; cbn [fold_right In]; [tauto |].
  intros [-> | Hin]; [lia |]. specialize (IH Hin). lia.
Qed.

Lemma next_id_unused {A : Type} (key : A -> Z) (rows : list A) :
  ~ In (next_id key rows) (map key rows).
Proof.
  intros Hin. apply in_map_iff in Hin. destruct Hin as [r [Hk Hin]].
  apply (next_id_above key) in Hin. lia.
Qed.

Lemma find_Company_by_key (l : list Company.row) (c : Company.row) :
  NoDup (map Company.id l) -> In c l ->
  find (fun r => Company.id r =? Company.id c) l = Some c.
Proof.
  induction l as [| a l IH]; cbn; [tauto |].
  intros Hnd [-> | Hin].
  - now rewrite Z.eqb_refl.
  - inversion Hnd as [| x xs Hnotin Hnd']; subst.
    destruct (Company.id a =? Company.id c) eqn:E.
    + apply Z.eqb_eq in E. exfalso. apply Hnotin. rewrite E.
      now apply in_map.
    + now apply IH.
Qed.

Lemma find_new_row {A : Type} (key : A -> Z) (rows : list A) (r : A) :
  key r = next_id key rows ->
  find (fun x => key x =? key r) (rows ++ [r]) = Some r.
Proof.
  intros Hk. rewrite find_app, find_miss.
  - cbn. now rewrite Z.eqb_refl.
  - intros a Hin. apply Z.eqb_neq. apply (next_id_above key) in Hin. lia.
Qed.

Lemma no_ci_match_no_exact_match (x : string) (l : list Company.row) :
  find (fun c => String.eqb (lower (Company.name c)) (lower x)) l = None ->
  existsb (fun c => String.eqb (Company.name c) x) l = false.
Proof.
  intros Hnone.
  destruct (existsb (fun c => String.eqb (Company.name c) x) l) eqn:E;
    [| reflexivity].
  apply existsb_exists in E. destruct E as [c [Hin Heq]].
  apply String.eqb_eq in Heq.
  pose proof (find_none _ _ Hnone c Hin) as Hf. cbn in Hf.
  rewrite Heq, String.eqb_refl in Hf. discriminate.
Qed.

(** ** The bulk loader's failure policy (POST /load-data) *)



(** ** Company names (POST and PUT /companies) *)

(** C10.  A PUT that changes only the letter case of the company's own name
    is refused as a duplicate: the guard compares the names exactly, the
    lookup folds case and finds the company itself. *)
Theorem update_company_case_only_rename
  (db : DB) (t company_id : Z) (c : Company.row) (company : CompanyUpdate) :
  primary_keys db ->
  In c (companies db) -> Company.id c = company_id ->
  CompanyBase.name company <> Company.name c ->
  lower (CompanyBase.name company) = lower (Company.name c) ->
  run_request (update_company company_id company) t db
    = (Raise (company_exists (CompanyBase.name company)), db)
  /\ status_of (company_exists (CompanyBase.name company)) = 400.
Proof.
  intros [Hkeys _] Hin <- Hneq Hlow. split; [| reflexivity].
  unfold update_company. run.
  rewrite (find_Company_by_key _ c Hkeys Hin).
  apply String.eqb_neq in Hneq. rewrite Hneq. cbn [negb]. run.
  destruct (find_hit (fun r => String.eqb (lower (Company.name r))
                                 (lower (CompanyBase.name company)))
              (companies db) c Hin) as [c' ->].
  - rewrite Hlow. apply String.eqb_refl.
  - reflexivity.
Qed.

Lemma update_company_case_only_rename_witness :
  run_request
    (update_company 1
       (CompanyBase.mk "ACME" "Payments made simple" "A payments company"
          "FinTech" 2020 12 "Pune, India" None)) 5 acme_db
    = (Raise (company_exists "ACME"), acme_db)
  /\ status_of (company_exists "ACME") = 400.
Proof.
  apply (update_company_case_only_rename acme_db 5 1 acme
           (CompanyBase.mk "ACME" "Payments made simple" "A payments company"
              "FinTech" 2020 12 "Pune, India" None)).
  - split; cbn; repeat constructor; cbn; intuition discriminate.
  - cbn. left. reflexivity.
  - reflexivity.
  - cbn. discriminate.
  - reflexivity.
Defined.



(** ** Products and their company (POST /products) *)



(** ** Validation in the bulk loader *)

(** C3 fails on the code.  The loader builds Company and Product straight
    from the parsed records: the record of [unvalidated_seed], which
    POST /companies refuses on its industry, is loaded and committed with
    its product, and neither stored row passes the schema of its table. *)
Lemma load_data_inserts_unvalidated_rows :
  exists c p,
    serve (POST_load_data (Content unvalidated_seed)) 5 empty_db
      = (Ok (LoadData (mkLoad 1 0 1)), {| companies := [c]; products := [p] |})
    /\ Company.industry c = "Crypto"
    /\ CompanyBase_validate (Company_attributes c)
       = Invalid [("industry", literal_error)]
    /\ Product.pricing_model p = "Barter"
    /\ Product.company_id p = Company.id c
    /\ ProductBase_validate (Product_attributes p)
       = Invalid [("pricing_model", literal_error)]
    /\ serve (POST_companies (company_body "Bolt" "Crypto")) 5 empty_db
       = (Raise (RequestValidationError [("industry", literal_error)]), empty_db).
Proof.
  eexists. eexists. split; [vm_compute; reflexivity |].
  repeat split.
Qed.

(** ** Updates (PUT /companies/{id}, PUT /products/{id}) *)

Ltac missing_field Hf Hget :=
  cbn in Hf; repeat rewrite in_app_iff;
  repeat (destruct Hf as [<- | Hf]; [rewrite Hget; cbn; tauto |]);
  destruct Hf.

Lemma CompanyBase_missing_field (d : dict) (f : string) :
  In f CompanyBase.required -> dict_get f d = None ->
  exists errs,
    CompanyBase_validate (JObj d) = Invalid errs /\ In (f, missing) errs.
Proof.
  intros Hf Hget. unfold CompanyBase_validate. cbv zeta.
  match goal with
  | |- exists errs, match ?l with _ => _ end = _ /\ _ =>
      assert (Hin : In (f, missing) l) by missing_field Hf Hget;
      destruct l as [| e l']; [destruct Hin |];
      eexists; split; [reflexivity | exact Hin]
  end.
Qed.

Lemma ProductBase_missing_field (d : dict) (f : string) :
  In f ProductBase.required -> dict_get f d = None ->
  exists errs,
    ProductBase_validate (JObj d) = Invalid errs /\ In (f, missing) errs.
Proof.
  intros Hf Hget. unfold ProductBase_validate.
  assert (Hin : In (f, missing) (ProductBase_errors d)).
  { unfold ProductBase_errors, ProductBase_checks. missing_field Hf Hget. }
  destruct (ProductBase_errors d) as [| e l']; [destruct Hin |].
  eexists; split; [reflexivity | exact Hin].
Qed.

Lemma NoDup_map_In_inj {A B : Type} (f : A -> B) (l : list A) (a b : A) :
  NoDup (map f l) -> In a l -> In b l -> f a = f b -> a = b.
Proof.
  induction l as [| x l IH]; cbn; [tauto |].
  intros Hnd Ha Hb Hf. inversion Hnd as [| y ys Hnotin Hnd']; subst.
  destruct Ha as [-> | Ha], Hb as [-> | Hb]; try reflexivity.
  - exfalso. apply Hnotin. rewrite Hf. now apply in_map.
  - exfalso. apply Hnotin. rewrite <- Hf. now apply in_map.
  - now apply IH.
Qed.

Lemma find_map_key {A : Type} (key : A -> Z) (g : A -> A) (k : Z) (l : list A) :
  (forall r, key (g r) = key r) ->
  find (fun r => key r =? k) (map g l)
  = option_map g (find (fun r => key r =? k) l).
Proof.
  intros Hg. induction l as [| a l IH]; cbn; [reflexivity |].
  rewrite Hg. destruct (key a =? k); [reflexivity | exact IH].
Qed.

Lemma find_Product_by_key (l : list Product.row) (p : Product.row) :
  NoDup (map Product.id l) -> In p l ->
  find (fun r => Product.id r =? Product.id p) l = Some p.
Proof.
  induction l as [| a l IH]; cbn; [tauto |].
  intros Hnd [-> | Hin].
  - now rewrite Z.eqb_refl.
  - inversion Hnd as [| x xs Hnotin Hnd']; subst.
    destruct (Product.id a =? Product.id p) eqn:E.
    + apply Z.eqb_eq in E. exfalso. apply Hnotin. rewrite E.
      now apply in_map.
    + now apply IH.
Qed.

Lemma update_company_ok
  (db : DB) (t : Z) (c : Company.row) (company : CompanyUpdate) :
  primary_keys db -> unique_names db -> In c (companies db) ->
  (CompanyBase.name company = Company.name c
   \/ forall c', In c' (companies db) ->
        lower (Company.name c') <> lower (CompanyBase.name company)) ->
  run_request (update_company (Company.id c) company) t db
  = (Ok (Company_setattrs c company),
     {| companies :=
          map (fun r => if Company.id r =? Company.id c
                        then Company_setattrs r company else r) (companies db);
        products := products db |}).
Proof.
  intros [Hkeys _] Hnames Hin Hname.
  assert (Hfree : existsb (fun r => negb (Company.id r =? Company.id c)
                                    && String.eqb (Company.name r)
                                         (CompanyBase.name company))
                    (companies db) = false).
  { destruct (existsb _ (companies db)) eqn:E; [| reflexivity].
    apply existsb_exists in E. destruct E as [r [Hr Hb]].
    apply andb_true_iff in Hb. destruct Hb as [Hid Heq].
    apply String.eqb_eq in Heq. apply negb_true_iff, Z.eqb_neq in Hid.
    destruct Hname as [Hsame | Hnone].
    - exfalso. apply Hid. f_equal.
      apply (NoDup_map_In_inj _ _ r c Hnames Hr Hin). cbn.
      now rewrite Heq, Hsame.
    - exfalso. apply (Hnone r Hr). now rewrite Heq. }
  unfold update_company. run.
  rewrite (find_Company_by_key _ c Hkeys Hin).
  assert (Hrefresh :
    find (fun r => Company.id r =? Company.id c)
      (map (fun r => if Company.id r =? Company.id c
                     then Company_setattrs r company else r) (companies db))
    = Some (Company_setattrs c company)).
  { rewrite find_map_key.
    - rewrite (find_Company_by_key _ c Hkeys Hin). cbn.
      now rewrite Z.eqb_refl.
    - intros r. now destruct (Company.id r =? Company.id c). }
  destruct (String.eqb (CompanyBase.name company) (Company.name c)) eqn:E;
    cbn [negb]; run.
  - unfold update_Company, refresh_Company. run.
    rewrite Hfree. run. rewrite Hrefresh. reflexivity.
  - destruct Hname as [Hsame | Hnone];
      [apply String.eqb_neq in E; contradiction |].
    rewrite find_miss
      by (intros a Ha; apply String.eqb_neq; now apply Hnone).
    unfold update_Company, refresh_Company. run.
    rewrite Hfree. run. rewrite Hrefresh. reflexivity.
Qed.

Lemma update_product_ok
  (db : DB) (t : Z) (p : Product.row) (product : ProductUpdate) :
  primary_keys db -> In p (products db) ->
  run_request (update_product (Product.id p) product) t db
  = (Ok (Product_setattrs p product),
     {| companies := companies db;
        products :=
          map (fun r => if Product.id r =? Product.id p
                        then Product_setattrs r product else r) (products db) |}).
Proof.
  intros [_ Hkeys] Hin. unfold update_product. run.
  rewrite (find_Product_by_key _ p Hkeys Hin).
  unfold update_Product, refresh_Product. run.
  rewrite find_map_key.
  - rewrite (find_Product_by_key _ p Hkeys Hin). cbn.
    now rewrite Z.eqb_refl.
  - intros r. now destruct (Product.id r =? Product.id p).
Qed.


Lemma acme_db_primary_keys : primary_keys acme_db.
Proof.
  split; cbn; repeat constructor; cbn; intuition discriminate.
Qed.

Lemma acme_db_unique_names : unique_names acme_db.
Proof.
  unfold unique_names. cbn. repeat constructor. cbn. tauto.
Qed.


(** ** What the store operations do to a session *)

Lemma bind_run {A B : Type} (m : M A) (k : A -> M B) (s : Session) :
  bind m k s
  = match m s with
    | (Ok a, s') => k a s'
    | (Raise e, s') => (Raise e, s')
    | (Unmodelled, s') => (Unmodelled, s')
    end.
Proof. reflexivity. Qed.

Lemma lift_run {A : Type} (r : Result A) (s : Session) : lift r s = (r, s).
Proof. reflexivity. Qed.

Lemma Company_by_name_ci_run (x : string) (s : Session) :
  Company_by_name_ci x s
  = (Ok (find_by_name_ci x (working s)), sent (working s) s).
Proof. reflexivity. Qed.

Lemma insert_Company_run (o : Company.obj) (s : Session) :
  match insert_Company o s with
  | (Ok r, s') =>
      s' = sent {| companies := companies (working s) ++ [r];
                   products := products (working s) |} s
      /\ Company.id r = next_id Company.id (companies (working s))
      /\ Company.created_at r = now s
      /\ o = Company.new (Some (Company.name r)) (Some (Company.tagline r))
               (Some (Company.description r)) (Some (Company.industry r))
               (Some (Company.founded_year r)) (Some (Company.employee_count r))
               (Some (Company.headquarters r)) (Company.website_url r)
      /\ existsb (fun c => String.eqb (Company.name c) (Company.name r))
           (companies (working s)) = false
  | (_, s') => s' = sent (working s) s
  end.
Proof.
  unfold insert_Company. destruct o as [n tg d i fy ec hq w]. cbn.
  destruct n, tg, d, i, fy, ec, hq; try reflexivity.
  destruct (existsb _ (companies (working s))) eqn:E; [reflexivity |].
  cbn. repeat split. exact E.
Qed.

Lemma insert_Product_run (o : Product.obj) (s : Session) :
  match insert_Product o s with
  | (Ok r, s') =>
      s' = sent {| companies := companies (working s);
                   products := products (working s) ++ [r] |} s
      /\ Product.id r = next_id Product.id (products (working s))
      /\ Product.created_at r = now s
      /\ o = Product.new (Product.company_id r) (Some (Product.name r))
               (Some (Product.description r))
               (Some (Product.target_audience r))
               (Some (Product.key_features r)) (Some (Product.pricing_model r))
  | (_, s') => s' = sent (working s) s
  end.
Proof.
  unfold insert_Product. destruct o as [cid n d ta kf pm]. cbn.
  destruct n, d, ta, kf, pm; try reflexivity.
  cbn. repeat split.
Qed.

(** ** Orphans *)

Lemma no_orphans_more_companies (cs cs' : list Company.row)
  (ps : list Product.row) :
  no_orphans {| companies := cs; products := ps |} ->
  no_orphans {| companies := cs ++ cs'; products := ps |}.
Proof.
  unfold no_orphans. cbn. intros H p Hp.
  destruct (H p Hp) as [c [Hc Hid]]. exists c. split; [| exact Hid].
  apply in_or_app. now left.
Qed.

Lemma no_orphans_add_product (cs : list Company.row) (ps : list Product.row)
  (c : Company.row) (p : Product.row) :
  no_orphans {| companies := cs; products := ps |} ->
  In c cs -> Company.id c = Product.company_id p ->
  no_orphans {| companies := cs; products := ps ++ [p] |}.
Proof.
  unfold no_orphans. cbn. intros H Hc Hid q Hq.
  apply in_app_or in Hq. destruct Hq as [Hq | [<- | []]].
  - now apply H.
  - now exists c.
Qed.

Lemma no_orphans_update_company (cs : list Company.row)
  (ps : list Product.row) (g : Company.row -> Company.row) :
  (forall r, Company.id (g r) = Company.id r) ->
  no_orphans {| companies := cs; products := ps |} ->
  no_orphans {| companies := map g cs; products := ps |}.
Proof.
  unfold no_orphans. cbn. intros Hg H p Hp.
  destruct (H p Hp) as [c [Hc Hid]]. exists (g c). split.
  - now apply in_map.
  - now rewrite Hg.
Qed.

Lemma no_orphans_update_product (cs : list Company.row)
  (ps : list Product.row) (g : Product.row -> Product.row) :
  (forall r, Product.company_id (g r) = Product.company_id r) ->
  no_orphans {| companies := cs; products := ps |} ->
  no_orphans {| companies := cs; products := map g ps |}.
Proof.
  unfold no_orphans. cbn. intros Hg H p Hp.
  apply in_map_iff in Hp. destruct Hp as [q [<- Hq]].
  rewrite Hg. now apply H.
Qed.

Lemma no_orphans_fewer_products (cs : list Company.row)
  (ps : list Product.row) (f : Product.row -> bool) :
  no_orphans {| companies := cs; products := ps |} ->
  no_orphans {| companies := cs; products := filter f ps |}.
Proof.
  unfold no_orphans. cbn. intros H p Hp.
  apply filter_In in Hp. now apply H.
Qed.

Lemma owned_products_deleted (ps : list Product.row) (cid : Z) (p : Product.row) :
  In p (filter (fun p => negb (existsb (Z.eqb (Product.id p))
                  (map Product.id
                     (filter (fun q => Product.company_id q =? cid) ps)))) ps) ->
  Product.company_id p <> cid.
Proof.
  intros Hp Hcid. apply filter_In in Hp. destruct Hp as [Hin Hb].
  apply negb_true_iff in Hb.
  assert (Hex : existsb (Z.eqb (Product.id p))
                  (map Product.id
                     (filter (fun q => Product.company_id q =? cid) ps)) = true).
  { apply existsb_exists. exists (Product.id p). split; [| apply Z.eqb_refl].
    apply in_map. apply filter_In. split; [exact Hin | now apply Z.eqb_eq]. }
  rewrite Hex in Hb. discriminate.
Qed.

Lemma no_orphans_delete_company (cs : list Company.row)
  (ps : list Product.row) (cid : Z) :
  no_orphans {| companies := cs; products := ps |} ->
  no_orphans
    {| companies := filter (fun c => negb (Company.id c =? cid)) cs;
       products :=
         filter (fun p => negb (existsb (Z.eqb (Product.id p))
                   (map Product.id
                      (filter (fun q => Product.company_id q =? cid) ps)))) ps |}.
Proof.
  unfold no_orphans. cbn. intros H p Hp.
  pose proof (owned_products_deleted ps cid p Hp) as Hcid.
  apply filter_In in Hp. destruct Hp as [Hin _].
  destruct (H p Hin) as [c [Hc Hid]]. exists c. split; [| exact Hid].
  apply filter_In. split; [exact Hc |].
  apply negb_true_iff, Z.eqb_neq. congruence.
Qed.

Lemma DB_eta (db : DB) :
  {| companies := companies db; products := products db |} = db.
Proof. now destruct db. Qed.

Lemma Product_init_company_id (cid : Z) (pd : JSON) (o : Product.obj) :
  Product_init cid pd = Ok o -> Product.o_company_id o = cid.
Proof.
  unfold Product_init, bindR. intros H.
  repeat match type of H with
         | context [match ?x with _ => _ end] => destruct x; try discriminate H
         end.
  injection H as <-. reflexivity.
Qed.

Lemma add_products_keeps (cid : Z) (ps : list JSON) (s : Session) :
  no_orphans (working s) ->
  (exists c, In c (companies (working s)) /\ Company.id c = cid) ->
  no_orphans (working (snd (add_products cid ps s)))
  /\ committed (snd (add_products cid ps s)) = committed s
  /\ companies (working (snd (add_products cid ps s))) = companies (working s).
Proof.
  revert s. induction ps as [| pd ps IH]; intros s Hno [c [Hc Hid]];
    cbn [add_products].
  - cbn. tauto.
  - rewrite bind_run, lift_run.
    destruct (Product_init cid pd) as [o | e |] eqn:Einit; cbn [snd];
      try tauto.
    rewrite bind_run. pose proof (insert_Product_run o s) as Hins.
    destruct (insert_Product o s) as [[r | e |] s1]; cbn [snd];
      try (subst s1; cbn; tauto).
    destruct Hins as [-> [_ [_ Ho]]].
    apply Product_init_company_id in Einit. rewrite Ho in Einit.
    cbn in Einit.
    match goal with
    | |- context [add_products cid ps ?s1] =>
        destruct (IH s1) as [H1 [H2 H3]]
    end.
    + cbn. rewrite <- (DB_eta (working s)) in Hno.
      apply (no_orphans_add_product _ _ c r Hno Hc). congruence.
    + exists c. cbn. tauto.
    + split; [exact H1 |]. split; [exact H2 | exact H3].
Qed.

Lemma existing_by_name_run (v : JSON) (s : Session) :
  match existing_by_name v s with
  | (Ok found, s') =>
      s' = sent (working s) s
      /\ found = match v with
                 | JStr x => find_by_name_ci x (working s)
                 | _ => None
                 end
  | (_, s') => s' = s
  end.
Proof. destruct v; cbn; auto. Qed.

Lemma load_companies_keeps (records : list JSON) (l sk : Z) (s : Session) :
  no_orphans (working s) ->
  no_orphans (working (snd (load_companies records l sk s)))
  /\ committed (snd (load_companies records l sk s)) = committed s.
Proof.
  revert l sk s. induction records as [| record records IH]; intros l sk s Hno;
    cbn [load_companies].
  - cbn. tauto.
  - destruct record as [| b | n | x | items | d]; try (cbn; tauto).
    destruct (dict_get "name" d) as [v |]; [| cbn; tauto].
    rewrite bind_run. pose proof (existing_by_name_run v s) as Hlook.
    destruct (existing_by_name v s) as [[found | e |] s1]; cbn [snd];
      try (subst s1; tauto).
    destruct Hlook as [-> _].
    destruct found as [c |].
    { destruct (IH l (sk + 1) (sent (working s) s) Hno) as [H1 H2].
      split; [exact H1 | exact H2]. }
    rewrite bind_run, lift_run.
    destruct (Company_init (dict_remove "products" d)) as [o | e |];
      cbn [snd working committed sent]; try tauto.
    rewrite bind_run.
    pose proof (insert_Company_run o (sent (working s) s)) as Hins.
    destruct (insert_Company o (sent (working s) s)) as [[r | e |] s2];
      cbn [snd]; try (subst s2; cbn; tauto).
    destruct Hins as [-> _]. cbn [working sent].
    rewrite bind_run, lift_run.
    destruct (py_items _) as [ps | e |]; cbn [snd working committed sent];
      try (split; [| reflexivity];
           rewrite <- (DB_eta (working s)) in Hno;
           now apply no_orphans_more_companies).
    rewrite bind_run.
    match goal with
    | |- context [add_products (Company.id r) ps ?s3] =>
        destruct (add_products_keeps (Company.id r) ps s3) as [H1 [H2 H3]];
        [ cbn; rewrite <- (DB_eta (working s)) in Hno;
          now apply no_orphans_more_companies
        | exists r; cbn; split; [apply in_or_app; right; now left | reflexivity]
        | destruct (add_products (Company.id r) ps s3) as [[[] | e |] s4];
          cbn [snd] in *; try (split; [exact H1 | exact H2]) ]
    end.
    destruct (IH (l + 1) sk s4 H1) as [H4 H5].
    split; [exact H4 |]. rewrite H5. exact H2.
Qed.

Lemma keeps_map (I : DB -> Prop) {A B : Type} (h : M A) (f : A -> B) :
  keeps I h -> keeps I (r <- h ;; ret (f r)).
Proof.
  intros H s Hw Hc. specialize (H s Hw Hc). rewrite bind_run.
  destruct (h s) as [[a | e |] s']; exact H.
Qed.

Lemma keeps_validated (I : DB -> Prop) {A B : Type}
  (v : Validated A) (k : A -> M B) :
  (forall a, keeps I (k a)) -> keeps I (a <- validated v ;; k a).
Proof.
  intros H s Hw Hc. rewrite bind_run.
  destruct v as [a | errs |]; cbn; [now apply H | exact Hc | exact Hc].
Qed.

Lemma load_data_keeps (f : SeedFile) : keeps no_orphans (load_data_from_json f).
Proof.
  intros s Hw Hc. unfold load_data_from_json. rewrite bind_run.
  destruct f as [| | data]; try exact Hc.
  cbn [read_seed json_load]. rewrite lift_run, bind_run, lift_run.
  destruct (get_companies_data data) as [cd | e |]; try exact Hc.
  rewrite bind_run, lift_run.
  destruct (py_items cd) as [records | e |]; try exact Hc.
  rewrite bind_run.
  destruct (load_companies_keeps records 0 0 s Hw) as [H1 H2].
  destruct (load_companies records 0 0 s) as [[counts | e |] s'];
    cbn [snd] in *; try (rewrite H2; exact Hc).
  exact H1.
Qed.

Lemma get_companies_keeps (I : DB -> Prop) (page page_size : Z) :
  keeps I (get_companies page page_size).
Proof.
  intros s Hw Hc. unfold get_companies.
  destruct (page <? 1); [exact Hc |].
  destruct ((page_size <? 1) || (page_size >? 100)); exact Hc.
Qed.

Lemma get_company_keeps (I : DB -> Prop) (company_id : Z) :
  keeps I (get_company company_id).
Proof.
  intros s Hw Hc. unfold get_company. run.
  destruct (find _ (companies (working s))); exact Hc.
Qed.

Lemma create_company_keeps (company : CompanyCreate) :
  keeps no_orphans (create_company company).
Proof.
  intros s Hw Hc. unfold create_company. run.
  destruct (find _ (companies (working s))); [exact Hc |].
  match goal with
  | |- context [insert_Company ?o ?s1] =>
      pose proof (insert_Company_run o s1) as Hins;
      destruct (insert_Company o s1) as [[r | e |] s2]
  end; try (subst s2; exact Hc).
  destruct Hins as [-> _]. unfold refresh_Company. run.
  assert (Hnew : no_orphans {| companies := companies (working s) ++ [r];
                               products := products (working s) |}).
  { rewrite <- (DB_eta (working s)) in Hw.
    now apply no_orphans_more_companies. }
  destruct (find _ (companies (working s) ++ [r])); exact Hnew.
Qed.

Lemma update_company_keeps (company_id : Z) (company : CompanyUpdate) :
  keeps no_orphans (update_company company_id company).
Proof.
  intros s Hw Hc. unfold update_company. run.
  destruct (find _ (companies (working s))) as [c |]; [| exact Hc].
  assert (Hnew : forall cid,
    no_orphans {| companies :=
                    map (fun r => if Company.id r =? cid
                                  then Company_setattrs r company else r)
                        (companies (working s));
                  products := products (working s) |}).
  { intros cid. apply no_orphans_update_company.
    - intros r. now destruct (Company.id r =? cid).
    - now rewrite DB_eta. }
  destruct (negb _); run.
  - destruct (find _ (companies (working s))); [exact Hc |].
    unfold update_Company, refresh_Company. run.
    destruct (existsb _ (companies (working s))); [exact Hc |]. run.
    destruct (find _ (map _ _)); apply Hnew.
  - unfold update_Company, refresh_Company. run.
    destruct (existsb _ (companies (working s))); [exact Hc |]. run.
    destruct (find _ (map _ _)); apply Hnew.
Qed.

Lemma delete_company_keeps (company_id : Z) :
  keeps no_orphans (delete_company company_id).
Proof.
  intros s Hw Hc. unfold delete_company. run.
  destruct (find _ (companies (working s))) as [c |]; [| exact Hc].
  unfold delete_Company. run.
  apply no_orphans_delete_company. now rewrite DB_eta.
Qed.

Lemma get_product_keeps (I : DB -> Prop) (product_id : Z) :
  keeps I (get_product product_id).
Proof.
  intros s Hw Hc. unfold get_product. run.
  destruct (find _ (products (working s))); exact Hc.
Qed.

Lemma create_product_keeps (product : ProductCreate.t) :
  keeps no_orphans (create_product product).
Proof.
  intros s Hw Hc. unfold create_product. run.
  destruct (find _ (companies (working s))) as [c |] eqn:Efind; [| exact Hc].
  apply find_some in Efind. destruct Efind as [Hin Hid].
  apply Z.eqb_eq in Hid.
  unfold insert_Product, Product_of_dump, refresh_Product. run.
  cbn [Product.o_name Product.o_description Product.o_target_audience
       Product.o_key_features Product.o_pricing_model Product.o_company_id].
  run.
  match goal with
  | |- context [products (working s) ++ [?r]] =>
      assert (Hnew : no_orphans {| companies := companies (working s);
                                   products := products (working s) ++ [r] |})
        by (apply (no_orphans_add_product _ _ c r);
            [now rewrite DB_eta | exact Hin | exact Hid]);
      destruct (find _ (products (working s) ++ [r])); exact Hnew
  end.
Qed.

Lemma update_product_keeps (product_id : Z) (product : ProductUpdate) :
  keeps no_orphans (update_product product_id product).
Proof.
  intros s Hw Hc. unfold update_product. run.
  destruct (find _ (products (working s))) as [p |]; [| exact Hc].
  unfold update_Product, refresh_Product. run.
  assert (Hnew :
    no_orphans {| companies := companies (working s);
                  products :=
                    map (fun r => if Product.id r =? Product.id p
                                  then Product_setattrs r product else r)
                        (products (working s)) |}).
  { apply no_orphans_update_product.
    - intros r. now destruct (Product.id r =? Product.id p).
    - now rewrite DB_eta. }
  destruct (find _ (map _ _)); exact Hnew.
Qed.

Lemma delete_product_keeps (product_id : Z) :
  keeps no_orphans (delete_product product_id).
Proof.
  intros s Hw Hc. unfold delete_product. run.
  destruct (find _ (products (working s))) as [p |]; [| exact Hc].
  unfold delete_Product. run.
  apply no_orphans_fewer_products. now rewrite DB_eta.
Qed.

Lemma route_keeps (req : Request) : keeps no_orphans (route req).
Proof.
  destruct req; cbn [route].
  - apply keeps_map, load_data_keeps.
  - apply keeps_map, get_companies_keeps.
  - apply keeps_map, get_company_keeps.
  - apply keeps_validated. intros a. apply keeps_map, create_company_keeps.
  - apply keeps_validated. intros a. apply keeps_map, update_company_keeps.
  - apply (keeps_map _ (delete_company company_id) (fun _ => NoContent)),
      delete_company_keeps.
  - apply keeps_map. intros s Hw Hc. exact Hc.
  - apply keeps_map, get_product_keeps.
  - apply keeps_validated. intros a. apply keeps_map, create_product_keeps.
  - apply keeps_validated. intros a. apply keeps_map, update_product_keeps.
  - apply (keeps_map _ (delete_product product_id) (fun _ => NoContent)),
      delete_product_keeps.
  - intros s Hw Hc. exact Hc.
Qed.

(** ** Deleting a company (DELETE /companies/{id}) *)

Lemma owned_by_key (ps : list Product.row) (cid : Z) (p : Product.row) :
  NoDup (map Product.id ps) -> In p ps ->
  existsb (Z.eqb (Product.id p))
    (map Product.id (filter (fun q => Product.company_id q =? cid) ps))
  = (Product.company_id p =? cid).
Proof.
  intros Hnd Hin.
  destruct (Product.company_id p =? cid) eqn:E.
  - apply existsb_exists. exists (Product.id p). split; [| apply Z.eqb_refl].
    apply in_map. apply filter_In. now split.
  - destruct (existsb _ _) eqn:Ex; [| reflexivity].
    apply existsb_exists in Ex. destruct Ex as [k [Hk Heq]].
    apply Z.eqb_eq in Heq. subst k.
    apply in_map_iff in Hk. destruct Hk as [q [Hq Hqin]].
    apply filter_In in Hqin. destruct Hqin as [Hqin Hqc].
    assert (q = p) by (apply (NoDup_map_In_inj Product.id ps); auto).
    subst q. congruence.
Qed.

(** C6.  Deleting a stored company answers 204 and leaves a store in which
    neither the company's id nor the id of any product it owned is found,
    and no product names the company; with primary keys in force, exactly
    the company's row and its products' rows are gone.  And whatever the
    request, a store without orphans is left without orphans. *)
Theorem delete_company_cascades :
  (forall db t c,
     In c (companies db) ->
     exists db',
       serve (DELETE_company (Company.id c)) t db = (Ok NoContent, db')
       /\ http_status (DELETE_company (Company.id c))
            (fst (serve (DELETE_company (Company.id c)) t db)) = Some 204
       /\ (forall t',
             serve (GET_company (Company.id c)) t' db'
             = (Raise (company_not_found (Company.id c)), db'))
       /\ (forall p t',
             In p (products db) -> Product.company_id p = Company.id c ->
             serve (GET_product (Product.id p)) t' db'
             = (Raise (product_not_found (Product.id p)), db'))
       /\ (forall p, In p (products db') ->
             Product.company_id p <> Company.id c)
       /\ (primary_keys db ->
           companies db'
           = filter (fun r => negb (Company.id r =? Company.id c)) (companies db)
           /\ products db'
              = filter (fun p => negb (Product.company_id p =? Company.id c))
                  (products db)))
  /\ (forall req t db, no_orphans db -> no_orphans (snd (serve req t db))).
Proof.
  split.
  - intros db t c Hin.
    set (cid := Company.id c).
    set (db' := {| companies :=
                     filter (fun r => negb (Company.id r =? cid)) (companies db);
                   products :=
                     filter (fun p => negb (existsb (Z.eqb (Product.id p))
                               (map Product.id
                                  (filter (fun q => Product.company_id q =? cid)
                                     (products db))))) (products db) |}).
    assert (E : serve (DELETE_company cid) t db = (Ok NoContent, db')).
    { run. unfold delete_company. run.
      destruct (find (fun r => Company.id r =? cid) (companies db))
        as [c' |] eqn:Efind.
      - apply find_some in Efind. destruct Efind as [_ Hid].
        apply Z.eqb_eq in Hid.
        unfold delete_Company. run. rewrite Hid. reflexivity.
      - apply (find_none _ _ Efind) in Hin. unfold cid in Hin.
        rewrite Z.eqb_refl in Hin. discriminate. }
    exists db'. rewrite E. split; [reflexivity |]. split; [reflexivity |].
    split; [| split; [| split]].
    + intros t'. run. unfold get_company. run.
      rewrite find_miss; [reflexivity |].
      intros a Ha. apply filter_In in Ha. destruct Ha as [_ Ha].
      now apply negb_true_iff in Ha.
    + intros p t' Hp Hown. run. unfold get_product. run.
      rewrite find_miss; [reflexivity |].
      intros a Ha. apply filter_In in Ha. destruct Ha as [_ Ha].
      apply negb_true_iff in Ha.
      destruct (Product.id a =? Product.id p) eqn:Eid; [| reflexivity].
      apply Z.eqb_eq in Eid. exfalso.
      assert (Hex : existsb (Z.eqb (Product.id a))
                      (map Product.id
                         (filter (fun q => Product.company_id q =? cid)
                            (products db))) = true).
      { apply existsb_exists. exists (Product.id p).
        split; [| now apply Z.eqb_eq].
        apply in_map. apply filter_In. split; [exact Hp | now apply Z.eqb_eq]. }
      rewrite Hex in Ha. discriminate.
    + intros p Hp. now apply (owned_products_deleted (products db) cid p).
    + intros [_ Hkeys]. split; [reflexivity |]. cbn [products db'].
      apply filter_ext_in. intros p Hp.
      now rewrite (owned_by_key _ cid p Hkeys Hp).
  - intros req t db Hno. unfold serve, run_request.
    pose proof (route_keeps req (fresh_session t db) Hno Hno) as H.
    unfold fresh_session in H.
    destruct (route req _) as [r s]. exact H.
Qed.

Lemma delete_company_cascades_witness :
  (exists db',
     serve (DELETE_company (Company.id acme)) 5 acme_db = (Ok NoContent, db')
     /\ http_status (DELETE_company (Company.id acme))
          (fst (serve (DELETE_company (Company.id acme)) 5 acme_db)) = Some 204
     /\ (forall t',
           serve (GET_company (Company.id acme)) t' db'
           = (Raise (company_not_found (Company.id acme)), db'))
     /\ (forall p t',
           In p (products acme_db) -> Product.company_id p = Company.id acme ->
           serve (GET_product (Product.id p)) t' db'
           = (Raise (product_not_found (Product.id p)), db'))
     /\ (forall p, In p (products db') ->
           Product.company_id p <> Company.id acme)
     /\ (primary_keys acme_db ->
         companies db'
         = filter (fun r => negb (Company.id r =? Company.id acme))
             (companies acme_db)
         /\ products db'
            = filter (fun p => negb (Product.company_id p =? Company.id acme))
                (products acme_db)))
  /\ no_orphans (snd (serve (DELETE_product 2) 5 acme_db)).
Proof.
  split.
  - apply (proj1 delete_company_cascades acme_db 5 acme). cbn. tauto.
  - apply (proj2 delete_company_cascades (DELETE_product 2) 5 acme_db).
    intros p [<- | [<- | []]]; exists acme; cbn; tauto.
Defined.

(** ** Records of the seed format *)

Lemma dict_get_remove (k k' : string) (d : dict) :
  k <> k' -> dict_get k (dict_remove k' d) = dict_get k d.
Proof.
  intros Hneq. induction d as [| [k0 v] d IH]; cbn; [reflexivity |].
  destruct (String.eqb_spec k' k0) as [<- | Hk0].
  - destruct (String.eqb_spec k k') as [-> | _]; [contradiction | exact IH].
  - cbn. destruct (String.eqb k k0); [reflexivity | exact IH].
Qed.

Lemma In_keys_remove (k k' : string) (d : dict) :
  In k (dict_keys (dict_remove k' d)) -> In k (dict_keys d) /\ k <> k'.
Proof.
  induction d as [| [k0 v] d IH]; cbn; [tauto |].
  destruct (String.eqb_spec k' k0) as [<- | Hk0].
  - intros H. destruct (IH H). tauto.
  - cbn. intros [<- | H]; [split; [tauto | congruence] |].
    destruct (IH H). tauto.
Qed.

Ltac one_of H :=
  unfold mem_string in H; cbn [existsb] in H;
  repeat (apply orb_true_iff in H; destruct H as [H | H]);
  try discriminate H;
  apply String.eqb_eq in H; subst.

Lemma has_str_get (k : string) (d : dict) :
  has_str k d = true -> dict_get k d = Some (JStr (str_at k d)).
Proof.
  unfold has_str, str_at. destruct (dict_get k d) as [[] |]; congruence.
Qed.

Lemma has_int_get (k : string) (d : dict) :
  has_int k d = true -> dict_get k d = Some (JInt (int_at k d)).
Proof.
  unfold has_int, int_at. destruct (dict_get k d) as [[] |]; congruence.
Qed.

Lemma has_opt_str_column (k : string) (d : dict) :
  has_opt_str k d = true -> column_str (dict_get k d) = Ok (opt_str_at k d).
Proof.
  unfold has_opt_str, opt_str_at. destruct (dict_get k d) as [[] |];
    cbn; congruence.
Qed.

Lemma Product_init_seed (cid : Z) (pd : JSON) :
  seed_product pd = true ->
  Product_init cid pd
  = Ok (Product.new cid
          (Some (ProductBase.name (record_product pd)))
          (Some (ProductBase.description (record_product pd)))
          (Some (ProductBase.target_audience (record_product pd)))
          (Some (ProductBase.key_features (record_product pd)))
          (Some (ProductBase.pricing_model (record_product pd)))).
Proof.
  destruct pd as [| | | | | d]; try discriminate. cbn [seed_product].
  intros H. repeat (apply andb_true_iff in H; destruct H as [H ?]).
  rewrite forallb_forall in H.
  unfold Product_init.
  assert (Hdup : mem_string "company_id" (dict_keys d) = false).
  { destruct (mem_string "company_id" (dict_keys d)) eqn:E; [| reflexivity].
    unfold mem_string in E. apply existsb_exists in E.
    destruct E as [k [Hk Heq]]. apply String.eqb_eq in Heq. subst k.
    specialize (H _ Hk). one_of H. }
  rewrite Hdup.
  assert (Hattr : forallb (fun k => mem_string k Product.attributes)
                    (dict_keys d) = true).
  { apply forallb_forall. intros k Hk. specialize (H _ Hk).
    one_of H; reflexivity. }
  rewrite Hattr. cbn [negb].
  assert (Hbad : existsb (fun k => mem_string k ["id"; "created_at"; "company"])
                   (dict_keys d) = false).
  { destruct (existsb _ (dict_keys d)) eqn:E; [| reflexivity].
    apply existsb_exists in E. destruct E as [k [Hk Hb]].
    specialize (H _ Hk). one_of H; discriminate Hb. }
  rewrite Hbad.
  repeat match goal with
         | Hs : has_str _ d = true |- _ =>
             apply has_str_get in Hs; rewrite Hs
         end.
  reflexivity.
Qed.

Lemma Company_init_seed (d : dict) :
  seed_company (JObj d) = true ->
  Company_init (dict_remove "products" d)
  = Ok (Company_of_dump (record_company d)).
Proof.
  cbn [seed_company].
  intros H. repeat (apply andb_true_iff in H; destruct H as [H ?]).
  rewrite forallb_forall in H.
  unfold Company_init.
  assert (Hattr : forallb (fun k => mem_string k Company.attributes)
                    (dict_keys (dict_remove "products" d)) = true).
  { apply forallb_forall. intros k Hk. apply In_keys_remove in Hk.
    destruct Hk as [Hk _]. specialize (H _ Hk). one_of H; reflexivity. }
  rewrite Hattr. cbn [negb].
  assert (Hbad : existsb (fun k => mem_string k ["id"; "created_at"; "products"])
                   (dict_keys (dict_remove "products" d)) = false).
  { destruct (existsb _ (dict_keys (dict_remove "products" d))) eqn:E;
      [| reflexivity].
    apply existsb_exists in E. destruct E as [k [Hk Hb]].
    apply In_keys_remove in Hk. destruct Hk as [Hk Hneq].
    specialize (H _ Hk). one_of H; try discriminate Hb. congruence. }
  rewrite Hbad.
  repeat rewrite dict_get_remove by discriminate.
  repeat match goal with
         | Hs : has_str _ d = true |- _ =>
             apply has_str_get in Hs; rewrite Hs
         | Hs : has_int _ d = true |- _ =>
             apply has_int_get in Hs; rewrite Hs
         | Hs : has_opt_str _ d = true |- _ =>
             apply has_opt_str_column in Hs; rewrite Hs
         end.
  reflexivity.
Qed.

Lemma seed_company_parts (d : dict) :
  seed_company (JObj d) = true ->
  dict_get "name" d = Some (JStr (str_at "name" d))
  /\ exists ps, dict_get "products" d = Some (JArr ps)
                /\ forallb seed_product ps = true.
Proof.
  intros H. cbn [seed_company] in H.
  apply andb_true_iff in H. destruct H as [H Hps].
  repeat (apply andb_true_iff in H; destruct H as [H ?]).
  split.
  - now apply has_str_get.
  - destruct (dict_get "products" d) as [[| | | | ps |] |]; try discriminate.
    now exists ps.
Qed.

(** ** The bulk loader on a seed document *)

Lemma add_products_seed (cid : Z) (ps : list JSON) (s : Session) :
  forallb seed_product ps = true ->
  exists rows s',
    add_products cid ps s = (Ok tt, s')
    /\ committed s' = committed s
    /\ working s' = {| companies := companies (working s);
                       products := products (working s) ++ rows |}
    /\ map Product_base rows = map record_product ps
    /\ Forall (fun p => Product.company_id p = cid) rows.
Proof.
  revert s. induction ps as [| pd ps IH]; intros s Hseed.
  - exists [], s. cbn. rewrite app_nil_r, DB_eta. repeat split. constructor.
  - cbn [forallb] in Hseed. apply andb_true_iff in Hseed.
    destruct Hseed as [Hpd Hps].
    cbn [add_products]. rewrite bind_run, lift_run, (Product_init_seed cid pd Hpd).
    rewrite bind_run. unfold insert_Product at 1.
    cbn [Product.o_name Product.o_description Product.o_target_audience
         Product.o_key_features Product.o_pricing_model Product.o_company_id].
    match goal with
    | |- context [add_products cid ps (sent ?db s)] =>
        destruct (IH (sent db s) Hps) as [rows [s' [E [Hc [Hw [Hb Hall]]]]]]
    end.
    set (r := Product.mk (next_id Product.id (products (working s))) cid
                (ProductBase.name (record_product pd))
                (ProductBase.description (record_product pd))
                (ProductBase.target_audience (record_product pd))
                (ProductBase.key_features (record_product pd))
                (ProductBase.pricing_model (record_product pd)) (now s)) in *.
    exists (r :: rows), s'. split; [exact E |]. split; [exact Hc |].
    split; [| split].
    + rewrite Hw. cbn [working sent companies products].
      now rewrite <- app_assoc.
    + cbn [map]. rewrite Hb. f_equal.
      unfold Product_base, r. cbn. now destruct (record_product pd).
    + constructor; [reflexivity | exact Hall].
Qed.

Lemma load_companies_seed (records : list JSON) (l0 sk0 : Z) (s : Session) :
  forallb seed_company records = true ->
  exists l sk s',
    load_companies records l0 sk0 s = (Ok (l0 + l, sk0 + sk), s')
    /\ committed s' = committed s
    /\ bulk_load (working s) records (working s') l sk
    /\ l + sk = Z.of_nat (List.length records)
    /\ 0 <= l /\ 0 <= sk.
Proof.
  revert l0 sk0 s. induction records as [| record records IH];
    intros l0 sk0 s Hseed.
  - exists 0, 0, s. cbn. rewrite !Z.add_0_r. repeat split; try lia.
    constructor.
  - cbn [forallb] in Hseed. apply andb_true_iff in Hseed.
    destruct Hseed as [Hrec Hrest].
    destruct record as [| | | | | d]; try discriminate.
    destruct (seed_company_parts d Hrec) as [Hname [ps [Hps Hpsok]]].
    cbn [load_companies]. rewrite Hname. cbn [existing_by_name].
    rewrite bind_run, Company_by_name_ci_run.
    destruct (find_by_name_ci (str_at "name" d) (working s)) as [c |] eqn:Efind.
    + destruct (IH l0 (sk0 + 1) (sent (working s) s) Hrest)
        as [l [sk [s' [E [Hc [Hb [Hsum [Hl Hsk]]]]]]]].
      exists l, (sk + 1), s'. rewrite E. split; [do 3 f_equal; lia |].
      split; [exact Hc |]. split; [| cbn [List.length]; lia].
      cbn [working sent] in Hb. now apply (bulk_skip _ _ _ _ _ _ c).
    + rewrite bind_run, lift_run, (Company_init_seed d Hrec).
      rewrite bind_run. unfold insert_Company at 1, Company_of_dump.
      cbn [Company.o_name Company.o_tagline Company.o_description
           Company.o_industry Company.o_founded_year Company.o_employee_count
           Company.o_headquarters Company.o_website_url
           working sent companies products now].
      pose proof (no_ci_match_no_exact_match _ _ Efind) as Hexact.
      change (str_at "name" d) with (CompanyBase.name (record_company d))
        in Hexact.
      rewrite Hexact.
      set (r := Company.mk (next_id Company.id (companies (working s)))
                  (CompanyBase.name (record_company d))
                  (CompanyBase.tagline (record_company d))
                  (CompanyBase.description (record_company d))
                  (CompanyBase.industry (record_company d))
                  (CompanyBase.founded_year (record_company d))
                  (CompanyBase.employee_count (record_company d))
                  (CompanyBase.headquarters (record_company d))
                  (CompanyBase.website_url (record_company d)) (now s)).
      rewrite Hps. rewrite bind_run, lift_run. cbn [py_items].
      rewrite bind_run.
      match goal with
      | |- context [add_products (Company.id r) ps ?s1] =>
          destruct (add_products_seed (Company.id r) ps s1 Hpsok)
            as [rows [s2 [Eadd [Hc2 [Hw2 [Hbase Hown]]]]]]
      end.
      rewrite Eadd.
      destruct (IH (l0 + 1) sk0 s2 Hrest)
        as [l [sk [s' [E [Hc [Hb [Hsum [Hl Hsk]]]]]]]].
      exists (l + 1), sk, s'. rewrite E. split; [do 3 f_equal; lia |].
      split; [now rewrite Hc, Hc2 |]. split; [| cbn [List.length]; lia].
      rewrite Hw2 in Hb. cbn [working sent companies products] in Hb.
      apply (bulk_insert _ _ _ _ _ _ r rows).
      * exact Efind.
      * reflexivity.
      * apply next_id_unused.
      * unfold record_products. rewrite Hps. exact Hbase.
      * exact Hown.
      * exact Hb.
Qed.

Lemma bulk_load_appends (db db' : DB) (records : list JSON) (l sk : Z) :
  bulk_load db records db' l sk ->
  exists cs ps,
    companies db' = companies db ++ cs
    /\ products db' = products db ++ ps
    /\ Z.of_nat (List.length cs) = l.
Proof.
  induction 1 as [db | db d rest db' l s c Hfind Hload IH
                  | db d rest db' l s c ps Hfind Hbase Hnew Hps Hown Hload IH].
  - exists [], []. now rewrite !app_nil_r.
  - exact IH.
  - destruct IH as [cs [ps' [Hc [Hp Hlen]]]]. cbn in Hc, Hp.
    exists (c :: cs), (ps ++ ps'). rewrite Hc, Hp, <- !app_assoc.
    repeat split. cbn [List.length]. lia.
Qed.



(** The case of section 8: of the records A and B, with A stored already,
    one is loaded and one skipped, and B and its product can be read. *)
Example load_data_one_known_one_new :
  exists db' bolt nut,
    serve (POST_load_data (Content
      (seed_of [seed_record "ACME" "FinTech" [JObj (product_fields "Till" "Free")];
                seed_record "Bolt" "SaaS" [JObj (product_fields "Nut" "Free")]])))
      5 acme_db
    = (Ok (LoadData (mkLoad 1 1 2)), db')
    /\ products db' = products acme_db ++ [nut]
    /\ Company.name bolt = "Bolt"
    /\ Product.name nut = "Nut"
    /\ fst (serve (GET_company (Company.id bolt)) 6 db')
       = Ok (CompanyWithProducts bolt [nut]).
Proof.
  eexists.
  exists (Company.mk 2 "Bolt" "Payments made simple" "A payments company"
            "SaaS" 2020 12 "Pune, India" None 5).
  exists (Product.mk 3 2 "Nut" "Card reader" "Shops" "Fast" "Free" 5).
  split; [vm_compute; reflexivity |]. repeat split.
Qed.

(** ** The bulk loader on any document *)

Lemma add_products_commits_nothing (cid : Z) (ps : list JSON) (s : Session) :
  committed (snd (add_products cid ps s)) = committed s.
Proof.
  revert s. induction ps as [| pd ps IH]; intros s; cbn [add_products];
    [reflexivity |].
  rewrite bind_run, lift_run.
  destruct (Product_init cid pd) as [o | e |]; try reflexivity.
  rewrite bind_run. pose proof (insert_Product_run o s) as Hins.
  destruct (insert_Product o s) as [[r | e |] s1]; cbn [snd];
    try (subst s1; reflexivity).
  destruct Hins as [-> _]. now rewrite IH.
Qed.

Lemma load_companies_outcome (records : list JSON) (l0 sk0 : Z) (s : Session) :
  committed (snd (load_companies records l0 sk0 s)) = committed s
  /\ forall l sk,
       fst (load_companies records l0 sk0 s) = Ok (l, sk) ->
       l + sk = l0 + sk0 + Z.of_nat (List.length records).
Proof.
  revert l0 sk0 s. induction records as [| record records IH]; intros l0 sk0 s;
    cbn [load_companies].
  - cbn. split; [reflexivity |]. intros l sk [= <- <-]. lia.
  - destruct record as [| b | n | x | items | d];
      try (cbn; split; [reflexivity | discriminate]).
    destruct (dict_get "name" d) as [v |];
      [| cbn; split; [reflexivity | discriminate]].
    rewrite bind_run. pose proof (existing_by_name_run v s) as Hlook.
    destruct (existing_by_name v s) as [[found | e |] s1]; cbn [fst snd];
      try (subst s1; split; [reflexivity | discriminate]).
    destruct Hlook as [-> _].
    destruct found as [c |].
    { destruct (IH l0 (sk0 + 1) (sent (working s) s)) as [H1 H2].
      split; [exact H1 |]. intros l sk E. specialize (H2 l sk E).
      cbn [List.length]. lia. }
    rewrite bind_run, lift_run.
    destruct (Company_init (dict_remove "products" d)) as [o | e |];
      cbn [fst snd]; try (split; [reflexivity | discriminate]).
    rewrite bind_run.
    pose proof (insert_Company_run o (sent (working s) s)) as Hins.
    destruct (insert_Company o (sent (working s) s)) as [[r | e |] s2];
      cbn [fst snd]; try (subst s2; split; [reflexivity | discriminate]).
    destruct Hins as [-> _].
    rewrite bind_run, lift_run.
    destruct (py_items _) as [ps | e |]; cbn [fst snd];
      try (split; [reflexivity | discriminate]).
    rewrite bind_run.
    match goal with
    | |- context [add_products (Company.id r) ps ?s3] =>
        pose proof (add_products_commits_nothing (Company.id r) ps s3) as Hadd;
        destruct (add_products (Company.id r) ps s3) as [[[] | e |] s4];
        cbn [fst snd] in *; try (split; [exact Hadd | discriminate])
    end.
    destruct (IH (l0 + 1) sk0 s4) as [H1 H2].
    split; [now rewrite H1 |]. intros l sk E. specialize (H2 l sk E).
    cbn [List.length]. lia.
Qed.

(** The load is committed as a whole or not at all: an answer other than
    success leaves the store as it was, and a successful answer has
    loaded + skipped = total, whatever the file holds. *)
Lemma load_data_all_or_nothing (f : SeedFile) (t : Z) (db : DB) :
  match serve (POST_load_data f) t db with
  | (Ok (LoadData r), _) => loaded r + skipped r = load_total r
  | (Ok _, _) => False
  | (_, db') => db' = db
  end.
Proof.
  unfold serve, run_request, route, load_data_from_json.
  fold (fresh_session t db). rewrite bind_run, bind_run.
  destruct f as [| | data]; try reflexivity.
  cbn [read_seed json_load]. rewrite lift_run, bind_run, lift_run.
  destruct (get_companies_data data) as [cd | e |]; try reflexivity.
  rewrite bind_run, lift_run.
  destruct (py_items cd) as [records | e |]; try reflexivity.
  rewrite bind_run.
  destruct (load_companies_outcome records 0 0 (fresh_session t db)) as [H1 H2].
  destruct (load_companies records 0 0 (fresh_session t db))
    as [[[l sk] | e |] s']; cbn [fst snd] in *; try exact H1.
  specialize (H2 l sk eq_refl). cbn. lia.
Qed.

(** ** Keys and names *)

Lemma NoDup_map_snoc {A B : Type} (f : A -> B) (l : list A) (r : A) :
  NoDup (map f l) -> ~ In (f r) (map f l) -> NoDup (map f (l ++ [r])).
Proof.
  intros Hnd Hnew. rewrite map_app. apply NoDup_app; [exact Hnd | |].
  - cbn. constructor; [tauto | constructor].
  - intros b Hb [<- | []]. contradiction.
Qed.

Lemma NoDup_map_filter {A B : Type} (f : A -> B) (g : A -> bool) (l : list A) :
  NoDup (map f l) -> NoDup (map f (filter g l)).
Proof.
  induction l as [| a l IH]; cbn; [trivial |].
  intros Hnd. inversion Hnd as [| x xs Hnotin Hnd']; subst.
  destruct (g a); [| now apply IH].
  cbn. constructor; [| now apply IH].
  intros Hin. apply Hnotin. apply in_map_iff in Hin.
  destruct Hin as [b [Hb Hbin]]. apply filter_In in Hbin.
  rewrite <- Hb. apply in_map. tauto.
Qed.

Lemma keyed_add_company (cs : list Company.row) (ps : list Product.row)
  (r : Company.row) :
  keyed {| companies := cs; products := ps |} ->
  Company.id r = next_id Company.id cs ->
  find (fun c => String.eqb (lower (Company.name c)) (lower (Company.name r))) cs
  = None ->
  keyed {| companies := cs ++ [r]; products := ps |}.
Proof.
  unfold keyed, primary_keys, unique_names. cbn.
  intros [[Hc Hp] Hn] Hid Hfree. repeat split; [| exact Hp |].
  - apply NoDup_map_snoc; [exact Hc |]. rewrite Hid. apply next_id_unused.
  - apply NoDup_map_snoc; [exact Hn |]. intros Hin.
    apply in_map_iff in Hin. destruct Hin as [c [Hlow Hin]].
    pose proof (find_none _ _ Hfree c Hin) as Hneq. cbn in Hneq.
    rewrite Hlow, String.eqb_refl in Hneq. discriminate.
Qed.

Lemma keyed_add_product (cs : list Company.row) (ps : list Product.row)
  (r : Product.row) :
  keyed {| companies := cs; products := ps |} ->
  Product.id r = next_id Product.id ps ->
  keyed {| companies := cs; products := ps ++ [r] |}.
Proof.
  unfold keyed, primary_keys, unique_names. cbn.
  intros [[Hc Hp] Hn] Hid. repeat split; [exact Hc | | exact Hn].
  apply NoDup_map_snoc; [exact Hp |]. rewrite Hid. apply next_id_unused.
Qed.

Lemma keyed_fewer_rows (cs : list Company.row) (ps : list Product.row)
  (f : Company.row -> bool) (g : Product.row -> bool) :
  keyed {| companies := cs; products := ps |} ->
  keyed {| companies := filter f cs; products := filter g ps |}.
Proof.
  unfold keyed, primary_keys, unique_names. cbn.
  intros [[Hc Hp] Hn]. repeat split; now apply NoDup_map_filter.
Qed.

Lemma keyed_update_product (cs : list Company.row) (ps : list Product.row)
  (g : Product.row -> Product.row) :
  (forall r, Product.id (g r) = Product.id r) ->
  keyed {| companies := cs; products := ps |} ->
  keyed {| companies := cs; products := map g ps |}.
Proof.
  unfold keyed, primary_keys, unique_names. cbn.
  intros Hg [[Hc Hp] Hn]. repeat split; [exact Hc | | exact Hn].
  rewrite map_map. erewrite map_ext; [exact Hp |]. exact Hg.
Qed.

(** The names after one row is renamed to a name no row holds. *)
Lemma renamed_names_NoDup (cs : list Company.row) (cid : Z)
  (company : CompanyBase.t) :
  NoDup (map Company.id cs) ->
  NoDup (map (fun c => lower (Company.name c)) cs) ->
  (forall c, In c cs ->
     lower (Company.name c) <> lower (CompanyBase.name company)) ->
  NoDup (map (fun c => lower (Company.name c))
           (map (fun r => if Company.id r =? cid
                          then Company_setattrs r company else r) cs)).
Proof.
  induction cs as [| a cs IH]; cbn; [constructor |].
  intros Hid Hnm Hfree.
  inversion Hid as [| x xs Hid1 Hid2]; subst.
  inversion Hnm as [| y ys Hnm1 Hnm2]; subst.
  constructor.
  - intros Hin. apply in_map_iff in Hin. destruct Hin as [b [Hb Hbin]].
    apply in_map_iff in Hbin. destruct Hbin as [r [<- Hr]].
    destruct (Company.id r =? cid) eqn:Er, (Company.id a =? cid) eqn:Ea;
      cbn in Hb.
    + apply Z.eqb_eq in Er, Ea. apply Hid1. rewrite Ea, <- Er.
      now apply in_map.
    + apply (Hfree a); [now left | congruence].
    + apply (Hfree r); [now right | congruence].
    + apply Hnm1. rewrite <- Hb.
      now apply (in_map (fun c => lower (Company.name c))).
  - apply IH; auto.
Qed.

Lemma keyed_update_company (cs : list Company.row) (ps : list Product.row)
  (c : Company.row) (company : CompanyBase.t) :
  keyed {| companies := cs; products := ps |} ->
  In c cs ->
  (CompanyBase.name company = Company.name c
   \/ forall c', In c' cs ->
        lower (Company.name c') <> lower (CompanyBase.name company)) ->
  keyed {| companies :=
             map (fun r => if Company.id r =? Company.id c
                           then Company_setattrs r company else r) cs;
           products := ps |}.
Proof.
  unfold keyed, primary_keys, unique_names. cbn.
  intros [[Hc Hp] Hn] Hin Hname. repeat split; [| exact Hp |].
  - rewrite map_map. erewrite map_ext; [exact Hc |].
    intros r. now destruct (Company.id r =? Company.id c).
  - destruct Hname as [Hsame | Hfree].
    + rewrite map_map. erewrite map_ext_in; [exact Hn |].
      intros r Hr. cbn. destruct (Company.id r =? Company.id c) eqn:E;
        [| reflexivity].
      apply Z.eqb_eq in E.
      assert (r = c) by (apply (NoDup_map_In_inj Company.id cs); auto).
      subst r. cbn. now rewrite Hsame.
    + now apply renamed_names_NoDup.
Qed.

Lemma Company_init_name (d : dict) (o : Company.obj) :
  Company_init (dict_remove "products" d) = Ok o ->
  column_str (dict_get "name" d) = Ok (Company.o_name o).
Proof.
  unfold Company_init. intros H.
  destruct (negb _); [discriminate |]. destruct (existsb _ _); [discriminate |].
  rewrite dict_get_remove in H by discriminate.
  destruct (column_str (dict_get "name" d)) as [n | e |]; try discriminate.
  cbn [bindR] in H. unfold bindR in H.
  repeat match type of H with
         | context [match ?x with _ => _ end] => destruct x; try discriminate H
         end.
  injection H as <-. reflexivity.
Qed.

Lemma add_products_keyed (cid : Z) (ps : list JSON) (s : Session) :
  keyed (working s) -> keyed (working (snd (add_products cid ps s))).
Proof.
  revert s. induction ps as [| pd ps IH]; intros s Hk; cbn [add_products];
    [exact Hk |].
  rewrite bind_run, lift_run.
  destruct (Product_init cid pd) as [o | e |]; try exact Hk.
  rewrite bind_run. pose proof (insert_Product_run o s) as Hins.
  destruct (insert_Product o s) as [[r | e |] s1]; cbn [snd];
    try (subst s1; exact Hk).
  destruct Hins as [-> [Hid _]]. apply IH. cbn [working sent].
  apply keyed_add_product; [now rewrite DB_eta | exact Hid].
Qed.

Lemma load_companies_keyed (records : list JSON) (l sk : Z) (s : Session) :
  keyed (working s) -> keyed (working (snd (load_companies records l sk s))).
Proof.
  revert l sk s. induction records as [| record records IH]; intros l sk s Hk;
    cbn [load_companies]; [exact Hk |].
  destruct record as [| b | n | x | items | d]; try exact Hk.
  destruct (dict_get "name" d) as [v |] eqn:Ename; [| exact Hk].
  rewrite bind_run. pose proof (existing_by_name_run v s) as Hlook.
  destruct (existing_by_name v s) as [[found | e |] s1]; cbn [snd];
    try (subst s1; exact Hk).
  destruct Hlook as [-> Hfound].
  destruct found as [c |]; [now apply IH |].
  rewrite bind_run, lift_run.
  destruct (Company_init (dict_remove "products" d)) as [o | e |] eqn:Einit;
    cbn [snd]; try exact Hk.
  apply Company_init_name in Einit. rewrite Ename in Einit.
  rewrite bind_run.
  pose proof (insert_Company_run o (sent (working s) s)) as Hins.
  destruct (insert_Company o (sent (working s) s)) as [[r | e |] s2];
    cbn [snd]; try (subst s2; exact Hk).
  destruct Hins as [-> [Hid [_ [Ho _]]]]. cbn [working sent] in *.
  assert (Hnew : keyed {| companies := companies (working s) ++ [r];
                          products := products (working s) |}).
  { apply keyed_add_company; [now rewrite DB_eta | exact Hid |].
    subst o. cbn in Einit.
    destruct v; try discriminate Einit.
    injection Einit as ->. symmetry. exact Hfound. }
  rewrite bind_run, lift_run.
  destruct (py_items _) as [ps | e |]; cbn [snd working sent]; try exact Hnew.
  rewrite bind_run.
  match goal with
  | |- context [add_products (Company.id r) ps ?s3] =>
      pose proof (add_products_keyed (Company.id r) ps s3 Hnew) as Hadd;
      destruct (add_products (Company.id r) ps s3) as [[[] | e |] s4];
      cbn [snd] in *; try exact Hadd
  end.
  now apply IH.
Qed.

Lemma load_data_keeps_keyed (f : SeedFile) : keeps keyed (load_data_from_json f).
Proof.
  intros s Hw Hc. unfold load_data_from_json. rewrite bind_run.
  destruct f as [| | data]; try exact Hc.
  cbn [read_seed json_load]. rewrite lift_run, bind_run, lift_run.
  destruct (get_companies_data data) as [cd | e |]; try exact Hc.
  rewrite bind_run, lift_run.
  destruct (py_items cd) as [records | e |]; try exact Hc.
  rewrite bind_run.
  pose proof (load_companies_keyed records 0 0 s Hw) as H1.
  destruct (load_companies_outcome records 0 0 s) as [H2 _].
  destruct (load_companies records 0 0 s) as [[counts | e |] s'];
    cbn [snd] in *; try (rewrite H2; exact Hc).
  exact H1.
Qed.

Lemma create_company_keeps_keyed (company : CompanyCreate) :
  keeps keyed (create_company company).
Proof.
  intros s Hw Hc. unfold create_company. run.
  destruct (find _ (companies (working s))) eqn:Efind; [exact Hc |].
  match goal with
  | |- context [insert_Company ?o ?s1] =>
      pose proof (insert_Company_run o s1) as Hins;
      destruct (insert_Company o s1) as [[r | e |] s2]
  end; try (subst s2; exact Hc).
  destruct Hins as [-> [Hid [_ [Ho _]]]]. cbn [working sent] in Hid.
  unfold refresh_Company. run.
  assert (Hnew : keyed {| companies := companies (working s) ++ [r];
                          products := products (working s) |}).
  { apply keyed_add_company; [now rewrite DB_eta | exact Hid |].
    unfold Company_of_dump in Ho. injection Ho as Hname _.
    rewrite <- Hname. exact Efind. }
  destruct (find _ (companies (working s) ++ [r])); exact Hnew.
Qed.

Lemma update_company_keeps_keyed (company_id : Z) (company : CompanyUpdate) :
  keeps keyed (update_company company_id company).
Proof.
  intros s Hw Hc. unfold update_company. run.
  destruct (find _ (companies (working s))) as [c |] eqn:Efind; [| exact Hc].
  apply find_some in Efind. destruct Efind as [Hin _].
  assert (Hnew :
    (CompanyBase.name company = Company.name c
     \/ forall c', In c' (companies (working s)) ->
          lower (Company.name c') <> lower (CompanyBase.name company)) ->
    keyed {| companies :=
               map (fun r => if Company.id r =? Company.id c
                             then Company_setattrs r company else r)
                   (companies (working s));
             products := products (working s) |}).
  { apply keyed_update_company; [now rewrite DB_eta | exact Hin]. }
  destruct (String.eqb (CompanyBase.name company) (Company.name c)) eqn:Ename;
    cbn [negb]; run.
  - apply String.eqb_eq in Ename.
    unfold update_Company, refresh_Company. run.
    destruct (existsb _ (companies (working s))); [exact Hc |]. run.
    destruct (find _ (map _ _)); apply Hnew; now left.
  - destruct (find _ (companies (working s))) eqn:Eci; [exact Hc |].
    unfold update_Company, refresh_Company. run.
    destruct (existsb _ (companies (working s))); [exact Hc |]. run.
    assert (Hfree : forall c', In c' (companies (working s)) ->
              lower (Company.name c') <> lower (CompanyBase.name company)).
    { intros c' Hc'. apply String.eqb_neq.
      exact (find_none _ _ Eci c' Hc'). }
    destruct (find _ (map _ _)); apply Hnew; now right.
Qed.

Lemma delete_company_keeps_keyed (company_id : Z) :
  keeps keyed (delete_company company_id).
Proof.
  intros s Hw Hc. unfold delete_company. run.
  destruct (find _ (companies (working s))) as [c |]; [| exact Hc].
  unfold delete_Company. run.
  apply keyed_fewer_rows. now rewrite DB_eta.
Qed.

Lemma create_product_keeps_keyed (product : ProductCreate.t) :
  keeps keyed (create_product product).
Proof.
  intros s Hw Hc. unfold create_product. run.
  destruct (find _ (companies (working s))) as [c |]; [| exact Hc].
  unfold insert_Product, Product_of_dump, refresh_Product. run.
  cbn [Product.o_name Product.o_description Product.o_target_audience
       Product.o_key_features Product.o_pricing_model Product.o_company_id].
  run.
  match goal with
  | |- context [products (working s) ++ [?r]] =>
      assert (Hnew : keyed {| companies := companies (working s);
                              products := products (working s) ++ [r] |})
        by (apply keyed_add_product; [now rewrite DB_eta | reflexivity]);
      destruct (find _ (products (working s) ++ [r])); exact Hnew
  end.
Qed.

Lemma update_product_keeps_keyed (product_id : Z) (product : ProductUpdate) :
  keeps keyed (update_product product_id product).
Proof.
  intros s Hw Hc. unfold update_product. run.
  destruct (find _ (products (working s))) as [p |]; [| exact Hc].
  unfold update_Product, refresh_Product. run.
  assert (Hnew :
    keyed {| companies := companies (working s);
             products :=
               map (fun r => if Product.id r =? Product.id p
                             then Product_setattrs r product else r)
                   (products (working s)) |}).
  { apply keyed_update_product.
    - intros r. now destruct (Product.id r =? Product.id p).
    - now rewrite DB_eta. }
  destruct (find _ (map _ _)); exact Hnew.
Qed.

Lemma delete_product_keeps_keyed (product_id : Z) :
  keeps keyed (delete_product product_id).
Proof.
  intros s Hw Hc. unfold delete_product. run.
  destruct (find _ (products (working s))) as [p |]; [| exact Hc].
  unfold delete_Product. run.
  rewrite <- (filter_true (companies (working s))) at 1.
  apply keyed_fewer_rows. now rewrite DB_eta.
Qed.

Lemma route_keeps_keyed (req : Request) : keeps keyed (route req).
Proof.
  destruct req; cbn [route].
  - apply keeps_map, load_data_keeps_keyed.
  - apply keeps_map, get_companies_keeps.
  - apply keeps_map, get_company_keeps.
  - apply keeps_validated. intros a. apply keeps_map, create_company_keeps_keyed.
  - apply keeps_validated. intros a. apply keeps_map, update_company_keeps_keyed.
  - apply (keeps_map _ (delete_company company_id) (fun _ => NoContent)),
      delete_company_keeps_keyed.
  - apply keeps_map. intros s Hw Hc. exact Hc.
  - apply keeps_map, get_product_keeps.
  - apply keeps_validated. intros a. apply keeps_map, create_product_keeps_keyed.
  - apply keeps_validated. intros a. apply keeps_map, update_product_keeps_keyed.
  - apply (keeps_map _ (delete_product product_id) (fun _ => NoContent)),
      delete_product_keeps_keyed.
  - intros s Hw Hc. exact Hc.
Qed.

Lemma serve_keeps (I : DB -> Prop) (req : Request) (t : Z) (db : DB) :
  keeps I (route req) -> I db -> I (snd (serve req t db)).
Proof.
  intros Hkeeps HI. unfold serve, run_request.
  pose proof (Hkeeps (fresh_session t db) HI HI) as H.
  unfold fresh_session in H. destruct (route req _) as [r s]. exact H.
Qed.

(** Every store the service can be in has primary keys, names that are
    unique letter case apart, and no orphan product. *)
Lemma reachable_invariants (db : DB) :
  reachable db -> primary_keys db /\ unique_names db /\ no_orphans db.
Proof.
  induction 1 as [| req t db Hreach [Hkeys [Hnames Horph]]].
  - repeat split; try constructor. intros p [].
  - assert (Hkeyed : keyed (snd (serve req t db)))
      by (apply serve_keeps; [apply route_keeps_keyed | now split]).
    destruct Hkeyed as [H1 H2]. split; [exact H1 |]. split; [exact H2 |].
    apply serve_keeps; [apply route_keeps | exact Horph].
Qed.

(** * Further properties of main.py *)

(** ** What the write handlers do to a session *)

Lemma create_company_run (company : CompanyCreate) (s : Session) :
  match find_by_name_ci (CompanyBase.name company) (working s) with
  | Some _ =>
      create_company company s
      = (Raise (company_exists (CompanyBase.name company)),
         sent (working s) s)
  | None =>
      exists row s',
        create_company company s = (Ok row, s')
        /\ Company_base row = company
        /\ Company.id row = next_id Company.id (companies (working s))
        /\ Company.created_at row = now s
        /\ committed s' = {| companies := companies (working s) ++ [row];
                             products := products (working s) |}
  end.
Proof.
  unfold create_company, find_by_name_ci. run.
  destruct (find _ (companies (working s))) eqn:Efind; [reflexivity |].
  unfold insert_Company, Company_of_dump. run.
  cbn [Company.o_name Company.o_tagline Company.o_description
       Company.o_industry Company.o_founded_year Company.o_employee_count
       Company.o_headquarters Company.o_website_url].
  rewrite (no_ci_match_no_exact_match _ _ Efind).
  unfold refresh_Company. run.
  set (row := Company.mk (next_id Company.id (companies (working s)))
                (CompanyBase.name company) (CompanyBase.tagline company)
                (CompanyBase.description company) (CompanyBase.industry company)
                (CompanyBase.founded_year company)
                (CompanyBase.employee_count company)
                (CompanyBase.headquarters company)
                (CompanyBase.website_url company) (now s)).
  rewrite (find_new_row Company.id (companies (working s)) row eq_refl).
  exists row. eexists. split; [reflexivity |].
  repeat split. now destruct company.
Qed.

Lemma create_product_run (product : ProductCreate.t) (s : Session) :
  match find (fun c => Company.id c =? ProductCreate.company_id product)
          (companies (working s)) with
  | None =>
      create_product product s
      = (Raise (company_missing (ProductCreate.company_id product)),
         sent (working s) s)
  | Some _ =>
      exists row s',
        create_product product s = (Ok row, s')
        /\ Product_base row = ProductCreate.base product
        /\ Product.company_id row = ProductCreate.company_id product
        /\ Product.id row = next_id Product.id (products (working s))
        /\ Product.created_at row = now s
        /\ committed s' = {| companies := companies (working s);
                             products := products (working s) ++ [row] |}
  end.
Proof.
  unfold create_product. run.
  destruct (find _ (companies (working s))); [| reflexivity].
  unfold insert_Product, Product_of_dump. run.
  cbn [Product.o_name Product.o_description Product.o_target_audience
       Product.o_key_features Product.o_pricing_model Product.o_company_id].
  unfold refresh_Product. run.
  set (b := ProductCreate.base product).
  set (row := Product.mk (next_id Product.id (products (working s)))
                (ProductCreate.company_id product) (ProductBase.name b)
                (ProductBase.description b) (ProductBase.target_audience b)
                (ProductBase.key_features b) (ProductBase.pricing_model b)
                (now s)).
  rewrite (find_new_row Product.id (products (working s)) row eq_refl).
  exists row. eexists. split; [reflexivity |].
  repeat split. subst b. now destruct (ProductCreate.base product).
Qed.

Lemma update_company_run (company_id : Z) (company : CompanyUpdate)
  (s : Session) :
  match update_company company_id company s with
  | (Ok row, s') =>
      exists c,
        find (fun r => Company.id r =? company_id) (companies (working s))
        = Some c
        /\ row = Company_setattrs c company
        /\ (CompanyBase.name company = Company.name c
            \/ find_by_name_ci (CompanyBase.name company) (working s) = None)
        /\ committed s'
           = {| companies :=
                  map (fun r => if Company.id r =? Company.id c
                                then Company_setattrs r company else r)
                      (companies (working s));
                products := products (working s) |}
  | (_, s') => committed s' = committed s
  end.
Proof.
  unfold update_company, find_by_name_ci. run.
  destruct (find (fun r => Company.id r =? company_id)
              (companies (working s))) as [c |] eqn:Efind; [| reflexivity].
  assert (Hid : Company.id c = company_id).
  { apply find_some in Efind. now apply Z.eqb_eq. }
  assert (Hrefresh :
    find (fun r => Company.id r =? Company.id c)
      (map (fun r => if Company.id r =? Company.id c
                     then Company_setattrs r company else r)
           (companies (working s)))
    = Some (Company_setattrs c company)).
  { rewrite find_map_key.
    - rewrite Hid, Efind. cbn. rewrite <- Hid. now rewrite Z.eqb_refl.
    - intros r. now destruct (Company.id r =? Company.id c). }
  destruct (String.eqb (CompanyBase.name company) (Company.name c)) eqn:Ename;
    cbn [negb]; run.
  - apply String.eqb_eq in Ename.
    unfold update_Company, refresh_Company. run.
    destruct (existsb _ (companies (working s))); [reflexivity |]. run.
    rewrite Hrefresh. exists c. repeat split. now left.
  - destruct (find (fun c0 => String.eqb (lower (Company.name c0)) _)
                (companies (working s))) eqn:Eci; [reflexivity |].
    unfold update_Company, refresh_Company. run.
    destruct (existsb _ (companies (working s))); [reflexivity |]. run.
    rewrite Hrefresh. exists c. repeat split. now right.
Qed.

Lemma update_product_run (product_id : Z) (product : ProductUpdate)
  (s : Session) :
  match find (fun r => Product.id r =? product_id) (products (working s)) with
  | None =>
      update_product product_id product s
      = (Raise (product_not_found product_id), sent (working s) s)
  | Some p =>
      exists s',
        update_product product_id product s
        = (Ok (Product_setattrs p product), s')
        /\ committed s'
           = {| companies := companies (working s);
                products :=
                  map (fun r => if Product.id r =? Product.id p
                                then Product_setattrs r product else r)
                      (products (working s)) |}
  end.
Proof.
  unfold update_product. run.
  destruct (find (fun r => Product.id r =? product_id)
              (products (working s))) as [p |] eqn:Efind; [| reflexivity].
  assert (Hid : Product.id p = product_id).
  { apply find_some in Efind. now apply Z.eqb_eq. }
  unfold update_Product, refresh_Product. run.
  rewrite find_map_key.
  - rewrite Hid, Efind. cbn. rewrite <- Hid, Z.eqb_refl.
    eexists. split; reflexivity.
  - intros r. now destruct (Product.id r =? Product.id p).
Qed.

(** ** A request that fails writes nothing *)

Lemma atomic_map {A B : Type} (h : M A) (f : A -> B) :
  atomic h -> atomic (r <- h ;; ret (f r)).
Proof.
  intros H s. specialize (H s). rewrite bind_run.
  destruct (h s) as [[a | e |] s']; cbn; auto.
Qed.

Lemma atomic_validated {A B : Type} (v : Validated A) (k : A -> M B) :
  (forall a, atomic (k a)) -> atomic (a <- validated v ;; k a).
Proof.
  intros H s. rewrite bind_run.
  destruct v as [a | errs |]; cbn; [apply H | reflexivity | reflexivity].
Qed.

Lemma read_only_atomic {A : Type} (h : M A) : read_only h -> atomic h.
Proof.
  intros H s. specialize (H s). destruct (h s) as [[a | e |] s']; cbn in *; auto.
Qed.

Lemma get_companies_read_only (page page_size : Z) :
  read_only (get_companies page page_size).
Proof.
  intros s. unfold get_companies.
  destruct (page <? 1); [reflexivity |].
  destruct ((page_size <? 1) || (page_size >? 100)); reflexivity.
Qed.

Lemma get_company_read_only (company_id : Z) : read_only (get_company company_id).
Proof.
  intros s. unfold get_company. run.
  destruct (find _ (companies (working s))); reflexivity.
Qed.

Lemma get_product_read_only (product_id : Z) : read_only (get_product product_id).
Proof.
  intros s. unfold get_product. run.
  destruct (find _ (products (working s))); reflexivity.
Qed.

Lemma create_company_atomic (company : CompanyCreate) :
  atomic (create_company company).
Proof.
  intros s. pose proof (create_company_run company s) as H.
  destruct (find_by_name_ci _ (working s)).
  - rewrite H. reflexivity.
  - destruct H as [row [s' [-> _]]]. exact I.
Qed.

Lemma update_company_atomic (company_id : Z) (company : CompanyUpdate) :
  atomic (update_company company_id company).
Proof.
  intros s. pose proof (update_company_run company_id company s) as H.
  destruct (update_company company_id company s) as [[row | e |] s'];
    [exact I | exact H | exact H].
Qed.

Lemma delete_company_atomic (company_id : Z) :
  atomic (delete_company company_id).
Proof.
  intros s. unfold delete_company. run.
  destruct (find _ (companies (working s))); [exact I | reflexivity].
Qed.

Lemma create_product_atomic (product : ProductCreate.t) :
  atomic (create_product product).
Proof.
  intros s. pose proof (create_product_run product s) as H.
  destruct (find _ (companies (working s))).
  - destruct H as [row [s' [-> _]]]. exact I.
  - rewrite H. reflexivity.
Qed.

Lemma update_product_atomic (product_id : Z) (product : ProductUpdate) :
  atomic (update_product product_id product).
Proof.
  intros s. pose proof (update_product_run product_id product s) as H.
  destruct (find _ (products (working s))).
  - destruct H as [s' [-> _]]. exact I.
  - rewrite H. reflexivity.
Qed.

Lemma delete_product_atomic (product_id : Z) :
  atomic (delete_product product_id).
Proof.
  intros s. unfold delete_product. run.
  destruct (find _ (products (working s))); [exact I | reflexivity].
Qed.

Lemma load_data_atomic (f : SeedFile) : atomic (load_data_from_json f).
Proof.
  intros s. unfold load_data_from_json. rewrite bind_run.
  destruct f as [| | data]; try reflexivity.
  cbn [read_seed json_load]. rewrite lift_run, bind_run, lift_run.
  destruct (get_companies_data data) as [cd | e |]; try reflexivity.
  rewrite bind_run, lift_run.
  destruct (py_items cd) as [records | e |]; try reflexivity.
  rewrite bind_run.
  destruct (load_companies_outcome records 0 0 s) as [H _].
  destruct (load_companies records 0 0 s) as [[counts | e |] s'];
    cbn [snd] in H; [exact I | exact H | exact H].
Qed.

Lemma route_atomic (req : Request) : atomic (route req).
Proof.
  destruct req; cbn [route].
  - apply atomic_map, load_data_atomic.
  - apply atomic_map, read_only_atomic, get_companies_read_only.
  - apply atomic_map, read_only_atomic, get_company_read_only.
  - apply atomic_validated. intros a. apply atomic_map, create_company_atomic.
  - apply atomic_validated. intros a. apply atomic_map, update_company_atomic.
  - apply (atomic_map (delete_company company_id) (fun _ => NoContent)),
      delete_company_atomic.
  - apply atomic_map. intros s. exact I.
  - apply atomic_map, read_only_atomic, get_product_read_only.
  - apply atomic_validated. intros a. apply atomic_map, create_product_atomic.
  - apply atomic_validated. intros a. apply atomic_map, update_product_atomic.
  - apply (atomic_map (delete_product product_id) (fun _ => NoContent)),
      delete_product_atomic.
  - intros s. exact I.
Qed.

(** X1.  Whatever the request, an answer other than success leaves the
    committed store exactly as it was: every handler commits once, as its
    last write, and nothing after the commit can fail. *)
Theorem failed_request_writes_nothing (req : Request) (t : Z) (db : DB) :
  match serve req t db with
  | (Ok _, _) => True
  | (_, db') => db' = db
  end.
Proof.
  unfold serve, run_request.
  pose proof (route_atomic req (fresh_session t db)) as H.
  unfold fresh_session in H.
  destruct (route req _) as [[r | e |] s]; cbn in *; auto.
Qed.

(** The five GET routes never write: the committed store after the
    request is the one before it, whatever the answer. *)
Lemma get_requests_are_read_only (t : Z) (db : DB) :
  (forall page page_size, snd (serve (GET_companies page page_size) t db) = db)
  /\ (forall company_id, snd (serve (GET_company company_id) t db) = db)
  /\ snd (serve GET_products t db) = db
  /\ (forall product_id, snd (serve (GET_product product_id) t db) = db)
  /\ snd (serve GET_root t db) = db.
Proof.
  assert (H : forall (A : Type) (h : M A) (f : A -> Response),
            read_only h ->
            snd (run_request (r <- h ;; ret (f r)) t db) = db).
  { intros A h f Hro. unfold run_request.
    specialize (Hro (fresh_session t db)). unfold fresh_session in Hro.
    rewrite bind_run. destruct (h _) as [[a | e |] s]; exact Hro. }
  repeat split; intros; unfold serve; cbn [route].
  - apply H, get_companies_read_only.
  - apply H, get_company_read_only.
  - apply H, get_product_read_only.
Qed.

(** ** Unknown ids *)





(** ** Writing, then reading *)

Lemma serve_POST_companies (db : DB) (t : Z) (body : JSON)
  (company : CompanyCreate) :
  CompanyBase_validate body = Valid company ->
  find_by_name_ci (CompanyBase.name company) db = None ->
  exists row,
    serve (POST_companies body) t db
    = (Ok (CompanyResponse row),
       {| companies := companies db ++ [row]; products := products db |})
    /\ Company_base row = company
    /\ Company.id row = next_id Company.id (companies db)
    /\ Company.created_at row = t.
Proof.
  intros Hvalid Hfree.
  pose proof (create_company_run company (fresh_session t db)) as H.
  cbn [working fresh_session] in H. rewrite Hfree in H.
  destruct H as [row [s' [E [Hbase [Hid [Ht Hc]]]]]].
  exists row. split; [| now repeat split].
  unfold serve, route, run_request, validated. rewrite Hvalid.
  fold (fresh_session t db).
  rewrite bind_run. unfold ret at 1. rewrite bind_run, E.
  unfold ret. now rewrite Hc.
Qed.

Lemma serve_POST_products (db : DB) (t : Z) (body : JSON)
  (product : ProductCreate.t) (c : Company.row) :
  ProductCreate_validate body = Valid product ->
  In c (companies db) -> Company.id c = ProductCreate.company_id product ->
  exists row,
    serve (POST_products body) t db
    = (Ok (ProductResponse row),
       {| companies := companies db; products := products db ++ [row] |})
    /\ Product_base row = ProductCreate.base product
    /\ Product.company_id row = ProductCreate.company_id product
    /\ Product.id row = next_id Product.id (products db)
    /\ Product.created_at row = t.
Proof.
  intros Hvalid Hin Hid.
  pose proof (create_product_run product (fresh_session t db)) as H.
  cbn [working fresh_session] in H.
  destruct (find_hit (fun r => Company.id r =? ProductCreate.company_id product)
              (companies db) c Hin) as [c' Hfind]; [now apply Z.eqb_eq |].
  rewrite Hfind in H.
  destruct H as [row [s' [E [Hbase [Hcid [Hrid [Ht Hc]]]]]]].
  exists row. split; [| now repeat split].
  unfold serve, route, run_request, validated. rewrite Hvalid.
  fold (fresh_session t db).
  rewrite bind_run. unfold ret at 1. rewrite bind_run, E.
  unfold ret. now rewrite Hc.
Qed.

Lemma filter_none {A : Type} (f : A -> bool) (l : list A) :
  (forall a, In a l -> f a = false) -> filter f l = [].
Proof.
  induction l as [| a l IH]; cbn; [reflexivity |].
  intros H. rewrite (H a) by now left. apply IH. intros b Hb. apply H. now right.
Qed.


Lemma acme_db_no_orphans : no_orphans acme_db.
Proof. intros p [<- | [<- | []]]; exists acme; cbn; tauto. Qed.


Lemma filter_snoc {A : Type} (f : A -> bool) (l : list A) (a : A) :
  filter f (l ++ [a]) = filter f l ++ (if f a then [a] else []).
Proof. rewrite filter_app. reflexivity. Qed.



(** ** Deleting a product (DELETE /products/{id}) *)

(** X6.  Deleting a stored product answers 204; afterwards its id is not
    found, every product with another id is still stored, and the company
    table is untouched: the product's company stays. *)
Theorem delete_product_removes_one (db : DB) (t : Z) (p : Product.row) :
  In p (products db) ->
  exists db',
    serve (DELETE_product (Product.id p)) t db = (Ok NoContent, db')
    /\ http_status (DELETE_product (Product.id p))
         (fst (serve (DELETE_product (Product.id p)) t db)) = Some 204
    /\ companies db' = companies db
    /\ products db'
       = filter (fun q => negb (Product.id q =? Product.id p)) (products db)
    /\ (forall q, In q (products db) -> Product.id q <> Product.id p ->
          In q (products db'))
    /\ (forall t',
          serve (GET_product (Product.id p)) t' db'
          = (Raise (product_not_found (Product.id p)), db')).
Proof.
  intros Hin.
  set (db' := {| companies := companies db;
                 products := filter (fun q => negb (Product.id q =? Product.id p))
                               (products db) |}).
  assert (E : serve (DELETE_product (Product.id p)) t db = (Ok NoContent, db')).
  { run. unfold delete_product. run.
    destruct (find (fun r => Product.id r =? Product.id p) (products db))
      as [p' |] eqn:Efind.
    - apply find_some in Efind. destruct Efind as [_ Hid].
      apply Z.eqb_eq in Hid. unfold delete_Product. run.
      rewrite Hid. reflexivity.
    - apply (find_none _ _ Efind) in Hin. rewrite Z.eqb_refl in Hin.
      discriminate. }
  exists db'. rewrite E. repeat split.
  - intros q Hq Hneq. apply filter_In. split; [exact Hq |].
    now apply negb_true_iff, Z.eqb_neq.
  - intros t'. run. unfold get_product. run.
    rewrite find_miss; [reflexivity |].
    intros a Ha. apply filter_In in Ha. destruct Ha as [_ Ha].
    now apply negb_true_iff in Ha.
Qed.

Lemma delete_product_removes_one_witness :
  exists db',
    serve (DELETE_product (Product.id (reader 2))) 5 acme_db
      = (Ok NoContent, db')
    /\ http_status (DELETE_product (Product.id (reader 2)))
         (fst (serve (DELETE_product (Product.id (reader 2))) 5 acme_db))
       = Some 204
    /\ companies db' = companies acme_db
    /\ products db'
       = filter (fun q => negb (Product.id q =? Product.id (reader 2)))
           (products acme_db)
    /\ (forall q, In q (products acme_db) ->
          Product.id q <> Product.id (reader 2) -> In q (products db'))
    /\ (forall t',
          serve (GET_product (Product.id (reader 2))) t' db'
          = (Raise (product_not_found (Product.id (reader 2))), db')).
Proof.
  apply (delete_product_removes_one acme_db 5 (reader 2)). cbn. tauto.
Defined.

(** ** Renaming a company (PUT /companies/{id}) *)

(** X7.  A PUT whose name differs from the company's stored name and is
    held, letter case apart, by some stored company is refused with the 400
    duplicate-name error, and nothing is written. *)
Theorem update_company_name_taken
  (db : DB) (t : Z) (c c' : Company.row) (body : JSON)
  (company : CompanyUpdate) :
  CompanyBase_validate body = Valid company ->
  primary_keys db ->
  In c (companies db) -> In c' (companies db) ->
  CompanyBase.name company <> Company.name c ->
  lower (Company.name c') = lower (CompanyBase.name company) ->
  serve (PUT_company (Company.id c) body) t db
    = (Raise (company_exists (CompanyBase.name company)), db)
  /\ http_status (PUT_company (Company.id c) body)
       (fst (serve (PUT_company (Company.id c) body) t db)) = Some 400.
Proof.
  intros Hvalid [Hkeys _] Hin Hin' Hneq Hlow.
  assert (E : serve (PUT_company (Company.id c) body) t db
              = (Raise (company_exists (CompanyBase.name company)), db)).
  { unfold serve, route. rewrite Hvalid. run. unfold update_company. run.
    rewrite (find_Company_by_key _ c Hkeys Hin).
    apply String.eqb_neq in Hneq. rewrite Hneq. cbn [negb]. run.
    destruct (find_hit (fun r => String.eqb (lower (Company.name r))
                                   (lower (CompanyBase.name company)))
                (companies db) c' Hin') as [c0 ->];
      [rewrite Hlow; apply String.eqb_refl | reflexivity]. }
  rewrite E. split; reflexivity.
Qed.

Lemma acme_bolt_db_primary_keys : primary_keys acme_bolt_db.
Proof.
  split; cbn; repeat constructor; cbn; intuition discriminate.
Qed.

Lemma update_company_name_taken_witness :
  serve (PUT_company (Company.id acme) (company_body "BOLT" "FinTech")) 5
    acme_bolt_db
    = (Raise (company_exists "BOLT"), acme_bolt_db)
  /\ http_status (PUT_company (Company.id acme) (company_body "BOLT" "FinTech"))
       (fst (serve (PUT_company (Company.id acme)
                      (company_body "BOLT" "FinTech")) 5 acme_bolt_db))
     = Some 400.
Proof.
  apply (update_company_name_taken acme_bolt_db 5 acme bolt
           (company_body "BOLT" "FinTech")
           (CompanyBase.mk "BOLT" "Payments made simple" "A payments company"
              "FinTech" 2020 12 "Pune, India" None)
           eq_refl acme_bolt_db_primary_keys).
  - cbn. tauto.
  - cbn. tauto.
  - cbn. discriminate.
  - reflexivity.
Defined.

(** ** Walking the pages (GET /companies) *)

Lemma page_items_window (db : DB) (page_size page : Z) :
  1 <= page -> 1 <= page_size <= 100 ->
  page_items db page_size page
  = firstn (Z.to_nat page_size)
      (skipn (Z.to_nat ((page - 1) * page_size)) (companies db)).
Proof.
  intros Hp Hs. unfold page_items, get_companies.
  destruct (get_companies_guard page page_size Hp Hs) as [-> ->].
  reflexivity.
Qed.

Lemma firstn_add {A : Type} (a b : nat) (l : list A) :
  firstn (a + b) l = firstn a l ++ firstn b (skipn a l).
Proof.
  revert l. induction a as [| a IH]; intros l; [reflexivity |].
  destruct l as [| x l]; cbn.
  - now rewrite firstn_nil.
  - now rewrite IH.
Qed.



(** ** Loading what is already there (POST /load-data) *)

Lemma serve_load_run (data : JSON) (records : list JSON) (t : Z) (db : DB) :
  seed_records data = Some records ->
  serve (POST_load_data (Content data)) t db
  = match load_companies records 0 0 (fresh_session t db) with
    | (Ok counts, s') =>
        (Ok (LoadData (mkLoad (fst counts) (snd counts)
                         (Z.of_nat (List.length records)))), working s')
    | (Raise e, s') => (Raise e, committed s')
    | (Unmodelled, s') => (Unmodelled, committed s')
    end.
Proof.
  intros Erec. destruct data as [| | | | | d]; try discriminate.
  cbn [seed_records] in Erec.
  destruct (dict_get "companies" d) as [[| | | | cs |] |] eqn:Eget;
    try discriminate.
  injection Erec as ->.
  unfold serve, run_request, route, load_data_from_json.
  fold (fresh_session t db).
  rewrite bind_run, bind_run. cbn [read_seed json_load].
  rewrite lift_run, bind_run, lift_run. cbn [get_companies_data].
  rewrite Eget. rewrite bind_run, lift_run. cbn [py_items].
  rewrite bind_run.
  destruct (load_companies records 0 0 (fresh_session t db))
    as [[counts | e |] s']; reflexivity.
Qed.

Lemma load_companies_all_known (records : list JSON) (l0 sk0 : Z) (s : Session) :
  forallb (already_stored (working s)) records = true ->
  exists s',
    load_companies records l0 sk0 s
    = (Ok (l0, sk0 + Z.of_nat (List.length records)), s')
    /\ working s' = working s /\ committed s' = committed s.
Proof.
  revert sk0 s. induction records as [| record records IH]; intros sk0 s Hknown.
  - exists s. cbn. rewrite Z.add_0_r. auto.
  - cbn [forallb] in Hknown. apply andb_true_iff in Hknown.
    destruct Hknown as [Hrec Hrest].
    destruct record as [| | | | | d]; try discriminate.
    cbn [already_stored] in Hrec. cbn [load_companies].
    destruct (dict_get "name" d) as [[| | | x | |] |]; try discriminate.
    cbn [existing_by_name]. rewrite bind_run, Company_by_name_ci_run.
    destruct (find_by_name_ci x (working s)) as [c |]; [| discriminate].
    destruct (IH (sk0 + 1) (sent (working s) s) Hrest) as [s' [E [Hw Hc]]].
    exists s'. rewrite E. split; [| now split].
    do 3 f_equal. cbn [List.length]. lia.
Qed.

Lemma find_by_name_ci_grows (x : string) (db db' : DB) (cs : list Company.row)
  (c : Company.row) :
  companies db' = companies db ++ cs ->
  find_by_name_ci x db = Some c -> find_by_name_ci x db' = Some c.
Proof.
  unfold find_by_name_ci. intros -> H. now rewrite find_app, H.
Qed.

Lemma already_stored_grows (db db' : DB) (cs : list Company.row)
  (record : JSON) :
  companies db' = companies db ++ cs ->
  already_stored db record = true -> already_stored db' record = true.
Proof.
  intros Hcs. destruct record as [| | | | | d]; try discriminate.
  cbn [already_stored].
  destruct (dict_get "name" d) as [[| | | x | |] |]; try discriminate.
  destruct (find_by_name_ci x db) as [c |] eqn:E; [| discriminate].
  now rewrite (find_by_name_ci_grows x db db' cs c Hcs E).
Qed.

Lemma bulk_load_stores_every_name (db db' : DB) (records : list JSON) (l sk : Z) :
  bulk_load db records db' l sk ->
  forallb seed_company records = true ->
  forallb (already_stored db') records = true.
Proof.
  induction 1 as [db | db d rest db' l s c Hfind Hload IH
                  | db d rest db' l s c ps Hfind Hbase Hnew Hps Hown Hload IH];
    intros Hseed; [reflexivity | |];
    cbn [forallb] in *; apply andb_true_iff in Hseed;
    destruct Hseed as [Hrec Hrest]; apply andb_true_iff;
    (split; [| now apply IH]);
    destruct (seed_company_parts d Hrec) as [Hname _];
    destruct (bulk_load_appends _ _ _ _ _ Hload) as [cs [ps' [Hcs _]]].
  - apply (already_stored_grows db db' cs); [exact Hcs |].
    cbn [already_stored]. now rewrite Hname, Hfind.
  - cbn [companies] in Hcs. rewrite <- app_assoc in Hcs.
    cbn [already_stored]. rewrite Hname.
    unfold find_by_name_ci. rewrite Hcs.
    destruct (find_hit
                (fun r => String.eqb (lower (Company.name r))
                            (lower (str_at "name" d)))
                (companies db ++ [c] ++ cs) c) as [c' ->]; [| | reflexivity].
    + apply in_or_app. right. now left.
    + replace (Company.name c) with (CompanyBase.name (Company_base c))
        by reflexivity.
      rewrite Hbase. apply String.eqb_refl.
Qed.

(** X9.  A document all of whose records carry a name some stored company
    holds, letter case apart, loads nothing, whatever else the records hold:
    the answer is {loaded: 0, skipped: n, total: n} for its n records and the
    store is unchanged. *)
Theorem load_data_skips_known_names
  (db : DB) (t : Z) (data : JSON) (records : list JSON) :
  seed_records data = Some records ->
  forallb (already_stored db) records = true ->
  serve (POST_load_data (Content data)) t db
  = (Ok (LoadData (mkLoad 0 (Z.of_nat (List.length records))
                     (Z.of_nat (List.length records)))), db).
Proof.
  intros Erec Hknown. rewrite (serve_load_run data records t db Erec).
  destruct (load_companies_all_known records 0 0 (fresh_session t db) Hknown)
    as [s' [-> [Hw _]]].
  cbn [fst snd]. now rewrite Hw.
Qed.

Lemma load_data_skips_known_names_witness :
  serve (POST_load_data (Content
    (seed_of [JObj [("name", JStr "ACME")]; seed_record "acme" "SaaS" []])))
    5 acme_db
  = (Ok (LoadData (mkLoad 0 (Z.of_nat (List.length
           [JObj [("name", JStr "ACME")]; seed_record "acme" "SaaS" []]))
         (Z.of_nat (List.length
           [JObj [("name", JStr "ACME")]; seed_record "acme" "SaaS" []])))),
     acme_db).
Proof.
  apply (load_data_skips_known_names acme_db 5
           (seed_of [JObj [("name", JStr "ACME")]; seed_record "acme" "SaaS" []])
           [JObj [("name", JStr "ACME")]; seed_record "acme" "SaaS" []]);
    reflexivity.
Defined.



(** * Further properties of schemas.py *)

Lemma check_str_Good (min_length : nat) (max_length : option nat)
  (v : option JSON) (s : string) :
  check_str min_length max_length v = Good s ->
  v = Some (JStr s)
  /\ (min_length <= String.length s)%nat
  /\ (forall m, max_length = Some m -> (String.length s <= m)%nat).
Proof.
  unfold check_str. destruct v as [[| | | x | |] |]; try discriminate.
  destruct (String.length x <? min_length)%nat eqn:Emin; [discriminate |].
  apply Nat.ltb_ge in Emin.
  destruct max_length as [m |].
  - destruct (m <? String.length x)%nat eqn:Emax; [discriminate |].
    apply Nat.ltb_ge in Emax. intros [= ->]. repeat split; auto.
    now intros m' [= <-].
  - intros [= ->]. repeat split; auto. discriminate.
Qed.

Lemma check_str_accepts (min_length : nat) (max_length : option nat)
  (s : string) :
  (min_length <= String.length s)%nat ->
  (forall m, max_length = Some m -> (String.length s <= m)%nat) ->
  check_str min_length max_length (Some (JStr s)) = Good s.
Proof.
  intros Hmin Hmax. unfold check_str.
  apply Nat.ltb_ge in Hmin. rewrite Hmin.
  destruct max_length as [m |]; [| reflexivity].
  specialize (Hmax m eq_refl). apply Nat.ltb_ge in Hmax. now rewrite Hmax.
Qed.

Lemma mem_string_In (k : string) (ks : list string) :
  mem_string k ks = true <-> In k ks.
Proof.
  unfold mem_string. rewrite existsb_exists. split.
  - intros [x [Hx Heq]]. apply String.eqb_eq in Heq. now subst.
  - intros H. exists k. split; [exact H | apply String.eqb_refl].
Qed.

Lemma check_literal_Good (allowed : list string) (v : option JSON) (s : string) :
  check_literal allowed v = Good s -> v = Some (JStr s) /\ In s allowed.
Proof.
  unfold check_literal. destruct v as [[| | | x | |] |]; try discriminate.
  destruct (mem_string x allowed) eqn:E; [| discriminate].
  intros [= ->]. split; [reflexivity | now apply mem_string_In].
Qed.

Lemma check_literal_accepts (allowed : list string) (s : string) :
  In s allowed -> check_literal allowed (Some (JStr s)) = Good s.
Proof.
  intros H. unfold check_literal. apply mem_string_In in H. now rewrite H.
Qed.

Lemma check_int_Good (ge le gt : option Z) (v : option JSON) (n : Z) :
  check_int ge le gt v = Good n ->
  v = Some (JInt n)
  /\ (forall b, gt = Some b -> b < n)
  /\ (forall b, ge = Some b -> b <= n)
  /\ (forall b, le = Some b -> n <= b).
Proof.
  unfold check_int. destruct v as [[| | x | | |] |]; try discriminate.
  destruct gt as [g |], ge as [a |], le as [b |];
    repeat match goal with
           | |- context [if ?c then _ else _] => destruct c eqn:?
           end;
    try discriminate; intros [= ->];
    repeat split; try discriminate; intros ? [= <-];
    repeat match goal with
           | H : (_ <=? _) = false |- _ => apply Z.leb_gt in H
           | H : (_ <? _) = false |- _ => apply Z.ltb_ge in H
           end; lia.
Qed.

Lemma check_int_accepts (ge le gt : option Z) (n : Z) :
  (forall b, gt = Some b -> b < n) ->
  (forall b, ge = Some b -> b <= n) ->
  (forall b, le = Some b -> n <= b) ->
  check_int ge le gt (Some (JInt n)) = Good n.
Proof.
  intros Hgt Hge Hle. unfold check_int.
  destruct gt as [g |]; [specialize (Hgt g eq_refl) |];
    destruct ge as [a |]; [specialize (Hge a eq_refl) | | specialize (Hge a eq_refl) |];
    destruct le as [b |]; try specialize (Hle b eq_refl);
    repeat match goal with
           | |- context [?x <=? ?y] =>
               let E := fresh in destruct (Z.leb_spec x y) as [E | E]; try lia
           | |- context [?x <? ?y] =>
               let E := fresh in destruct (Z.ltb_spec x y) as [E | E]; try lia
           end; reflexivity.
Qed.

Lemma check_opt_str_Good (max_length : nat) (v : option JSON)
  (w : option string) :
  check_opt_str max_length v = Good w ->
  v = Some (opt_str_json w) \/ (v = None /\ w = None).
Proof.
  unfold check_opt_str. destruct v as [[| | | x | |] |]; try discriminate.
  - intros [= <-]. now left.
  - destruct (max_length <? String.length x)%nat; [discriminate |].
    intros [= <-]. now left.
  - intros [= <-]. now right.
Qed.

Lemma check_opt_str_bound (max_length : nat) (v : option JSON) (w : string) :
  check_opt_str max_length v = Good (Some w) ->
  (String.length w <= max_length)%nat.
Proof.
  unfold check_opt_str. destruct v as [[| | | x | |] |]; try discriminate.
  destruct (max_length <? String.length x)%nat eqn:E; [discriminate |].
  intros [= ->]. now apply Nat.ltb_ge in E.
Qed.

Lemma check_opt_str_accepts (max_length : nat) (w : option string) :
  (forall x, w = Some x -> (String.length x <= max_length)%nat) ->
  check_opt_str max_length (Some (opt_str_json w)) = Good w.
Proof.
  intros H. destruct w as [x |]; [| reflexivity].
  unfold check_opt_str, opt_str_json.
  specialize (H x eq_refl). apply Nat.ltb_ge in H. now rewrite H.
Qed.

Lemma CompanyBase_Valid_inv (body : JSON) (c : CompanyBase.t) :
  CompanyBase_validate body = Valid c ->
  CompanyBase_ok c
  /\ exists d,
       body = JObj d
       /\ dict_get "name" d = Some (JStr (CompanyBase.name c))
       /\ dict_get "tagline" d = Some (JStr (CompanyBase.tagline c))
       /\ dict_get "description" d = Some (JStr (CompanyBase.description c))
       /\ dict_get "industry" d = Some (JStr (CompanyBase.industry c))
       /\ dict_get "founded_year" d = Some (JInt (CompanyBase.founded_year c))
       /\ dict_get "employee_count" d
          = Some (JInt (CompanyBase.employee_count c))
       /\ dict_get "headquarters" d = Some (JStr (CompanyBase.headquarters c))
       /\ (dict_get "website_url" d
           = Some (opt_str_json (CompanyBase.website_url c))
           \/ (dict_get "website_url" d = None
               /\ CompanyBase.website_url c = None)).
Proof.
  intros H. unfold CompanyBase_validate in H.
  destruct body as [| | | | | d]; try discriminate. cbv zeta in H.
  match type of H with
  | match ?l with _ => _ end = _ => destruct l; [| discriminate H]
  end.
  destruct (check_str 1 (Some 255%nat) (dict_get "name" d)) as [n | |] eqn:E1;
    try discriminate H.
  destruct (check_str 1 (Some 100%nat) (dict_get "tagline" d)) as [tg | |] eqn:E2;
    try discriminate H.
  destruct (check_str 1 None (dict_get "description" d)) as [ds | |] eqn:E3;
    try discriminate H.
  destruct (check_literal INDUSTRIES (dict_get "industry" d)) as [i | |] eqn:E4;
    try discriminate H.
  destruct (check_int (Some 2015) (Some 2024) None (dict_get "founded_year" d))
    as [fy | |] eqn:E5; try discriminate H.
  destruct (check_int None None (Some 0) (dict_get "employee_count" d))
    as [ec | |] eqn:E6; try discriminate H.
  destruct (check_str 1 (Some 255%nat) (dict_get "headquarters" d))
    as [hq | |] eqn:E7; try discriminate H.
  destruct (check_opt_str 255 (dict_get "website_url" d)) as [w | |] eqn:E8;
    try discriminate H.
  injection H as <-.
  apply check_str_Good in E1, E2, E3, E7.
  apply check_literal_Good in E4. apply check_int_Good in E5, E6.
  destruct E1 as [G1 [L1 U1]], E2 as [G2 [L2 U2]], E3 as [G3 [L3 _]],
    E7 as [G7 [L7 U7]], E4 as [G4 I4], E5 as [G5 [_ [A5 B5]]],
    E6 as [G6 [A6 _]].
  split.
  - unfold CompanyBase_ok. cbn.
    specialize (U1 _ eq_refl). specialize (U2 _ eq_refl).
    specialize (U7 _ eq_refl). specialize (A5 _ eq_refl).
    specialize (B5 _ eq_refl). specialize (A6 _ eq_refl).
    repeat split; try lia; try assumption.
    intros x ->. now apply (check_opt_str_bound 255 _ x E8).
  - exists d. cbn. repeat split; try assumption.
    exact (check_opt_str_Good 255 _ _ E8).
Qed.



Lemma CompanyBase_validate_dump (c : CompanyBase.t) :
  CompanyBase_ok c -> CompanyBase_validate (CompanyBase_model_dump c) = Valid c.
Proof.
  destruct c as [n tg ds i fy ec hq w]. intros H.
  unfold CompanyBase_ok in H. cbn in H.
  destruct H as [[L1 U1] [[L2 U2] [L3 [I4 [[A5 B5] [A6 [[L7 U7] U8]]]]]]].
  unfold CompanyBase_validate, CompanyBase_model_dump.
  cbn -[check_str check_int check_literal check_opt_str].
  rewrite !check_str_accepts, check_literal_accepts, !check_int_accepts,
    check_opt_str_accepts;
    try assumption; try discriminate;
    try (intros ? [= <-]; lia).
  reflexivity.
Qed.

(** X12.  Dumping and validating again is the identity exactly on the
    records that meet the bounds: CompanyBase accepts model_dump() of a
    record, giving the record back, if and only if the record meets the
    declared bounds.  In particular what the schema has accepted once it
    accepts again, unchanged. *)
Theorem CompanyBase_model_dump_round_trip (c : CompanyBase.t) :
  (CompanyBase_ok c <->
   CompanyBase_validate (CompanyBase_model_dump c) = Valid c)
  /\ (forall body, CompanyBase_validate body = Valid c ->
        CompanyBase_validate (CompanyBase_model_dump c) = Valid c).
Proof.
  split.
  - split.
    + apply CompanyBase_validate_dump.
    + intros H. now apply (CompanyBase_Valid_inv _ c H).
  - intros body H. apply CompanyBase_validate_dump.
    now apply (CompanyBase_Valid_inv body c).
Qed.

Lemma CompanyBase_model_dump_round_trip_witness :
  CompanyBase_validate
    (CompanyBase_model_dump
       (CompanyBase.mk "Bolt" "Payments made simple" "A payments company"
          "SaaS" 2020 12 "Pune, India" None))
  = Valid (CompanyBase.mk "Bolt" "Payments made simple" "A payments company"
             "SaaS" 2020 12 "Pune, India" None).
Proof.
  apply (proj2 (CompanyBase_model_dump_round_trip
                  (CompanyBase.mk "Bolt" "Payments made simple"
                     "A payments company" "SaaS" 2020 12 "Pune, India" None))
           (company_body "Bolt" "SaaS")).
  reflexivity.
Defined.

Lemma ProductBase_checks_Good (d : dict) (n ds ta kf pm : string) :
  ProductBase_checks d = (Good n, Good ds, Good ta, Good kf, Good pm) ->
  ProductBase_ok (ProductBase.mk n ds ta kf pm)
  /\ dict_get "name" d = Some (JStr n)
  /\ dict_get "description" d = Some (JStr ds)
  /\ dict_get "target_audience" d = Some (JStr ta)
  /\ dict_get "key_features" d = Some (JStr kf)
  /\ dict_get "pricing_model" d = Some (JStr pm).
Proof.
  unfold ProductBase_checks. intros [= E1 E2 E3 E4 E5].
  apply check_str_Good in E1, E2, E3, E4. apply check_literal_Good in E5.
  destruct E1 as [G1 [L1 U1]], E2 as [G2 [L2 _]], E3 as [G3 [L3 U3]],
    E4 as [G4 [L4 _]], E5 as [G5 I5].
  specialize (U1 _ eq_refl). specialize (U3 _ eq_refl).
  unfold ProductBase_ok. cbn. repeat split; try lia; assumption.
Qed.

Lemma ProductBase_Valid_inv (body : JSON) (p : ProductBase.t) :
  ProductBase_validate body = Valid p ->
  ProductBase_ok p
  /\ exists d,
       body = JObj d
       /\ dict_get "name" d = Some (JStr (ProductBase.name p))
       /\ dict_get "description" d = Some (JStr (ProductBase.description p))
       /\ dict_get "target_audience" d
          = Some (JStr (ProductBase.target_audience p))
       /\ dict_get "key_features" d = Some (JStr (ProductBase.key_features p))
       /\ dict_get "pricing_model" d
          = Some (JStr (ProductBase.pricing_model p)).
Proof.
  intros H. unfold ProductBase_validate in H.
  destruct body as [| | | | | d]; try discriminate.
  destruct (ProductBase_errors d); [| discriminate H].
  destruct (ProductBase_checks d) as [[[[c1 c2] c3] c4] c5] eqn:E.
  destruct c1 as [n | |]; try discriminate H.
  destruct c2 as [ds | |]; try discriminate H.
  destruct c3 as [ta | |]; try discriminate H.
  destruct c4 as [kf | |]; try discriminate H.
  destruct c5 as [pm | |]; try discriminate H.
  injection H as <-.
  destruct (ProductBase_checks_Good d n ds ta kf pm E) as [Hok Hget].
  split; [exact Hok |]. exists d. cbn. tauto.
Qed.

Lemma ProductCreate_Valid_inv (body : JSON) (p : ProductCreate.t) :
  ProductCreate_validate body = Valid p ->
  ProductBase_ok (ProductCreate.base p)
  /\ 0 < ProductCreate.company_id p
  /\ exists d,
       body = JObj d
       /\ ProductBase_validate body = Valid (ProductCreate.base p)
       /\ dict_get "company_id" d = Some (JInt (ProductCreate.company_id p)).
Proof.
  intros H. unfold ProductCreate_validate in H.
  destruct body as [| | | | | d]; try discriminate. cbv zeta in H.
  destruct (ProductBase_errors d) as [| e errs] eqn:Eerr; [| discriminate H].
  cbn [app] in H.
  destruct (errors_of "company_id" _); [| discriminate H].
  destruct (ProductBase_checks d) as [[[[c1 c2] c3] c4] c5] eqn:E.
  destruct c1 as [n | |]; try discriminate H.
  destruct c2 as [ds | |]; try discriminate H.
  destruct c3 as [ta | |]; try discriminate H.
  destruct c4 as [kf | |]; try discriminate H.
  destruct c5 as [pm | |]; try discriminate H.
  destruct (check_int None None (Some 0) (dict_get "company_id" d))
    as [cid | |] eqn:Ecid; try discriminate H.
  injection H as <-. cbn [ProductCreate.base ProductCreate.company_id].
  destruct (ProductBase_checks_Good d n ds ta kf pm E) as [Hok _].
  apply check_int_Good in Ecid. destruct Ecid as [G [A _]].
  specialize (A _ eq_refl).
  split; [exact Hok |]. split; [exact A |].
  exists d. split; [reflexivity |]. split; [| exact G].
  unfold ProductBase_validate. now rewrite Eerr, E.
Qed.

(** X13.  A body that ProductCreate accepts has company_id above 0, and
    its other fields are accepted by ProductBase (the schema of PUT
    /products/{id}) with the same values, which meet the declared bounds:
    the string lengths and the pricing model among the four literals. *)
Theorem ProductCreate_validate_sound (body : JSON) (p : ProductCreate.t) :
  ProductCreate_validate body = Valid p ->
  ProductBase_ok (ProductCreate.base p)
  /\ 0 < ProductCreate.company_id p
  /\ exists d,
       body = JObj d
       /\ ProductBase_validate body = Valid (ProductCreate.base p)
       /\ dict_get "company_id" d = Some (JInt (ProductCreate.company_id p)).
Proof. exact (ProductCreate_Valid_inv body p). Qed.

Lemma ProductCreate_validate_sound_witness :
  ProductBase_ok (ProductBase.mk "Reader" "Card reader" "Shops" "Fast" "Freemium")
  /\ 0 < 1
  /\ exists d,
       product_body 1 "Reader" = JObj d
       /\ ProductBase_validate (product_body 1 "Reader")
          = Valid (ProductBase.mk "Reader" "Card reader" "Shops" "Fast"
                     "Freemium")
       /\ dict_get "company_id" d = Some (JInt 1).
Proof.
  apply (ProductCreate_validate_sound (product_body 1 "Reader")
           (ProductCreate.mk
              (ProductBase.mk "Reader" "Card reader" "Shops" "Fast" "Freemium")
              1)).
  reflexivity.
Defined.

(** * Rows written through the API meet the schemas *)

Lemma keeps_validated_Valid (I : DB -> Prop) {A B : Type}
  (v : Validated A) (k : A -> M B) :
  (forall a, v = Valid a -> keeps I (k a)) ->
  keeps I (a <- validated v ;; k a).
Proof.
  intros H s Hw Hc. rewrite bind_run.
  destruct v as [a | errs |]; cbn; [now apply (H a) | exact Hc | exact Hc].
Qed.

Lemma valid_rows_add_company (cs : list Company.row) (ps : list Product.row)
  (r : Company.row) :
  valid_rows {| companies := cs; products := ps |} ->
  CompanyBase_ok (Company_base r) ->
  valid_rows {| companies := cs ++ [r]; products := ps |}.
Proof.
  unfold valid_rows. cbn. intros [Hc Hp] Hr. split; [| exact Hp].
  intros c Hin. apply in_app_or in Hin. destruct Hin as [Hin | [<- | []]]; auto.
Qed.

Lemma valid_rows_add_product (cs : list Company.row) (ps : list Product.row)
  (r : Product.row) :
  valid_rows {| companies := cs; products := ps |} ->
  ProductBase_ok (Product_base r) ->
  valid_rows {| companies := cs; products := ps ++ [r] |}.
Proof.
  unfold valid_rows. cbn. intros [Hc Hp] Hr. split; [exact Hc |].
  intros p Hin. apply in_app_or in Hin. destruct Hin as [Hin | [<- | []]]; auto.
Qed.

Lemma valid_rows_update_company (cs : list Company.row) (ps : list Product.row)
  (cid : Z) (company : CompanyBase.t) :
  valid_rows {| companies := cs; products := ps |} ->
  CompanyBase_ok company ->
  valid_rows {| companies :=
                  map (fun r => if Company.id r =? cid
                                then Company_setattrs r company else r) cs;
                products := ps |}.
Proof.
  unfold valid_rows. cbn. intros [Hc Hp] Hok. split; [| exact Hp].
  intros c Hin. apply in_map_iff in Hin. destruct Hin as [r [<- Hr]].
  destruct (Company.id r =? cid); [| now apply Hc].
  now destruct company.
Qed.

Lemma valid_rows_update_product (cs : list Company.row) (ps : list Product.row)
  (pid : Z) (product : ProductBase.t) :
  valid_rows {| companies := cs; products := ps |} ->
  ProductBase_ok product ->
  valid_rows {| companies := cs;
                products :=
                  map (fun r => if Product.id r =? pid
                                then Product_setattrs r product else r) ps |}.
Proof.
  unfold valid_rows. cbn. intros [Hc Hp] Hok. split; [exact Hc |].
  intros p Hin. apply in_map_iff in Hin. destruct Hin as [r [<- Hr]].
  destruct (Product.id r =? pid); [| now apply Hp].
  now destruct product.
Qed.

Lemma valid_rows_fewer_rows (cs : list Company.row) (ps : list Product.row)
  (f : Company.row -> bool) (g : Product.row -> bool) :
  valid_rows {| companies := cs; products := ps |} ->
  valid_rows {| companies := filter f cs; products := filter g ps |}.
Proof.
  unfold valid_rows. cbn. intros [Hc Hp].
  split; intros x Hin; apply filter_In in Hin; [apply Hc | apply Hp]; tauto.
Qed.

Lemma create_company_keeps_valid (company : CompanyCreate) :
  CompanyBase_ok company -> keeps valid_rows (create_company company).
Proof.
  intros Hok s Hw Hc. pose proof (create_company_run company s) as H.
  destruct (find_by_name_ci _ (working s)).
  - rewrite H. exact Hc.
  - destruct H as [row [s' [-> [Hbase [_ [_ Hcom]]]]]]. cbn [snd].
    rewrite Hcom.
    apply valid_rows_add_company; [now rewrite DB_eta | now rewrite Hbase].
Qed.

Lemma update_company_keeps_valid (company_id : Z) (company : CompanyUpdate) :
  CompanyBase_ok company ->
  keeps valid_rows (update_company company_id company).
Proof.
  intros Hok s Hw Hc.
  pose proof (update_company_run company_id company s) as H.
  destruct (update_company company_id company s) as [[row | e |] s'];
    cbn [snd]; try (rewrite H; exact Hc).
  destruct H as [c [_ [_ [_ Hcom]]]]. rewrite Hcom.
  apply valid_rows_update_company; [now rewrite DB_eta | exact Hok].
Qed.

Lemma delete_company_keeps_valid (company_id : Z) :
  keeps valid_rows (delete_company company_id).
Proof.
  intros s Hw Hc. unfold delete_company. run.
  destruct (find _ (companies (working s))) as [c |]; [| exact Hc].
  unfold delete_Company. run.
  apply valid_rows_fewer_rows. now rewrite DB_eta.
Qed.

Lemma create_product_keeps_valid (product : ProductCreate.t) :
  ProductBase_ok (ProductCreate.base product) ->
  keeps valid_rows (create_product product).
Proof.
  intros Hok s Hw Hc. pose proof (create_product_run product s) as H.
  destruct (find _ (companies (working s))).
  - destruct H as [row [s' [-> [Hbase [_ [_ [_ Hcom]]]]]]]. cbn [snd].
    rewrite Hcom.
    apply valid_rows_add_product; [now rewrite DB_eta | now rewrite Hbase].
  - rewrite H. exact Hc.
Qed.

Lemma update_product_keeps_valid (product_id : Z) (product : ProductUpdate) :
  ProductBase_ok product ->
  keeps valid_rows (update_product product_id product).
Proof.
  intros Hok s Hw Hc. pose proof (update_product_run product_id product s) as H.
  destruct (find _ (products (working s))).
  - destruct H as [s' [-> Hcom]]. cbn [snd]. rewrite Hcom.
    apply valid_rows_update_product; [now rewrite DB_eta | exact Hok].
  - rewrite H. exact Hc.
Qed.

Lemma delete_product_keeps_valid (product_id : Z) :
  keeps valid_rows (delete_product product_id).
Proof.
  intros s Hw Hc. unfold delete_product. run.
  destruct (find _ (products (working s))) as [p |]; [| exact Hc].
  unfold delete_Product. run.
  rewrite <- (filter_true (companies (working s))) at 1.
  apply valid_rows_fewer_rows. now rewrite DB_eta.
Qed.

(** X14.  Every request other than the bulk load keeps the stored rows
    within the field contracts of schemas.py: if every stored company and
    product meets the bounds of its schema before the request, so does every
    stored row after it. *)
Theorem api_writes_keep_rows_valid (req : Request) (t : Z) (db : DB) :
  (forall f, req <> POST_load_data f) ->
  valid_rows db -> valid_rows (snd (serve req t db)).
Proof.
  intros Hreq Hvalid. apply serve_keeps; [| exact Hvalid].
  destruct req; cbn [route].
  - now contradiction (Hreq f).
  - apply keeps_map, get_companies_keeps.
  - apply keeps_map, get_company_keeps.
  - apply keeps_validated_Valid. intros a Ha.
    apply keeps_map, create_company_keeps_valid.
    now apply (CompanyBase_Valid_inv body a).
  - apply keeps_validated_Valid. intros a Ha.
    apply keeps_map, update_company_keeps_valid.
    now apply (CompanyBase_Valid_inv body a).
  - apply (keeps_map _ (delete_company company_id) (fun _ => NoContent)),
      delete_company_keeps_valid.
  - apply keeps_map. intros s Hw Hc. exact Hc.
  - apply keeps_map, get_product_keeps.
  - apply keeps_validated_Valid. intros a Ha.
    apply keeps_map, create_product_keeps_valid.
    now apply (ProductCreate_Valid_inv body a).
  - apply keeps_validated_Valid. intros a Ha.
    apply keeps_map, update_product_keeps_valid.
    now apply (ProductBase_Valid_inv body a).
  - apply (keeps_map _ (delete_product product_id) (fun _ => NoContent)),
      delete_product_keeps_valid.
  - intros s Hw Hc. exact Hc.
Qed.

Lemma acme_db_valid_rows : valid_rows acme_db.
Proof.
  split.
  - intros c [<- | []]. unfold CompanyBase_ok. cbn. repeat split; try lia.
    + tauto.
    + discriminate.
  - intros p [<- | [<- | []]]; unfold ProductBase_ok; cbn;
      repeat split; try lia; tauto.
Qed.

Lemma api_writes_keep_rows_valid_witness :
  valid_rows (snd (serve (PUT_company 1 (company_body "Acme" "SaaS")) 5 acme_db)).
Proof.
  apply (api_writes_keep_rows_valid (PUT_company 1 (company_body "Acme" "SaaS"))
           5 acme_db).
  - discriminate.
  - exact acme_db_valid_rows.
Defined.

(** * The stores the service can be in *)

(** X15.  Every store reached from the empty one by serving requests,
    bulk loads included, has unique ids in both tables, company names that
    are unique letter case apart, and no product whose company is missing. *)
Theorem reachable_store_is_consistent (db : DB) :
  reachable db -> primary_keys db /\ unique_names db /\ no_orphans db.
Proof.
  induction 1 as [| req t db Hreach [Hkeys [Hnames Horph]]].
  - repeat split; try constructor. intros p [].
  - assert (Hkeyed : keyed (snd (serve req t db)))
      by (apply serve_keeps; [apply route_keeps_keyed | now split]).
    destruct Hkeyed as [H1 H2]. split; [exact H1 |]. split; [exact H2 |].
    apply serve_keeps; [apply route_keeps | exact Horph].
Qed.

Lemma reachable_store_is_consistent_witness :
  primary_keys
    (snd (serve (POST_load_data (Content unvalidated_seed)) 6
            (snd (serve (POST_companies (company_body "Acme" "FinTech")) 5
                    empty_db))))
  /\ unique_names
       (snd (serve (POST_load_data (Content unvalidated_seed)) 6
               (snd (serve (POST_companies (company_body "Acme" "FinTech")) 5
                       empty_db))))
  /\ no_orphans
       (snd (serve (POST_load_data (Content unvalidated_seed)) 6
               (snd (serve (POST_companies (company_body "Acme" "FinTech")) 5
                       empty_db)))).
Proof.
  apply reachable_store_is_consistent.
  apply reachable_serve. apply reachable_serve. apply reachable_empty.
Defined.

(** * The bulk loader on documents that are not of the seed format *)

Lemma load_companies_app (a b : list JSON) (l sk : Z) (s : Session) :
  load_companies (a ++ b) l sk s
  = match load_companies a l sk s with
    | (Ok counts, s') => load_companies b (fst counts) (snd counts) s'
    | (Raise e, s') => (Raise e, s')
    | (Unmodelled, s') => (Unmodelled, s')
    end.
Proof.
  revert l sk s. induction a as [| record a IH]; intros l sk s;
    [reflexivity |].
  cbn [app load_companies].
  destruct record as [| x | n | x | items | d]; try reflexivity.
  destruct (dict_get "name" d) as [v |]; [| reflexivity].
  rewrite !bind_run.
  destruct (existing_by_name v s) as [[[c |] | e |] s1]; try reflexivity.
  - apply IH.
  - rewrite !bind_run.
    destruct (lift (Company_init (dict_remove "products" d)) s1)
      as [[o | e |] s2]; try reflexivity.
    rewrite !bind_run.
    destruct (insert_Company o s2) as [[r | e |] s3]; try reflexivity.
    rewrite !bind_run.
    destruct (lift (py_items _) s3) as [[ps | e |] s4]; try reflexivity.
    rewrite !bind_run.
    destruct (add_products (Company.id r) ps s4) as [[[] | e |] s5];
      try reflexivity.
    apply IH.
Qed.



(** X17.  Documents without records.  A JSON object with no "companies"
    key, or whose "companies" is an empty array (or an empty object or
    string, which have no items either), is answered 200 with
    {loaded: 0, skipped: 0, total: 0}; when "companies" is null, a number or
    a boolean the load ends in TypeError, and when the document is not an
    object in AttributeError.  The store is unchanged in every case. *)
Theorem load_data_without_records (db : DB) (t : Z) (data : JSON) :
  match data with
  | JObj d =>
      match dict_get "companies" d with
      | None | Some (JArr []) | Some (JObj []) | Some (JStr EmptyString) =>
          serve (POST_load_data (Content data)) t db
          = (Ok (LoadData (mkLoad 0 0 0)), db)
      | Some JNull | Some (JBool _) | Some (JInt _) =>
          serve (POST_load_data (Content data)) t db = (Raise TypeError, db)
      | _ => True
      end
  | _ =>
      serve (POST_load_data (Content data)) t db = (Raise AttributeError, db)
  end.
Proof.
  destruct data as [| b | n | x | items | d]; try reflexivity.
  unfold serve, run_request, route, load_data_from_json.
  rewrite !bind_run. cbn [read_seed json_load].
  rewrite lift_run, bind_run, lift_run. cbn [get_companies_data].
  destruct (dict_get "companies" d)
    as [[| b | n | [| c x] | [| i items] | [| kv m]] |];
    try exact I; reflexivity.
Qed.

(** * Properties of generate_data.py *)

(** ** retry_with_backoff *)

Import GenerateData.

Lemma retry_loop_rate_limits {A : Type} (func : nat -> Attempt A)
  (max_retries : Z) (k fuel : nat) (attempt : Z) (called : nat)
  (slept : list Z) :
  0 <= attempt < max_retries ->
  (forall i, (i < k)%nat ->
     exists msg, func (called + i)%nat = Raises msg /\ is_rate_limit msg = true) ->
  retry_loop (k + fuel) func max_retries attempt called slept
  = retry_loop fuel func max_retries
      (Z.min (attempt + Z.of_nat k) (max_retries - 1)) (called + k)%nat
      (slept ++ repeat 30 k).
Proof.
  revert attempt called slept.
  induction k as [| k IH]; intros attempt called slept Hatt Hfail.
  - cbn [repeat Nat.add]. rewrite app_nil_r, Nat.add_0_r.
    f_equal. lia.
  - cbn [Nat.add retry_loop].
    destruct (Z.ltb_spec attempt max_retries) as [_ | Hge]; [| lia].
    destruct (Hfail 0%nat) as [msg [Hcall Hrate]]; [lia |].
    rewrite Nat.add_0_r in Hcall. rewrite Hcall, Hrate. cbv zeta.
    rewrite IH.
    + f_equal.
      * destruct (Z.geb_spec (attempt + 1) max_retries); lia.
      * lia.
      * rewrite <- app_assoc. reflexivity.
    + destruct (Z.geb_spec (attempt + 1) max_retries); lia.
    + intros i Hi. destruct (Hfail (S i)) as [m [Hc Hr]]; [lia |].
      exists m. split; [| exact Hr]. rewrite <- Hc. f_equal. lia.
Qed.

Lemma retry_loop_failures {A : Type} (func : nat -> Attempt A)
  (msg : nat -> string) (max_retries : Z) (n fuel : nat) (attempt : Z)
  (called : nat) (slept : list Z) :
  0 <= attempt -> attempt + Z.of_nat n < max_retries ->
  (forall i, (i < n)%nat ->
     func (called + i)%nat = Raises (msg (called + i)%nat)
     /\ is_rate_limit (msg (called + i)%nat) = false) ->
  retry_loop (n + fuel) func max_retries attempt called slept
  = retry_loop fuel func max_retries (attempt + Z.of_nat n) (called + n)%nat
      (slept ++ map (fun i => 2 ^ (attempt + Z.of_nat i)) (seq 0 n)).
Proof.
  revert attempt called slept.
  induction n as [| n IH]; intros attempt called slept Hatt Hlt Hfail.
  - cbn [seq map Nat.add]. rewrite app_nil_r, Nat.add_0_r, Z.add_0_r.
    reflexivity.
  - cbn [Nat.add retry_loop].
    destruct (Z.ltb_spec attempt max_retries) as [_ | Hge]; [| lia].
    destruct (Hfail 0%nat) as [Hcall Hrate]; [lia |].
    rewrite Nat.add_0_r in Hcall, Hrate. rewrite Hcall, Hrate.
    destruct (Z.eqb_spec attempt (max_retries - 1)) as [Heq | _]; [lia |].
    cbv zeta. rewrite IH.
    + f_equal.
      * lia.
      * lia.
      * rewrite <- app_assoc. f_equal. cbn [seq map app].
        rewrite Z.add_0_r. f_equal.
        rewrite <- seq_shift, map_map. apply map_ext. intros i.
        f_equal. lia.
    + lia.
    + lia.
    + intros i Hi. destruct (Hfail (S i)) as [Hc Hr]; [lia |].
      replace (S called + i)%nat with (called + S i)%nat by lia. now split.
Qed.

(** X18.  With max_retries >= 1, when the first max_retries calls of func
    all fail with errors that are not rate-limit errors, the last of these
    errors is raised after exactly max_retries calls, and the waits before
    the retries were 1, 2, 4, ... seconds, max_retries - 1 of them (for the
    default of 3: two waits, of 1 s and 2 s). *)
Theorem retry_raises_after_max_failures {A : Type}
  (func : nat -> Attempt A) (msg : nat -> string) (max_retries : Z)
  (fuel : nat) :
  1 <= max_retries ->
  (forall i, (i < Z.to_nat max_retries)%nat ->
     func i = Raises (msg i) /\ is_rate_limit (msg i) = false) ->
  (Z.to_nat max_retries <= fuel)%nat ->
  retry_with_backoff fuel func max_retries
  = mkRun (Reraised (msg (Z.to_nat max_retries - 1)%nat))
      (Z.to_nat max_retries)
      (map (fun i => 2 ^ Z.of_nat i) (seq 0 (Z.to_nat max_retries - 1))).
Proof.
  intros Hmax Hfail Hfuel. unfold retry_with_backoff.
  set (n := (Z.to_nat max_retries - 1)%nat).
  replace fuel with (n + S (fuel - n - 1))%nat by lia.
  rewrite (retry_loop_failures func msg max_retries n); [| lia | lia |].
  - cbn [retry_loop Nat.add app].
    destruct (Z.ltb_spec (0 + Z.of_nat n) max_retries) as [_ | Hge]; [| lia].
    destruct (Hfail n) as [Hcall Hrate]; [lia |].
    rewrite Hcall, Hrate.
    destruct (Z.eqb_spec (0 + Z.of_nat n) (max_retries - 1)) as [_ | Hne];
      [| lia].
    f_equal. lia.
  - intros i Hi. cbn [Nat.add]. apply Hfail. lia.
Qed.

Lemma retry_raises_after_max_failures_witness :
  retry_with_backoff 5 (fun _ : nat => @Raises nat "timeout") 3
  = mkRun (Reraised "timeout") (Z.to_nat 3)
      (map (fun i => 2 ^ Z.of_nat i) (seq 0 (Z.to_nat 3 - 1))).
Proof.
  apply (retry_raises_after_max_failures (fun _ : nat => @Raises nat "timeout")
           (fun _ => "timeout") 3 5).
  - lia.
  - intros i _. split; reflexivity.
  - cbn. lia.
Defined.

(** X19.  When func succeeds at its call number j (from 0) after j failures
    that are not rate-limit errors, with j < max_retries, its value is
    returned after j + 1 calls and waits of 1, 2, ..., 2^(j-1) seconds; a
    success at the first call returns at once, without a wait. *)
Theorem retry_returns_after_failures {A : Type}
  (func : nat -> Attempt A) (msg : nat -> string) (max_retries : Z)
  (j fuel : nat) (a : A) :
  Z.of_nat j < max_retries ->
  (forall i, (i < j)%nat ->
     func i = Raises (msg i) /\ is_rate_limit (msg i) = false) ->
  func j = Returns a ->
  (j < fuel)%nat ->
  retry_with_backoff fuel func max_retries
  = mkRun (Returned a) (S j) (map (fun i => 2 ^ Z.of_nat i) (seq 0 j)).
Proof.
  intros Hj Hfail Hok Hfuel. unfold retry_with_backoff.
  replace fuel with (j + S (fuel - j - 1))%nat by lia.
  rewrite (retry_loop_failures func msg max_retries j); [| lia | lia |].
  - cbn [retry_loop Nat.add app].
    destruct (Z.ltb_spec (0 + Z.of_nat j) max_retries) as [_ | Hge]; [| lia].
    now rewrite Hok.
  - intros i Hi. cbn [Nat.add]. now apply Hfail.
Qed.

Lemma retry_returns_after_failures_witness :
  retry_with_backoff 4
    (fun k => match k with 2%nat => Returns 7 | _ => Raises "timeout" end) 3
  = mkRun (Returned 7) 3 (map (fun i => 2 ^ Z.of_nat i) (seq 0 2)).
Proof.
  apply (retry_returns_after_failures
           (fun k => match k with 2%nat => Returns 7 | _ => Raises "timeout" end)
           (fun _ => "timeout") 3 2 4 7).
  - lia.
  - intros [| [| i]] Hi; [split; reflexivity | split; reflexivity | lia].
  - reflexivity.
  - lia.
Defined.

(** X20.  Rate-limit errors are retried without end.  With max_retries >= 1,
    as long as every call of func fails with a rate-limit error the function
    neither raises nor returns: after n such calls it has waited n times 30 s
    and is about to call again; and when the call after them succeeds, its
    value is returned. *)
Theorem retry_never_gives_up_on_rate_limits {A : Type}
  (func : nat -> Attempt A) (max_retries : Z) (n : nat) :
  1 <= max_retries ->
  (forall i, (i < n)%nat ->
     exists msg, func i = Raises msg /\ is_rate_limit msg = true) ->
  retry_with_backoff n func max_retries = mkRun StillTrying n (repeat 30 n)
  /\ (forall a fuel,
        func n = Returns a -> (n < fuel)%nat ->
        retry_with_backoff fuel func max_retries
        = mkRun (Returned a) (S n) (repeat 30 n)).
Proof.
  intros Hmax Hfail. unfold retry_with_backoff. split.
  - replace n with (n + 0)%nat at 1 by lia.
    rewrite (retry_loop_rate_limits func max_retries n 0); [reflexivity | lia |].
    intros i Hi. now apply Hfail.
  - intros a fuel Hok Hfuel.
    replace fuel with (n + S (fuel - n - 1))%nat by lia.
    rewrite (retry_loop_rate_limits func max_retries n); [| lia |].
    + cbn [retry_loop Nat.add app].
      destruct (Z.ltb_spec (Z.min (0 + Z.of_nat n) (max_retries - 1))
                  max_retries) as [_ | Hge]; [| lia].
      now rewrite Hok.
    + intros i Hi. now apply Hfail.
Qed.

Lemma retry_never_gives_up_on_rate_limits_witness :
  retry_with_backoff 50 (fun _ : nat => @Raises nat "429 Too Many Requests") 3
  = mkRun StillTrying 50 (repeat 30 50)
  /\ (forall (a : nat) fuel,
        (fun _ : nat => @Raises nat "429 Too Many Requests") 50%nat = Returns a ->
        (50 < fuel)%nat ->
        retry_with_backoff fuel
          (fun _ : nat => @Raises nat "429 Too Many Requests") 3
        = mkRun (Returned a) 51 (repeat 30 50)).
Proof.
  apply (retry_never_gives_up_on_rate_limits
           (fun _ : nat => @Raises nat "429 Too Many Requests") 3 50).
  - lia.
  - intros i _. exists "429 Too Many Requests". split; reflexivity.
Defined.

(** X21.  Rate-limit errors use up the attempts of the other errors.  With
    max_retries >= 1, after max_retries - 1 or more rate-limit errors the
    first error that is not a rate-limit error is raised at once, without a
    backoff wait or a retry. *)
Theorem retry_rate_limits_use_up_attempts {A : Type}
  (func : nat -> Attempt A) (max_retries : Z) (k fuel : nat)
  (error_message : string) :
  1 <= max_retries ->
  max_retries - 1 <= Z.of_nat k ->
  (forall i, (i < k)%nat ->
     exists msg, func i = Raises msg /\ is_rate_limit msg = true) ->
  func k = Raises error_message -> is_rate_limit error_message = false ->
  (k < fuel)%nat ->
  retry_with_backoff fuel func max_retries
  = mkRun (Reraised error_message) (S k) (repeat 30 k).
Proof.
  intros Hmax Hk Hfail Hcall Hrate Hfuel. unfold retry_with_backoff.
  replace fuel with (k + S (fuel - k - 1))%nat by lia.
  rewrite (retry_loop_rate_limits func max_retries k); [| lia |].
  - cbn [retry_loop Nat.add app].
    replace (Z.min (0 + Z.of_nat k) (max_retries - 1)) with (max_retries - 1)
      by lia.
    destruct (Z.ltb_spec (max_retries - 1) max_retries) as [_ | Hge]; [| lia].
    rewrite Hcall, Hrate. now rewrite Z.eqb_refl.
  - intros i Hi. now apply Hfail.
Qed.

Lemma retry_rate_limits_use_up_attempts_witness :
  retry_with_backoff 5
    (fun k => match k with
              | 0%nat | 1%nat => @Raises nat "quota exceeded"
              | _ => Raises "timeout"
              end) 3
  = mkRun (Reraised "timeout") 3 (repeat 30 2).
Proof.
  apply (retry_rate_limits_use_up_attempts
           (fun k => match k with
                     | 0%nat | 1%nat => @Raises nat "quota exceeded"
                     | _ => Raises "timeout"
                     end) 3 2 5 "timeout").
  - lia.
  - lia.
  - intros [| [| i]] Hi; [| | lia]; exists "quota exceeded"; split; reflexivity.
  - reflexivity.
  - reflexivity.
  - lia.
Defined.

Lemma retry_loop_stays_in_loop {A : Type} (func : nat -> Attempt A)
  (max_retries : Z) (fuel : nat) (attempt : Z) (called : nat)
  (slept : list Z) :
  0 <= attempt < max_retries ->
  outcome (retry_loop fuel func max_retries attempt called slept)
  <> ReturnedNone.
Proof.
  revert attempt called slept.
  induction fuel as [| fuel IH]; intros attempt called slept Hatt;
    cbn [retry_loop]; [discriminate |].
  destruct (Z.ltb_spec attempt max_retries) as [_ | Hge]; [| lia].
  destruct (func called) as [a | msg]; [discriminate |].
  destruct (is_rate_limit msg).
  - cbv zeta. apply IH.
    destruct (Z.geb_spec (attempt + 1) max_retries); lia.
  - destruct (Z.eqb_spec attempt (max_retries - 1)); [discriminate |].
    cbv zeta. apply IH. lia.
Qed.

(** X22.  retry_with_backoff returns None only when it is given
    max_retries <= 0, and then at once, without calling func; with
    max_retries >= 1 the while loop is never left by its condition: the
    function ends by returning func's value or by raising, if it ends. *)
Theorem retry_returns_None_only_without_retries {A : Type}
  (func : nat -> Attempt A) (max_retries : Z) (fuel : nat) :
  (max_retries <= 0 ->
   retry_with_backoff (S fuel) func max_retries = mkRun ReturnedNone 0 [])
  /\ (1 <= max_retries ->
      outcome (retry_with_backoff fuel func max_retries) <> ReturnedNone).
Proof.
  split.
  - intros Hmax. unfold retry_with_backoff. cbn [retry_loop].
    destruct (Z.ltb_spec 0 max_retries); [lia | reflexivity].
  - intros Hmax. apply retry_loop_stays_in_loop. lia.
Qed.

Lemma retry_returns_None_only_without_retries_witness :
  retry_with_backoff 1 (fun _ : nat => @Raises nat "timeout") 0
  = mkRun ReturnedNone 0 []
  /\ outcome (retry_with_backoff 4 (fun _ : nat => @Raises nat "timeout") 3)
     <> ReturnedNone.
Proof.
  split.
  - apply (proj1 (retry_returns_None_only_without_retries
                    (fun _ : nat => @Raises nat "timeout") 0 0)). lia.
  - apply (proj2 (retry_returns_None_only_without_retries
                    (fun _ : nat => @Raises nat "timeout") 3 4)). lia.
Defined.

(** ** main *)

Lemma for_range_step (generate : nat -> string -> Z -> option JSON)
  (industry : string) (st : State) :
  let st' := for_range generate industry COMPANIES_PER_INDUSTRY st in
  exists new asked,
    all_companies st' = all_companies st ++ new
    /\ requests st' = requests st ++ asked
    /\ company_counter st' = company_counter st + Z.of_nat (List.length new)
    /\ (List.length new <= List.length asked)%nat
    /\ (1 <= List.length asked <= 2)%nat
    /\ In industry (map fst asked)
    /\ (waits st <= waits st' <= waits st + List.length new)%nat.
Proof.
  cbn [for_range COMPANIES_PER_INDUSTRY].
  destruct (generate (List.length (requests st)) industry (company_counter st))
    as [c1 |].
  - cbn [requests company_counter all_companies waits].
    destruct (generate _ industry (company_counter st + 1)) as [c2 |].
    + exists [c1; c2].
      exists [(industry, company_counter st); (industry, company_counter st + 1)].
      cbn [requests company_counter all_companies waits List.length map fst In].
      rewrite <- !app_assoc. repeat split; try lia; try tauto.
      * destruct (_ <=? _), (_ <=? _); lia.
      * destruct (_ <=? _), (_ <=? _); lia.
    + exists [c1].
      exists [(industry, company_counter st); (industry, company_counter st + 1)].
      cbn [requests company_counter all_companies waits List.length map fst In].
      rewrite <- !app_assoc. repeat split; try lia; try tauto.
      * destruct (_ <=? _); lia.
      * destruct (_ <=? _); lia.
  - exists [], [(industry, company_counter st)].
    cbn [requests company_counter all_companies waits List.length map fst In].
    rewrite app_nil_r. repeat split; try lia; tauto.
Qed.

Lemma generate_fold (generate : nat -> string -> Z -> option JSON)
  (industries : list string) (st : State) :
  let st' :=
    fold_left
      (fun st industry => for_range generate industry COMPANIES_PER_INDUSTRY st)
      industries st in
  exists new asked,
    all_companies st' = all_companies st ++ new
    /\ requests st' = requests st ++ asked
    /\ company_counter st' = company_counter st + Z.of_nat (List.length new)
    /\ (List.length new <= List.length asked)%nat
    /\ (List.length industries <= List.length asked
        <= 2 * List.length industries)%nat
    /\ (forall industry, In industry industries -> In industry (map fst asked))
    /\ (waits st' <= waits st + List.length new)%nat.
Proof.
  revert st. induction industries as [| industry industries IH]; intros st.
  - exists [], []. cbn. rewrite !app_nil_r. repeat split; try lia; tauto.
  - cbn [fold_left].
    destruct (for_range_step generate industry st)
      as [new1 [asked1 [Ha [Hr [Hc [Hl [Hn [Hin Hw]]]]]]]].
    destruct (IH (for_range generate industry COMPANIES_PER_INDUSTRY st))
      as [new2 [asked2 [Ha2 [Hr2 [Hc2 [Hl2 [Hn2 [Hin2 Hw2]]]]]]]].
    exists (new1 ++ new2), (asked1 ++ asked2).
    rewrite Ha2, Hr2, Hc2, Ha, Hr, Hc, <- !app_assoc, !length_app.
    cbn [List.length]. repeat split; try lia.
    intros i [<- | Hi]; rewrite map_app; apply in_or_app; [left | right]; auto.
Qed.

(** X23.  Whatever the calls of generate_company_data return or raise, main
    calls it between 5 and 10 times and at least once for each of the five
    industries: an exception ends only the inner loop of its industry and the
    next industry is still generated.  The companies gathered are at most as
    many as the calls, the counter is one more than their number, and when
    json.dump goes through the document written is an object whose
    "companies" value is the array of the gathered companies. *)
Theorem main_asks_every_industry
  (generate : nat -> string -> Z -> option JSON) :
  (5 <= List.length (requests (generate_all generate)) <= 10)%nat
  /\ (forall industry, In industry GenerateData.INDUSTRIES ->
        In industry (map fst (requests (generate_all generate))))
  /\ (List.length (all_companies (generate_all generate))
      <= List.length (requests (generate_all generate)))%nat
  /\ company_counter (generate_all generate)
     = 1 + Z.of_nat (List.length (all_companies (generate_all generate)))
  /\ (waits (generate_all generate)
      <= List.length (all_companies (generate_all generate)))%nat
  /\ exists status document,
       main generate true = (status, Some document)
       /\ seed_records document
          = Some (all_companies (generate_all generate)).
Proof.
  unfold generate_all.
  destruct (generate_fold generate GenerateData.INDUSTRIES (mkState [] 1 [] 0))
    as [new [asked [Ha [Hr [Hc [Hl [Hn [Hin Hw]]]]]]]].
  cbn [all_companies requests company_counter waits app List.length
       GenerateData.INDUSTRIES] in *.
  repeat split.
  - rewrite Hr. lia.
  - rewrite Hr. lia.
  - rewrite Hr. exact Hin.
  - rewrite Ha, Hr. exact Hl.
  - rewrite Ha, Hc. reflexivity.
  - rewrite Ha. lia.
  - unfold main. eexists. eexists. split; reflexivity.
Qed.

(** X24.  When every call of generate_company_data raises, main still
    calls it once for each of the five industries, always as company 1,
    waits for nothing, writes the document with an empty "companies" array
    and exits with status 0; the bulk load of that document answers
    {loaded: 0, skipped: 0, total: 0}. *)
Theorem main_when_every_call_fails
  (generate : nat -> string -> Z -> option JSON) :
  (forall k industry n, generate k industry n = None) ->
  generate_all generate
  = mkState [] 1 (map (fun industry => (industry, 1)) GenerateData.INDUSTRIES) 0
  /\ main generate true = (0, Some (JObj [("companies", JArr [])]))
  /\ (forall t db,
        serve (POST_load_data (Content (JObj [("companies", JArr [])]))) t db
        = (Ok (LoadData (mkLoad 0 0 0)), db)).
Proof.
  intros Hfail.
  assert (E : generate_all generate
              = mkState [] 1
                  (map (fun industry => (industry, 1)) GenerateData.INDUSTRIES)
                  0).
  { assert (Hstep : forall industry st,
              for_range generate industry COMPANIES_PER_INDUSTRY st
              = mkState (all_companies st) (company_counter st)
                  (requests st ++ [(industry, company_counter st)]) (waits st)).
    { intros industry st. cbn [for_range COMPANIES_PER_INDUSTRY].
      now rewrite Hfail. }
    unfold generate_all. cbn [fold_left GenerateData.INDUSTRIES].
    rewrite !Hstep. reflexivity. }
  split; [exact E |]. split; [| reflexivity].
  unfold main. now rewrite E.
Qed.

Lemma main_when_every_call_fails_witness :
  generate_all (fun _ _ _ => None)
  = mkState [] 1 (map (fun industry => (industry, 1)) GenerateData.INDUSTRIES) 0
  /\ main (fun _ _ _ => None) true = (0, Some (JObj [("companies", JArr [])]))
  /\ (forall t db,
        serve (POST_load_data (Content (JObj [("companies", JArr [])]))) t db
        = (Ok (LoadData (mkLoad 0 0 0)), db)).
Proof.
  apply (main_when_every_call_fails (fun _ _ _ => None)). reflexivity.
Defined.

(** X25.  When every call of generate_company_data returns, main makes ten
    calls, two for each industry in the order of INDUSTRIES and numbered 1 to
    10, gathers the ten companies in the order of the calls, and waits one
    second after each company but the last (nine times). *)
Theorem main_when_every_call_returns
  (generate : nat -> string -> Z -> option JSON) (data : nat -> JSON) :
  (forall k industry n, generate k industry n = Some (data k)) ->
  generate_all generate
  = mkState (map data (seq 0 10)) 11
      [("FinTech", 1); ("FinTech", 2); ("HealthTech", 3); ("HealthTech", 4);
       ("EdTech", 5); ("EdTech", 6); ("E-commerce", 7); ("E-commerce", 8);
       ("SaaS", 9); ("SaaS", 10)]
      9.
Proof.
  intros Hok.
  assert (Hstep : forall industry st,
            for_range generate industry COMPANIES_PER_INDUSTRY st
            = mkState
                (all_companies st
                 ++ [data (List.length (requests st));
                     data (S (List.length (requests st)))])
                (company_counter st + 1 + 1)
                (requests st
                 ++ [(industry, company_counter st);
                     (industry, company_counter st + 1)])
                (if company_counter st + 1 + 1 <=? TOTAL_COMPANIES
                 then S (if company_counter st + 1 <=? TOTAL_COMPANIES
                         then S (waits st) else waits st)
                 else (if company_counter st + 1 <=? TOTAL_COMPANIES
                       then S (waits st) else waits st))).
  { intros industry st. cbn [for_range COMPANIES_PER_INDUSTRY].
    rewrite Hok. cbn [requests company_counter all_companies waits].
    rewrite Hok. rewrite length_app, Nat.add_1_r, <- !app_assoc.
    reflexivity. }
  unfold generate_all. cbn [fold_left GenerateData.INDUSTRIES].
  do 5 (rewrite Hstep;
        cbn [requests company_counter all_companies waits app List.length]).
  reflexivity.
Qed.

Lemma main_when_every_call_returns_witness :
  generate_all (fun k _ _ => Some (JInt (Z.of_nat k)))
  = mkState (map (fun k => JInt (Z.of_nat k)) (seq 0 10)) 11
      [("FinTech", 1); ("FinTech", 2); ("HealthTech", 3); ("HealthTech", 4);
       ("EdTech", 5); ("EdTech", 6); ("E-commerce", 7); ("E-commerce", 8);
       ("SaaS", 9); ("SaaS", 10)]
      9.
Proof.
  apply (main_when_every_call_returns (fun k _ _ => Some (JInt (Z.of_nat k)))
           (fun k => JInt (Z.of_nat k))).
  reflexivity.
Defined.
